(** * filify: categorising files by extension, with a move log and undo

    A shallow embedding of [filify.py].  The program is a script over the
    file system, a text log ([filify.log]) and standard output; it is
    modelled as state-passing code in a small state-and-exception monad.

    - Python [str] values are Rocq strings whose characters are the code
      points below 256.
    - Everything outside the program except the log file and standard
      output (the directory tree, the clock, the source of UUIDs) is an
      abstract host state with the system calls the script makes
      (class [Host]); a small reference host [RefHost] instantiates it.
    - The log file is a component of the world of its own: the development
      covers runs in which [filify.log] is not one of the files being moved,
      and in which the log can be opened (reads and writes of it succeed).
    - [trace] records, in program order, the calls to [os.makedirs] and
      [shutil.move], the appends to the log and the lines printed. *)

From stdpp Require Import gmap strings list pretty.
From Stdlib Require Import Ascii ZArith Lia.

Open Scope Z_scope.

(** ** Python string primitives *)

Module Py.

Definition LF : ascii := "010"%char.
Definition CR : ascii := "013"%char.
Definition NL : string := String LF EmptyString.

(** [c.isspace()] for a code point below 256. *)
Definition isspace (c : ascii) : bool :=
  let n := nat_of_ascii c in
  ((9 <=? n) && (n <=? 13) || (28 <=? n) && (n <=? 32)
   || (n =? 133) || (n =? 160))%nat.

(** [c.lower()] for a code point below 256: A-Z and the Latin-1 capitals. *)
Definition lower_char (c : ascii) : ascii :=
  let n := nat_of_ascii c in
  if ((65 <=? n) && (n <=? 90)
      || (192 <=? n) && (n <=? 222) && negb (n =? 215))%nat
  then ascii_of_nat (n + 32) else c.

Fixpoint lower (s : string) : string :=
  match s with
  | EmptyString => EmptyString
  | String c s' => String (lower_char c) (lower s')
  end.

Definition startswith (p s : string) : bool := String.prefix p s.

Fixpoint endswith_char (c : ascii) (s : string) : bool :=
  match s with
  | EmptyString => false
  | String d EmptyString => Ascii.eqb c d
  | String _ s' => endswith_char c s'
  end.

(** [sub in s] *)
Fixpoint contains (sub s : string) : bool :=
  startswith sub s ||
  match s with
  | EmptyString => false
  | String _ s' => contains sub s'
  end.

(** [c in s] for a single character. *)
Fixpoint has_char (c : ascii) (s : string) : bool :=
  match s with
  | EmptyString => false
  | String d s' => Ascii.eqb c d || has_char c s'
  end.

Fixpoint lstrip (s : string) : string :=
  match s with
  | EmptyString => EmptyString
  | String c s' => if isspace c then lstrip s' else s
  end.

Fixpoint rstrip (s : string) : string :=
  match s with
  | EmptyString => EmptyString
  | String c s' =>
      match rstrip s' with
      | EmptyString => if isspace c then EmptyString else String c EmptyString
      | t => String c t
      end
  end.

(** [s.strip()] *)
Definition strip (s : string) : string := rstrip (lstrip s).

(** [s.split(sep)] for a non-empty separator: occurrences are found from
    the left and do not overlap.  [skip] counts the characters of a
    separator that remain to be passed over, [cur] is the field being read. *)
Fixpoint split_from (sep : string) (skip : nat) (cur : string) (s : string)
  : list string :=
  match s with
  | EmptyString => [cur]
  | String c s' =>
      match skip with
      | S k => split_from sep k cur s'
      | O =>
          if startswith sep s
          then cur :: split_from sep (String.length sep - 1) EmptyString s'
          else split_from sep 0 (cur +:+ String c EmptyString) s'
      end
  end.

Definition split (sep s : string) : list string :=
  split_from sep 0 EmptyString s.

(** [l[-1]] of a non-empty list (the result of [split] is never empty). *)
Definition last_field (l : list string) : string := List.last l EmptyString.

(** [l[i:]] and [l[:j]] with Python's treatment of negative and
    out-of-range bounds. *)
Definition slice_index {A} (i : Z) (l : list A) : nat :=
  let len := Z.of_nat (length l) in
  Z.to_nat (if i <? 0 then Z.max (i + len) 0 else Z.min i len).

Definition slice_from {A} (i : Z) (l : list A) : list A :=
  drop (slice_index i l) l.

Definition slice_to {A} (j : Z) (l : list A) : list A :=
  take (slice_index j l) l.

(** [enumerate(l)] *)
Definition enumerate {A} (l : list A) : list (nat * A) := imap pair l.

(** [posixpath.join(a, b)] *)
Definition path_join (a b : string) : string :=
  if startswith "/" b then b
  else if String.eqb a EmptyString || endswith_char "/" a then a +:+ b
  else a +:+ "/" +:+ b.

(** Text-mode reading translates the line endings CR LF and CR to LF. *)
Fixpoint universal_newlines (s : string) : string :=
  match s with
  | EmptyString => EmptyString
  | String c s' =>
      if Ascii.eqb c CR then
        String LF
          match s' with
          | String d s'' =>
              if Ascii.eqb d LF then universal_newlines s''
              else universal_newlines s'
          | EmptyString => EmptyString
          end
      else String c (universal_newlines s')
  end.

(** Cutting a text after each LF, the line ends kept. *)
Fixpoint keepends (s : string) : list string :=
  match s with
  | EmptyString => []
  | String c s' =>
      if Ascii.eqb c LF then String c EmptyString :: keepends s'
      else match keepends s' with
           | [] => [String c EmptyString]
           | l :: ls => String c l :: ls
           end
  end.

(** [f.readlines()] on a file opened in text mode with this content. *)
Definition readlines (content : string) : list string :=
  keepends (universal_newlines content).

(** What [f.writelines(lines)] writes. *)
Definition writelines (lines : list string) : string :=
  foldr String.append EmptyString lines.

End Py.

(** ** Exceptions, events and the host *)

(** The exception classes the script tells apart; every other subclass of
    [Exception] is [OtherException].  [message e] is [str(e)]. *)
Inductive exn_kind :=
| FileNotFoundError
| PermissionError
| ValueError
| UnboundLocalError
| OtherException.

Record exn := mk_exn { kind : exn_kind; message : string }.

(** [a, b, c = l] with the wrong number of values. *)
Definition unpack_error (expected got : nat) : exn :=
  mk_exn ValueError
    (if (got <? expected)%nat
     then "not enough values to unpack (expected " +:+ pretty expected
          +:+ ", got " +:+ pretty got +:+ ")"
     else "too many values to unpack (expected " +:+ pretty expected +:+ ")").

(** Reading the local [commit_id] of [undo_last_moves] before any
    assignment to it. *)
Definition unbound_commit_id : exn :=
  mk_exn UnboundLocalError
    "cannot access local variable 'commit_id' where it is not associated with a value".

Inductive event :=
| EMakedirs (path : string) (err : option exn)
| EMove (src dst : string) (err : option exn)
| ELog (original new line : string)
| EPrint (text : string).

Definition is_move (ev : event) : bool :=
  match ev with EMove _ _ _ => true | _ => false end.


(** The system calls of the script, as functions of the host state.  A call
    that can raise returns the exception or the result, and the next state. *)
Class Host (H : Type) := {
  os_path_exists : string -> H -> bool;
  os_path_isfile : string -> H -> bool;
  os_path_isdir : string -> H -> bool;
  os_listdir : string -> H -> (exn + list string) * H;
  os_makedirs : string -> H -> (exn + unit) * H;
  shutil_move : string -> string -> H -> (exn + unit) * H;
  (** [str(uuid.uuid4())] *)
  uuid4 : H -> string * H;
  (** [datetime.now().strftime('%Y-%m-%d %H:%M:%S')] *)
  now : H -> string * H
}.

(** The settings read from [config.json] when the module is loaded.
    [GROUP_EXTENSIONS] is a dict: its items in declaration order. *)
Record Config := {
  DIRECTORY : string;
  GROUP_EXTENSIONS : list (string * list string);
  UNSORTED_FOLDER : string
}.

(** The parsed command line: [--undo] (default 0) and [--undo_commit]. *)
Record Args := { undo : Z; undo_commit : option string }.

Inductive outcome (A : Type) :=
| Ret (a : A)
| Raise (e : exn)
| Exit (status : Z).
Arguments Ret {A} a.
Arguments Raise {A} e.
Arguments Exit {A} status.

Declare Scope prog_scope.
Delimit Scope prog_scope with prog.

Section Program.

Context {H : Type} `{Host H}.

Record World := mkWorld {
  host : H;
  log_file : option string;   (* LOG_FILE: [None] when it does not exist *)
  trace : list event
}.

Definition M (A : Type) : Type := World -> outcome A * World.

Definition ret {A} (a : A) : M A := fun w => (Ret a, w).

Definition bind {A B} (m : M A) (f : A -> M B) : M B :=
  fun w =>
    match m w with
    | (Ret a, w') => f a w'
    | (Raise e, w') => (Raise e, w')
    | (Exit n, w') => (Exit n, w')
    end.

Definition raise {A} (e : exn) : M A := fun w => (Raise e, w).

(** [exit(n)] raises [SystemExit], which no [except Exception] catches. *)
Definition exit {A} (n : Z) : M A := fun w => (Exit n, w).

(** [try: body except Exception as e: handler] *)
Definition try_except {A} (body : M A) (handler : exn -> M A) : M A :=
  fun w =>
    match body w with
    | (Raise e, w') => handler e w'
    | r => r
    end.

Local Notation "'let!' x ':=' m 'in' k" := (bind m (fun x => k))
  (at level 10, x pattern, m at level 100, k at level 200, only parsing).
Local Notation "m ;; k" := (bind m (fun _ => k))
  (at level 100, k at level 200, only parsing, right associativity).

Definition emit (ev : event) : M unit :=
  fun w => (Ret tt, mkWorld (host w) (log_file w) (trace w ++ [ev])).

Definition print (text : string) : M unit := emit (EPrint text).

Definition query {A} (f : H -> A) : M A := fun w => (Ret (f (host w)), w).

Definition draw {A} (f : H -> A * H) : M A :=
  fun w => let '(a, h) := f (host w) in
           (Ret a, mkWorld h (log_file w) (trace w)).

Definition syscall {A} (f : H -> (exn + A) * H) (ev : option exn -> event)
  : M A :=
  fun w =>
    match f (host w) with
    | (inl e, h) => (Raise e, mkWorld h (log_file w) (trace w ++ [ev (Some e)]))
    | (inr a, h) => (Ret a, mkWorld h (log_file w) (trace w ++ [ev None]))
    end.

Definition listdir (path : string) : M (list string) :=
  fun w =>
    match os_listdir path (host w) with
    | (inl e, h) => (Raise e, mkWorld h (log_file w) (trace w))
    | (inr l, h) => (Ret l, mkWorld h (log_file w) (trace w))
    end.

Definition makedirs (path : string) : M unit :=
  syscall (os_makedirs path) (EMakedirs path).

Definition move (src dst : string) : M unit :=
  syscall (shutil_move src dst) (EMove src dst).

Fixpoint for_each {A} (l : list A) (body : A -> M unit) : M unit :=
  match l with
  | [] => ret tt
  | x :: rest => body x ;; for_each rest body
  end.

(** *** The log *)

Definition generate_commit_id : M string :=
  let! u := draw uuid4 in ret (String.substring 0 8 u).

(** The line [log_move] writes, its end of line included. *)
Definition log_line (timestamp commit_id original_path new_path : string)
  : string :=
  timestamp +:+ " | " +:+ commit_id +:+ " | " +:+ original_path
  +:+ " -> " +:+ new_path +:+ Py.NL.

Definition append_log (original new line : string) : M unit :=
  fun w =>
    (Ret tt,
     mkWorld (host w) (Some (default EmptyString (log_file w) +:+ line))
             (trace w ++ [ELog original new line])).

Definition log_move (original_path new_path : string) : M unit :=
  let! commit_id := generate_commit_id in
  let! timestamp := draw now in
  append_log original_path new_path
             (log_line timestamp commit_id original_path new_path).

Definition log_exists : M bool :=
  fun w => (Ret (bool_decide (is_Some (log_file w))), w).

Definition read_log : M (list string) :=
  fun w => (Ret (Py.readlines (default EmptyString (log_file w))), w).

Definition write_log (lines : list string) : M unit :=
  fun w => (Ret tt, mkWorld (host w) (Some (Py.writelines lines)) (trace w)).

(** *** Listing and categorising *)

Section WithConfig.

Variable cfg : Config.

(** The three [except] clauses shared by [list_files_and_folders] and
    [categorize_files]. *)
Definition directory_errors {A} (e : exn) : M A :=
  match kind e with
  | FileNotFoundError =>
      print ("The directory " +:+ DIRECTORY cfg +:+ " does not exist.") ;; exit 1
  | PermissionError =>
      print ("Permission denied to access " +:+ DIRECTORY cfg +:+ ".") ;; exit 1
  | _ => print ("An error occurred: " +:+ message e) ;; exit 1
  end.

Definition list_files_and_folders : M (list string * list string) :=
  try_except
    (let! entries := listdir (DIRECTORY cfg) in
     let! files :=
       query (fun h => List.filter
                (fun entry => os_path_isfile (Py.path_join (DIRECTORY cfg) entry) h)
                entries) in
     let! folders :=
       query (fun h => List.filter
                (fun entry => os_path_isdir (Py.path_join (DIRECTORY cfg) entry) h)
                entries) in
     ret (files, folders))
    directory_errors.

(** The inner loop over [GROUP_EXTENSIONS.items()]; the result is [moved]. *)
Fixpoint scan_categories (file file_path file_extension : string)
    (items : list (string * list string)) : M bool :=
  match items with
  | [] => ret false
  | (category, extensions) :: rest =>
      if bool_decide (file_extension ∈ extensions) then
        let destination_folder := Py.path_join (DIRECTORY cfg) category in
        let new_path := Py.path_join destination_folder file in
        move file_path new_path ;;
        log_move file_path new_path ;;
        print ("Moved: " +:+ file +:+ " to " +:+ category) ;;
        ret true
      else scan_categories file file_path file_extension rest
  end.

(** The body of the loop over [dir_files]. *)
Definition categorize_file (unsorted_folder file : string) : M unit :=
  let file_path := Py.path_join (DIRECTORY cfg) file in
  if negb (Py.contains "." file) then
    let new_path := Py.path_join unsorted_folder file in
    move file_path new_path ;;
    log_move file_path new_path ;;
    print ("Moved: " +:+ file +:+ " to " +:+ UNSORTED_FOLDER cfg)
  else
    let file_extension := Py.lower (Py.last_field (Py.split "." file)) in
    let! moved :=
      scan_categories file file_path file_extension (GROUP_EXTENSIONS cfg) in
    if negb moved then
      let new_path := Py.path_join unsorted_folder file in
      move file_path new_path ;;
      log_move file_path new_path ;;
      print ("Moved: " +:+ file +:+ " to " +:+ UNSORTED_FOLDER cfg)
    else ret tt.

(** [if not os.path.exists(folder): os.makedirs(folder)] *)
Definition ensure_folder (folder : string) : M unit :=
  let! present := query (os_path_exists folder) in
  if negb present then makedirs folder else ret tt.

Definition categorize_files (dir_files : list string) : M unit :=
  try_except
    (for_each (GROUP_EXTENSIONS cfg)
       (fun item => ensure_folder (Py.path_join (DIRECTORY cfg) item.1)) ;;
     let unsorted_folder := Py.path_join (DIRECTORY cfg) "Unsorted" in
     ensure_folder unsorted_folder ;;
     for_each dir_files (categorize_file unsorted_folder))
    directory_errors.

End WithConfig.

(** *** Undo by commit identifier *)

(** How the scan of [undo_by_commit_id] ends: [break] after a restore (with
    the list the line was popped from), [return] from inside the loop, or
    the loop running to its end. *)
Inductive scan_end :=
| Undone (lines : list string)
| Returned
| Exhausted.

(** [a, b, c = l] and [a, b = l] *)
Definition unpack3 (l : list string) : M (string * string * string) :=
  match l with
  | [a; b; c] => ret (a, b, c)
  | _ => raise (unpack_error 3 (length l))
  end.

Definition unpack2 (l : list string) : M (string * string) :=
  match l with
  | [a; b] => ret (a, b)
  | _ => raise (unpack_error 2 (length l))
  end.

(** The loop over [enumerate(reversed(lines))]. *)
Fixpoint scan_log (commit_id : string) (lines : list string)
    (items : list (nat * string)) : M scan_end :=
  match items with
  | [] => ret Exhausted
  | (i, line) :: rest =>
      if Py.contains commit_id line then
        try_except
          (let! (_, _, move_entry) := unpack3 (Py.split " | " (Py.strip line)) in
           let! (original, new) := unpack2 (Py.split " -> " move_entry) in
           let! present := query (os_path_exists new) in
           if present then
             move new original ;;
             print ("Restored: " +:+ new +:+ " -> " +:+ original) ;;
             ret (Undone (delete (length lines - 1 - i)%nat lines))
           else
             print ("Error: " +:+ new +:+ " not found. Cannot restore.") ;;
             ret Returned)
          (fun e =>
             print ("Error undoing commit " +:+ commit_id +:+ ": " +:+ message e) ;;
             ret Returned)
      else scan_log commit_id lines rest
  end.

Definition undo_by_commit_id (commit_id : string) : M unit :=
  let! present := log_exists in
  if negb present then print "No log file found. Nothing to undo."
  else
    let! lines := read_log in
    let! r := scan_log commit_id lines (Py.enumerate (rev lines)) in
    match r with
    | Undone lines' => write_log lines'
    | Returned => ret tt
    | Exhausted => print ("Commit ID " +:+ commit_id +:+ " not found in the log.")
    end.

(** *** Undo of the last moves *)

(** The locals of [undo_last_moves] that the loop updates.  [commit_id] is
    [None] until the first assignment to it. *)
Record locals := mkLocals {
  commit_id : option string;
  successful_undos : list string;
  failed_undos : list string
}.

(** The [except Exception as e] clause of the loop: it formats [commit_id],
    which is unbound when no tuple assignment has succeeded yet. *)
Definition undo_except (st : locals) (e : exn) : M locals :=
  match commit_id st with
  | None => raise unbound_commit_id
  | Some c =>
      ret (mkLocals (commit_id st) (successful_undos st)
             (failed_undos st
              ++ ["Error undoing commit " +:+ c +:+ ": " +:+ message e]))
  end.

(** One iteration of the loop over [reversed(last_moves)].  The first tuple
    assignment binds [commit_id] (to the first field of the line) only when
    the line has exactly three fields; it is bound for the rest of the
    [try] block and for the later iterations. *)
Definition undo_move (line : string) (st : locals) : M locals :=
  match Py.split " | " (Py.strip line) with
  | [c; _; move_entry] =>
      let st := mkLocals (Some c) (successful_undos st) (failed_undos st) in
      try_except
        (let! (original, new) := unpack2 (Py.split " -> " move_entry) in
         let! present := query (os_path_exists new) in
         if present then
           move new original ;;
           ret (mkLocals (commit_id st)
                  (successful_undos st
                   ++ ["Restored: " +:+ new +:+ " -> " +:+ original
                       +:+ " (Commit ID: " +:+ c +:+ ")"])
                  (failed_undos st))
         else
           ret (mkLocals (commit_id st) (successful_undos st)
                  (failed_undos st
                   ++ ["Missing: " +:+ new +:+ " (Cannot restore) (Commit ID: "
                       +:+ c +:+ ")"])))
        (undo_except st)
  | parts => undo_except st (unpack_error 3 (length parts))
  end.

Fixpoint undo_moves (moves : list string) (st : locals) : M locals :=
  match moves with
  | [] => ret st
  | line :: rest => let! st' := undo_move line st in undo_moves rest st'
  end.

(** [if entries: print(header); for entry in entries: print(entry)] *)
Definition report (header : string) (entries : list string) : M unit :=
  match entries with
  | [] => ret tt
  | _ => print header ;; for_each entries print
  end.

Definition undo_last_moves (n : Z) : M unit :=
  let! present := log_exists in
  if negb present then print "No log file found. Nothing to undo."
  else
    let! lines := read_log in
    match lines with
    | [] => print "Log file is empty. Nothing to undo."
    | _ =>
        let last_moves := Py.slice_from (- n) lines in
        let! st := undo_moves (rev last_moves) (mkLocals None [] []) in
        report (Py.NL +:+ "Undo Successful:") (successful_undos st) ;;
        report (Py.NL +:+ "Undo Failed:") (failed_undos st) ;;
        write_log (Py.slice_to (- n) lines)
    end.

(** *** The script *)

Definition main (cfg : Config) (args : Args) : M unit :=
  let! (files, folders) := list_files_and_folders cfg in
  if 0 <? undo args then undo_last_moves (undo args)
  else
    match undo_commit args with
    | Some id =>
        if negb (String.eqb id EmptyString) then undo_by_commit_id id
        else categorize_files cfg files
    | None => categorize_files cfg files
    end.

End Program.

Arguments World H : clear implicits.
Arguments M H A : clear implicits.

(** ** A reference host

    A table from path strings to nodes, the directories that are
    read-only (no entry can be added to them or removed from them), a queue
    of UUIDs and a queue of clock readings.  Paths are taken literally (no
    normalisation, no symbolic links); a path without a parent part lies in
    the root or the working directory, which always exist. *)

Module RefHost.

Inductive node :=
| File (content : string)
| Dir.

Record t := mk {
  tree : gmap string node;
  readonly : list string;
  uuids : list string;
  times : list string
}.

(** [posixpath.dirname] and [posixpath.basename] of a path that does not end
    in a slash. *)
Fixpoint dirname (p : string) : string :=
  match p with
  | EmptyString => EmptyString
  | String c p' =>
      if Py.has_char "/" p' then String c (dirname p') else EmptyString
  end.

Fixpoint basename (p : string) : string :=
  match p with
  | EmptyString => EmptyString
  | String c p' =>
      if Py.has_char "/" p' then basename p'
      else if Ascii.eqb c "/" then p' else p
  end.

(** The proper prefixes of a path that end just before a slash. *)
Fixpoint ancestors_from (pre p : string) : list string :=
  match p with
  | EmptyString => []
  | String c p' =>
      (if Ascii.eqb c "/" && negb (String.eqb pre EmptyString)
       then [pre] else [])
      ++ ancestors_from (pre +:+ String c EmptyString) p'
  end.

Definition ancestors (p : string) : list string := ancestors_from EmptyString p.

Definition is_dir (tr : gmap string node) (p : string) : bool :=
  match tr !! p with Some Dir => true | _ => false end.

Definition is_file (tr : gmap string node) (p : string) : bool :=
  match tr !! p with Some (File _) => true | _ => false end.

Definition present (tr : gmap string node) (p : string) : bool :=
  match tr !! p with Some _ => true | None => false end.

Definition parent_ok (tr : gmap string node) (p : string) : bool :=
  String.eqb (dirname p) EmptyString || is_dir tr (dirname p).

Definition no_such (p : string) : exn :=
  mk_exn FileNotFoundError ("[Errno 2] No such file or directory: '" +:+ p +:+ "'").

Definition denied (p : string) : exn :=
  mk_exn PermissionError ("[Errno 13] Permission denied: '" +:+ p +:+ "'").

Definition locked (h : t) (p : string) : bool :=
  bool_decide (dirname p ∈ readonly h).

Definition listdir (d : string) (h : t) : (exn + list string) * t :=
  match tree h !! d with
  | None => (inl (no_such d), h)
  | Some (File _) =>
      (inl (mk_exn OtherException ("[Errno 20] Not a directory: '" +:+ d +:+ "'")), h)
  | Some Dir =>
      (inr (omap (fun kv : string * node =>
                    if String.eqb (dirname kv.1) d
                       && negb (String.eqb (basename kv.1) EmptyString)
                    then Some (basename kv.1) else None)
                 (map_to_list (tree h))), h)
  end.

Definition makedirs (p : string) (h : t) : (exn + unit) * t :=
  if present (tree h) p then
    (inl (mk_exn OtherException ("[Errno 17] File exists: '" +:+ p +:+ "'")), h)
  else if existsb (is_file (tree h)) (ancestors p) then
    (inl (mk_exn OtherException ("[Errno 20] Not a directory: '" +:+ p +:+ "'")), h)
  else if existsb (fun q => negb (present (tree h) q) && locked h q)
            (p :: ancestors p) then
    (inl (denied p), h)
  else
    (inr tt,
     mk (foldr (fun q tr => <[q := Dir]> tr) (tree h) (p :: ancestors p))
        (readonly h) (uuids h) (times h)).

(** [os.rename(src, dst)] where [src] exists and [dst] is not a directory:
    a file replaces [dst]; a directory takes its entries along. *)
Definition rekey (src dst k : string) : string :=
  if String.eqb k src then dst
  else if Py.startswith (src +:+ "/") k
  then dst +:+ String.substring (String.length src)
                 (String.length k - String.length src) k
  else k.

Definition rename (src dst : string) (h : t) : (exn + unit) * t :=
  match tree h !! src with
  | None => (inl (no_such src), h)
  | Some n =>
      if negb (parent_ok (tree h) dst) then (inl (no_such dst), h)
      else if locked h src || locked h dst then (inl (denied dst), h)
      else
        match n with
        | File c =>
            (inr tt,
             mk (<[dst := File c]> (delete src (tree h)))
                (readonly h) (uuids h) (times h))
        | Dir =>
            if is_file (tree h) dst then
              (inl (mk_exn OtherException
                      ("[Errno 20] Not a directory: '" +:+ dst +:+ "'")), h)
            else
              (inr tt,
               mk (list_to_map
                     (List.map (fun kv : string * node => (rekey src dst kv.1, kv.2))
                               (map_to_list (tree h))))
                  (readonly h) (uuids h) (times h))
        end
  end.

(** [shutil.move(src, dst)]: into [dst] when it is a directory, refusing to
    replace an entry there or to move a directory into itself; a rename
    otherwise. *)
Definition move (src dst : string) (h : t) : (exn + unit) * t :=
  let real_dst :=
    if is_dir (tree h) dst then Py.path_join dst (basename src) else dst in
  if is_dir (tree h) dst && present (tree h) real_dst then
    (inl (mk_exn OtherException
            ("Destination path '" +:+ real_dst +:+ "' already exists")), h)
  else if is_dir (tree h) src && Py.startswith (src +:+ "/") real_dst then
    (inl (mk_exn OtherException
            ("Cannot move a directory '" +:+ src +:+ "' into itself '"
             +:+ dst +:+ "'.")), h)
  else rename src real_dst h.

Definition next_uuid (h : t) : string * t :=
  match uuids h with
  | [] => ("00000000-0000-4000-8000-000000000000", h)
  | u :: us => (u, mk (tree h) (readonly h) us (times h))
  end.

Definition next_time (h : t) : string * t :=
  match times h with
  | [] => ("1970-01-01 00:00:00", h)
  | ts :: tss => (ts, mk (tree h) (readonly h) (uuids h) tss)
  end.

#[global] Instance host : Host t := {|
  os_path_exists p h := present (tree h) p;
  os_path_isfile p h := is_file (tree h) p;
  os_path_isdir p h := is_dir (tree h) p;
  os_listdir := listdir;
  os_makedirs := makedirs;
  shutil_move := move;
  uuid4 := next_uuid;
  now := next_time
|}.

End RefHost.

(** *** Sample worlds *)

Definition sample_uuids : list string :=
  ["1a2b3c4d-0000-4000-8000-000000000001";
   "5e6f7a8b-0000-4000-8000-000000000002";
   "9c0d1e2f-0000-4000-8000-000000000003"].

Definition sample_times : list string :=
  ["2024-01-01 10:00:00"; "2024-01-01 10:00:01"; "2024-01-01 10:00:02"].

Definition no_args : Args := {| undo := 0; undo_commit := None |}.

(** A directory [/d] holding [a.JPG], [b.txt] and [notes]. *)
Definition demo_host : RefHost.t :=
  RefHost.mk
    (list_to_map [("/d", RefHost.Dir);
                  ("/d/a.JPG", RefHost.File "photo");
                  ("/d/b.txt", RefHost.File "text");
                  ("/d/notes", RefHost.File "memo")])
    [] sample_uuids sample_times.

Definition demo_config : Config :=
  {| DIRECTORY := "/d";
     GROUP_EXTENSIONS := [("Images", ["jpg"; "png"]); ("Docs", ["txt"; "jpg"])];
     UNSORTED_FOLDER := "Misc" |}.

Definition demo_world : World RefHost.t := mkWorld demo_host None [].

(** The world after a run of the script on [demo_world], and its log. *)
Definition demo_sorted : World RefHost.t := (main demo_config no_args demo_world).2.

Definition demo_line_a : string :=
  "2024-01-01 10:00:00 | 1a2b3c4d | /d/a.JPG -> /d/Images/a.JPG" +:+ Py.NL.

Definition demo_line_notes : string :=
  "2024-01-01 10:00:01 | 5e6f7a8b | /d/notes -> /d/Unsorted/notes" +:+ Py.NL.

Definition demo_line_b : string :=
  "2024-01-01 10:00:02 | 9c0d1e2f | /d/b.txt -> /d/Docs/b.txt" +:+ Py.NL.

Definition demo_log : string := demo_line_a +:+ demo_line_notes +:+ demo_line_b.

(** [demo_sorted] with [/d] made read-only afterwards. *)
Definition demo_locked : World RefHost.t :=
  mkWorld (RefHost.mk (RefHost.tree (host demo_sorted)) ["/d"] [] [])
          (log_file demo_sorted) [].

(** [demo_sorted] with [/d/Docs/b.txt] deleted afterwards. *)
Definition demo_lost : World RefHost.t :=
  mkWorld
    (RefHost.mk (delete "/d/Docs/b.txt" (RefHost.tree (host demo_sorted))) [] [] [])
    (log_file demo_sorted) [].

(** The first scenario of the specification: [/tmp/t] holds [a.jpg] and
    [b.txt], and the category Images lists jpg and png. *)
Definition scenario_config : Config :=
  {| DIRECTORY := "/tmp/t";
     GROUP_EXTENSIONS := [("Images", ["jpg"; "png"])];
     UNSORTED_FOLDER := "Unsorted" |}.

Definition scenario_world : World RefHost.t :=
  mkWorld
    (RefHost.mk
       (list_to_map [("/tmp", RefHost.Dir); ("/tmp/t", RefHost.Dir);
                     ("/tmp/t/a.jpg", RefHost.File "photo");
                     ("/tmp/t/b.txt", RefHost.File "text")])
       [] sample_uuids sample_times)
    None [].

(** A configuration that lists an extension in capitals. *)
Definition capitals_config : Config :=
  {| DIRECTORY := "/d";
     GROUP_EXTENSIONS := [("Images", ["JPG"])];
     UNSORTED_FOLDER := "Unsorted" |}.

(** A directory holding a file whose name contains the arrow of the log
    format, and one holding a file whose name contains its bar. *)
Definition arrow_world : World RefHost.t :=
  mkWorld
    (RefHost.mk
       (list_to_map [("/d", RefHost.Dir);
                     ("/d/x -> y.txt", RefHost.File "text")])
       [] sample_uuids sample_times)
    None [].

Definition bar_world : World RefHost.t :=
  mkWorld
    (RefHost.mk
       (list_to_map [("/d", RefHost.Dir); ("/d/a | b", RefHost.File "memo")])
       [] sample_uuids sample_times)
    None [].

(** A world whose directory [/d] does not exist. *)
Definition missing_world : World RefHost.t :=
  mkWorld (RefHost.mk ∅ [] sample_uuids sample_times) (Some demo_log) [].

(** ** Notions the properties are stated with *)

(** The file extension the categoriser looks up. *)
Definition extension_of (file : string) : string :=
  Py.lower (Py.last_field (Py.split "." file)).

(** The first declared category that lists the extension. *)
Fixpoint first_match (ext : string) (items : list (string * list string))
  : option string :=
  match items with
  | [] => None
  | (category, extensions) :: rest =>
      if bool_decide (ext ∈ extensions) then Some category
      else first_match ext rest
  end.

(** Where a file goes: the folder name under [DIRECTORY] and the name shown
    in the printed line. *)
Definition route (cfg : Config) (file : string) : string * string :=
  if negb (Py.contains "." file) then ("Unsorted", UNSORTED_FOLDER cfg)
  else match first_match (extension_of file) (GROUP_EXTENSIONS cfg) with
       | Some category => (category, category)
       | None => ("Unsorted", UNSORTED_FOLDER cfg)
       end.


(** What the two tuple assignments of the undo functions read from a log
    line: its first field, the original path and the new path. *)
Definition parse_record (line : string) : option (string * string * string) :=
  match Py.split " | " (Py.strip line) with
  | [c; _; move_entry] =>
      match Py.split " -> " move_entry with
      | [original; new] => Some (c, original, new)
      | _ => None
      end
  | _ => None
  end.

(** The [ValueError] of the tuple assignment that fails on a line that
    does not read. *)
Definition read_error (line : string) : exn :=
  match Py.split " | " (Py.strip line) with
  | [_; _; move_entry] => unpack_error 2 (length (Py.split " -> " move_entry))
  | parts => unpack_error 3 (length parts)
  end.

(** The line splits into exactly three fields at the bars. *)
Definition three_fields (line : string) : bool :=
  match Py.split " | " (Py.strip line) with
  | [_; _; _] => true
  | _ => false
  end.

(** Every append to the log comes right after a call of [shutil.move] on
    the same two paths that returned. *)
Fixpoint logged_after_move (prev : option event) (t : list event) : bool :=
  match t with
  | [] => true
  | ev :: rest =>
      match ev with
      | ELog original new _ =>
          match prev with
          | Some (EMove src dst None) =>
              String.eqb src original && String.eqb dst new
          | _ => false
          end
      | _ => true
      end && logged_after_move (Some ev) rest
  end.

(** The text the appends of a trace add to the log. *)
Fixpoint logged_text (t : list event) : string :=
  match t with
  | [] => EmptyString
  | ELog _ _ line :: rest => line +:+ logged_text rest
  | _ :: rest => logged_text rest
  end.


(** The outcome of one log entry in a batch undo. *)
Inductive entry_result :=
| Restored (c new original : string)
| Missing (c new : string)
| RestoreFailed (new original : string) (e : exn)
| Unreadable (line : string).

Definition restore_call (r : entry_result) : list event :=
  match r with
  | Restored _ new original => [EMove new original None]
  | RestoreFailed new original e => [EMove new original (Some e)]
  | _ => []
  end.

Definition success_line (r : entry_result) : list string :=
  match r with
  | Restored c new original =>
      ["Restored: " +:+ new +:+ " -> " +:+ original
       +:+ " (Commit ID: " +:+ c +:+ ")"]
  | _ => []
  end.

Definition is_failure (r : entry_result) : bool :=
  match r with Restored _ _ _ => false | _ => true end.

(** The lines [undo_last_moves] prints for its two lists. *)
Definition report_events (successful failed : list string) : list event :=
  match successful with
  | [] => []
  | _ => EPrint (Py.NL +:+ "Undo Successful:") :: List.map EPrint successful
  end ++
  match failed with
  | [] => []
  | _ => EPrint (Py.NL +:+ "Undo Failed:") :: List.map EPrint failed
  end.

Section Specification.

Context {H : Type} `{Host H}.

(** A batch undo as the specification words it: the lines are taken one
    after the other; an entry whose new path exists is moved back, an entry
    whose new path is missing is a failure, and so are a restore that raises
    and a line that cannot be read; the batch goes on in every case. *)
Inductive batch : H -> list string -> list entry_result -> H -> Prop :=
| batch_done h : batch h [] [] h
| batch_restored h h1 h' line c original new rest rs :
    parse_record line = Some (c, original, new) ->
    os_path_exists new h = true ->
    shutil_move new original h = (inr tt, h1) ->
    batch h1 rest rs h' ->
    batch h (line :: rest) (Restored c new original :: rs) h'
| batch_missing h h' line c original new rest rs :
    parse_record line = Some (c, original, new) ->
    os_path_exists new h = false ->
    batch h rest rs h' ->
    batch h (line :: rest) (Missing c new :: rs) h'
| batch_raised h h1 h' line c original new e rest rs :
    parse_record line = Some (c, original, new) ->
    os_path_exists new h = true ->
    shutil_move new original h = (inl e, h1) ->
    batch h1 rest rs h' ->
    batch h (line :: rest) (RestoreFailed new original e :: rs) h'
| batch_unreadable h h' line rest rs :
    parse_record line = None ->
    batch h rest rs h' ->
    batch h (line :: rest) (Unreadable line :: rs) h'.

(** The log grows as a ledger of completed moves from [w] to [w']: the
    events added append to the log only right after a move that returned,
    and the log is the old one followed by the lines appended. *)
Definition ledger_step (w w' : World H) : Prop :=
  exists t,
    trace w' = trace w ++ t
    /\ logged_after_move None t = true
    /\ default EmptyString (log_file w')
       = default EmptyString (log_file w) +:+ logged_text t.

(** One call of [shutil.move] followed, when it returns, by [log_move] and
    a printed line: what each branch of the categoriser does with a file. *)
Definition relocate (src dst text : string) (w : World H)
  : outcome unit * World H :=
  match shutil_move src dst (host w) with
  | (inl e, h) =>
      (Raise e, mkWorld h (log_file w) (trace w ++ [EMove src dst (Some e)]))
  | (inr _, h) =>
      let '(u, h1) := uuid4 h in
      let '(ts, h2) := now h1 in
      let line := log_line ts (String.substring 0 8 u) src dst in
      (Ret tt,
       mkWorld h2 (Some (default EmptyString (log_file w) +:+ line))
               (trace w ++ [EMove src dst None; ELog src dst line; EPrint text]))
  end.



End Specification.

(** ** Notions for the further properties *)

(** The two paths of a call of [shutil.move], and of an append to the log. *)
Definition move_paths (ev : event) : option (string * string) :=
  match ev with EMove src dst _ => Some (src, dst) | _ => None end.

Definition log_paths (ev : event) : option (string * string) :=
  match ev with ELog original new _ => Some (original, new) | _ => None end.

(** The move the categoriser makes for a file: from the directory into the
    folder [route] names. *)
Definition planned_move (cfg : Config) (file : string) : string * string :=
  (Py.path_join (DIRECTORY cfg) file,
   Py.path_join (Py.path_join (DIRECTORY cfg) (route cfg file).1) file).

(** The log is absent, empty, or ends with a line feed. *)
Definition log_closed (log : option string) : bool :=
  match log with
  | None => true
  | Some s => String.eqb s EmptyString || Py.endswith_char Py.LF s
  end.

(** A text that reads as one line: not empty, without carriage return, and
    with no line feed before its last character. *)
Fixpoint one_line (x : string) : bool :=
  match x with
  | EmptyString => false
  | String c EmptyString => negb (Ascii.eqb c Py.CR)
  | String c x' =>
      negb (Ascii.eqb c Py.CR) && negb (Ascii.eqb c Py.LF) && one_line x'
  end.

(** A list of lines as [readlines] returns them: each reads as one line and
    all but the last end with a line feed. *)
Fixpoint lines_ok (l : list string) : bool :=
  match l with
  | [] => true
  | x :: rest =>
      one_line x
      && match rest with [] => true | _ => Py.endswith_char Py.LF x end
      && lines_ok rest
  end.

(** The folders [categorize_files] ensures, in the order it does. *)
Definition ensured_folders (cfg : Config) : list string :=
  List.map (fun item : string * list string =>
              Py.path_join (DIRECTORY cfg) item.1) (GROUP_EXTENSIONS cfg)
  ++ [Py.path_join (DIRECTORY cfg) "Unsorted"].

Definition makedirs_path (ev : event) : option string :=
  match ev with EMakedirs path _ => Some path | _ => None end.

(** A text without carriage return and line feed. *)
Definition plain (x : string) : bool :=
  negb (Py.has_char Py.CR x) && negb (Py.has_char Py.LF x).

(** A timestamp and an identifier, and two paths, that [parse_record] reads
    back from the line [log_move] writes with them. *)
Definition stamp_ok (ts c : string) : bool :=
  plain ts && plain c
  && negb (Py.has_char "|" ts) && negb (Py.has_char "|" c)
  && String.eqb (Py.lstrip ts) ts && negb (String.eqb ts EmptyString).

Definition paths_ok (original new : string) : bool :=
  plain original && plain new
  && negb (Py.has_char "|" original) && negb (Py.has_char "|" new)
  && negb (Py.has_char ">" original) && negb (Py.has_char ">" new)
  && String.eqb (Py.rstrip new) new && negb (String.eqb new EmptyString).

(** The world after a run of the script on [arrow_world]. *)
Definition arrow_sorted : World RefHost.t :=
  (main demo_config no_args arrow_world).2.

Definition arrow_line : string :=
  "2024-01-01 10:00:00 | 1a2b3c4d | /d/x -> y.txt -> /d/Docs/x -> y.txt"
  +:+ Py.NL.

Section FurtherNotions.

Context {H : Type} `{Host H}.

(** From [w] to [w'] nothing was moved or logged and the log file is as it
    was. *)
Definition quiet_step (w w' : World H) : Prop :=
  exists t,
    trace w' = trace w ++ t
    /\ omap move_paths t = [] /\ omap log_paths t = []
    /\ log_file w' = log_file w.

End FurtherNotions.

(** ** Notions for the runs of the categoriser and of the batch undo *)


Definition print_text (ev : event) : option string :=
  match ev with EPrint text => Some text | _ => None end.


(** The configuration without the extension strings that [lower] changes,
    that is, without those that hold a capital letter. *)
Definition lower_case_only (cfg : Config) : Config :=
  {| DIRECTORY := DIRECTORY cfg;
     GROUP_EXTENSIONS :=
       List.map (fun item : string * list string =>
                   (item.1,
                    List.filter (fun e => String.eqb (Py.lower e) e) item.2))
                (GROUP_EXTENSIONS cfg);
     UNSORTED_FOLDER := UNSORTED_FOLDER cfg |}.

(** What the first tuple assignment of the loop of [undo_last_moves] binds
    [commit_id] to: the first field of a line with three fields. *)
Definition first_field (line : string) : option string :=
  match Py.split " | " (Py.strip line) with
  | [c; _; _] => Some c
  | _ => None
  end.

(** A directory with a name that holds several dots and a name that starts
    with its only dot. *)
Definition dots_world : World RefHost.t :=
  mkWorld
    (RefHost.mk
       (list_to_map [("/d", RefHost.Dir);
                     ("/d/holiday.2024.PNG", RefHost.File "photo");
                     ("/d/.txt", RefHost.File "hidden")])
       [] sample_uuids sample_times)
    None [].

(** The sorted directory of [demo_sorted] with a log whose middle line is
    not a record. *)
Definition stale_log : string :=
  demo_line_a +:+ "garbage" +:+ Py.NL +:+ demo_line_b.

Definition stale_world : World RefHost.t :=
  mkWorld (host demo_sorted) (Some stale_log) [].

Section RunNotions.

Context {H : Type} `{Host H}.



End RunNotions.

(** ** Examples of the primitives *)

Example split_bar :
  Py.split " | " "2024-01-01 10:00:00 | 1a2b3c4d | /d/a.txt -> /d/Docs/a.txt"
  = ["2024-01-01 10:00:00"; "1a2b3c4d"; "/d/a.txt -> /d/Docs/a.txt"].
Proof. reflexivity. Qed.

Example split_overlap : Py.split "aa" "aaa" = [EmptyString; "a"].
Proof. reflexivity. Qed.

Example split_none : Py.split " | " "garbage" = ["garbage"].
Proof. reflexivity. Qed.

Example split_ext : Py.lower (Py.last_field (Py.split "." "a.tar.GZ")) = "gz".
Proof. reflexivity. Qed.

Example strip_line :
  Py.strip (" x -> y " +:+ Py.NL) = "x -> y".
Proof. reflexivity. Qed.

Example readlines_crlf :
  Py.readlines (String "a" (String Py.CR (String Py.LF "b")))
  = [String "a" Py.NL; "b"].
Proof. reflexivity. Qed.

Example slice_last2 : Py.slice_from (-2) [1; 2; 3] = [2; 3].
Proof. reflexivity. Qed.

Example slice_drop2 : Py.slice_to (-2) [1; 2; 3] = [1].
Proof. reflexivity. Qed.

Example slice_clamp : Py.slice_from (-5) [1; 2; 3] = [1; 2; 3]
                      /\ Py.slice_to (-5) [1; 2; 3] = [].
Proof. split; reflexivity. Qed.

Example join_paths :
  Py.path_join "/d" "Images" = "/d/Images"
  /\ Py.path_join "/d/" "a.jpg" = "/d/a.jpg"
  /\ Py.path_join "/d" "/abs" = "/abs".
Proof. repeat split; reflexivity. Qed.

(** ** Facts about the primitives *)

Lemma string_app_cons (x : ascii) (a b : string) :
  String x a +:+ b = String x (a +:+ b).
Proof. reflexivity. Qed.

Lemma string_app_nil_l (a : string) : EmptyString +:+ a = a.
Proof. reflexivity. Qed.

Lemma string_app_assoc (a b c : string) : (a +:+ b) +:+ c = a +:+ (b +:+ c).
Proof.
  induction a as [|x a IH]; [reflexivity|].
  by rewrite !string_app_cons, IH.
Qed.

Lemma string_app_nil_r (a : string) : a +:+ EmptyString = a.
Proof.
  induction a as [|x a IH]; [reflexivity|]. by rewrite string_app_cons, IH.
Qed.

Lemma logged_after_move_weaken t prev :
  logged_after_move None t = true -> logged_after_move prev t = true.
Proof.
  destruct t as [|ev t]; [done|]. simpl.
  destruct ev; simpl; try done.
Qed.

Lemma logged_after_move_app t1 t2 prev :
  logged_after_move prev t1 = true ->
  logged_after_move None t2 = true ->
  logged_after_move prev (t1 ++ t2) = true.
Proof.
  revert prev. induction t1 as [|ev t1 IH]; intros prev H1 H2; simpl in *.
  - by apply logged_after_move_weaken.
  - apply andb_true_iff in H1 as [Hev H1]. rewrite Hev. simpl. by apply IH.
Qed.

Lemma logged_text_app t1 t2 :
  logged_text (t1 ++ t2) = logged_text t1 +:+ logged_text t2.
Proof.
  induction t1 as [|ev t1 IH]; simpl; [reflexivity|].
  destruct ev; simpl; rewrite IH; [done..| |done]. by rewrite string_app_assoc.
Qed.

Section Categoriser.

Context {H : Type} `{Host H}.

Implicit Types (w : World H) (cfg : Config).

Lemma ledger_step_refl w : ledger_step w w.
Proof.
  exists []. rewrite app_nil_r. simpl. by rewrite string_app_nil_r.
Qed.

Lemma ledger_step_trans w1 w2 w3 :
  ledger_step w1 w2 -> ledger_step w2 w3 -> ledger_step w1 w3.
Proof.
  intros (t1 & E1 & L1 & T1) (t2 & E2 & L2 & T2).
  exists (t1 ++ t2). split; [|split].
  - by rewrite E2, E1, app_assoc.
  - by apply logged_after_move_app.
  - by rewrite T2, T1, logged_text_app, string_app_assoc.
Qed.

Lemma ledger_step_quiet w w' t :
  trace w' = trace w ++ t -> log_file w' = log_file w ->
  logged_after_move None t = true -> logged_text t = EmptyString ->
  ledger_step w w'.
Proof.
  intros E L O T. exists t. repeat split; try done.
  by rewrite L, T, string_app_nil_r.
Qed.

(** [log_move] draws a UUID, reads the clock and appends one line. *)
Lemma log_move_run (original new : string) w :
  log_move original new w
  = let '(u, h1) := uuid4 (host w) in
    let '(ts, h2) := now h1 in
    let line := log_line ts (String.substring 0 8 u) original new in
    (Ret tt,
     mkWorld h2 (Some (default EmptyString (log_file w) +:+ line))
             (trace w ++ [ELog original new line])).
Proof.
  unfold log_move, generate_commit_id, draw, append_log, bind, ret; simpl.
  destruct (uuid4 (host w)) as [u h1]; simpl.
  by destruct (now h1) as [ts h2].
Qed.

(** The three inlined copies of move, log and print run as [relocate]. *)
Lemma relocate_run {A} (src dst text : string) (k : M H A) w :
  bind (move src dst) (fun _ => bind (log_move src dst)
                                  (fun _ => bind (print text) (fun _ => k))) w
  = match relocate src dst text w with
    | (Ret _, w') => k w'
    | (Raise e, w') => (Raise e, w')
    | (Exit n, w') => (Exit n, w')
    end.
Proof.
  unfold relocate, move, syscall, log_move, generate_commit_id, draw,
    append_log, print, emit, bind, ret; simpl.
  destruct (shutil_move src dst (host w)) as [[e|[]] h]; simpl; [done|].
  destruct (uuid4 h) as [u h1]; simpl.
  destruct (now h1) as [ts h2]; simpl.
  by rewrite <- !app_assoc.
Qed.

Lemma relocate_run_print (src dst text : string) w :
  bind (move src dst) (fun _ => bind (log_move src dst)
                                  (fun _ => print text)) w
  = relocate src dst text w.
Proof.
  unfold relocate, move, syscall, log_move, generate_commit_id, draw,
    append_log, print, emit, bind, ret; simpl.
  destruct (shutil_move src dst (host w)) as [[e|[]] h]; simpl; [done|].
  destruct (uuid4 h) as [u h1]; simpl.
  destruct (now h1) as [ts h2]; simpl.
  by rewrite <- !app_assoc.
Qed.

(** What [relocate] adds to the trace: one call of [shutil.move], and the
    log entry after it when the call returned. *)
Lemma relocate_events src dst text w :
  exists t r,
    trace (relocate src dst text w).2 = trace w ++ t
    /\ List.filter is_move t = [EMove src dst r]
    /\ logged_after_move None t = true
    /\ default EmptyString (log_file (relocate src dst text w).2)
       = default EmptyString (log_file w) +:+ logged_text t.
Proof.
  unfold relocate.
  destruct (shutil_move src dst (host w)) as [[e|[]] h]; simpl.
  - exists [EMove src dst (Some e)], (Some e). simpl.
    by rewrite string_app_nil_r.
  - destruct (uuid4 h) as [u h1]; destruct (now h1) as [ts h2]; simpl.
    eexists _, None. split; [reflexivity|]. simpl.
    rewrite !String.eqb_refl. simpl. by rewrite string_app_nil_r.
Qed.

Lemma scan_categories_run cfg file ext items w :
  scan_categories cfg file (Py.path_join (DIRECTORY cfg) file) ext items w
  = match first_match ext items with
    | None => (Ret false, w)
    | Some category =>
        match relocate (Py.path_join (DIRECTORY cfg) file)
                (Py.path_join (Py.path_join (DIRECTORY cfg) category) file)
                ("Moved: " +:+ file +:+ " to " +:+ category) w with
        | (Ret _, w') => (Ret true, w')
        | (Raise e, w') => (Raise e, w')
        | (Exit n, w') => (Exit n, w')
        end
    end.
Proof.
  induction items as [|[category extensions] rest IH]; simpl; [done|].
  case_bool_decide; [|apply IH].
  by rewrite relocate_run.
Qed.

(** The loop body of [categorize_files] moves the file where [route] says. *)
Lemma categorize_file_run cfg file w :
  categorize_file cfg (Py.path_join (DIRECTORY cfg) "Unsorted") file w
  = relocate (Py.path_join (DIRECTORY cfg) file)
      (Py.path_join (Py.path_join (DIRECTORY cfg) (route cfg file).1) file)
      ("Moved: " +:+ file +:+ " to " +:+ (route cfg file).2) w.
Proof.
  unfold categorize_file, route, extension_of.
  destruct (Py.contains "." file); simpl.
  - unfold bind at 1. rewrite scan_categories_run.
    destruct (first_match _ _) as [category|]; simpl.
    + destruct (relocate _ _ _ w) as [[[]|e|n] w'] eqn:E; simpl; done.
    + apply relocate_run_print.
  - apply relocate_run_print.
Qed.



Lemma directory_errors_run {A} cfg (e : exn) w :
  exists text,
    directory_errors (A:=A) cfg e w
    = (Exit 1, mkWorld (host w) (log_file w) (trace w ++ [EPrint text])).
Proof.
  unfold directory_errors. destruct (kind e); eexists; reflexivity.
Qed.

Lemma ensure_folder_run folder w :
  exists t,
    trace (ensure_folder folder w).2 = trace w ++ t
    /\ log_file (ensure_folder folder w).2 = log_file w
    /\ List.filter is_move t = [] /\ logged_after_move None t = true
    /\ logged_text t = EmptyString.
Proof.
  unfold ensure_folder, bind, query, makedirs, syscall, ret; simpl.
  destruct (os_path_exists folder (host w)); simpl.
  - exists []. by rewrite app_nil_r.
  - destruct (os_makedirs folder (host w)) as [[e|[]] h]; simpl;
      eexists [_]; done.
Qed.

Lemma ensure_folder_ledger folder w : ledger_step w (ensure_folder folder w).2.
Proof.
  destruct (ensure_folder_run folder w) as (t & E & L & _ & O & T).
  by eapply ledger_step_quiet.
Qed.

(** A loop whose body keeps a preorder on worlds keeps it. *)
Lemma for_each_keeps {A} (P : World H -> World H -> Prop) (body : A -> M H unit)
    (l : list A) :
  (forall w, P w w) -> (forall w1 w2 w3, P w1 w2 -> P w2 w3 -> P w1 w3) ->
  (forall x w, P w (body x w).2) ->
  forall w, P w (for_each l body w).2.
Proof.
  intros Hrefl Htrans Hbody. induction l as [|x l IH]; intros w; simpl.
  - apply Hrefl.
  - unfold bind. specialize (Hbody x w).
    destruct (body x w) as [[[]|e|n] w']; simpl in *; try done.
    eapply Htrans; [exact Hbody | apply IH].
Qed.

Lemma categorize_files_inner cfg files w :
  let inner :=
    bind (for_each (GROUP_EXTENSIONS cfg)
            (fun item => ensure_folder (Py.path_join (DIRECTORY cfg) item.1)))
      (fun _ => bind (ensure_folder (Py.path_join (DIRECTORY cfg) "Unsorted"))
         (fun _ => for_each files
            (categorize_file cfg (Py.path_join (DIRECTORY cfg) "Unsorted")))) in
  categorize_files cfg files w
  = match inner w with
    | (Raise e, w') => directory_errors cfg e w'
    | r => r
    end.
Proof. reflexivity. Qed.

Lemma printed_ledger text w :
  ledger_step w (mkWorld (host w) (log_file w) (trace w ++ [EPrint text])).
Proof. by eapply ledger_step_quiet. Qed.

Lemma categorize_file_ledger cfg file w :
  ledger_step w
    (categorize_file cfg (Py.path_join (DIRECTORY cfg) "Unsorted") file w).2.
Proof.
  rewrite categorize_file_run.
  destruct (relocate_events (Py.path_join (DIRECTORY cfg) file)
              (Py.path_join (Py.path_join (DIRECTORY cfg) (route cfg file).1) file)
              ("Moved: " +:+ file +:+ " to " +:+ (route cfg file).2) w)
    as (t & r & E & _ & O & T).
  by exists t.
Qed.

(** The whole of [categorize_files] keeps a preorder on worlds that its
    steps keep. *)
Lemma categorize_files_keeps (P : World H -> World H -> Prop) cfg :
  (forall w, P w w) -> (forall w1 w2 w3, P w1 w2 -> P w2 w3 -> P w1 w3) ->
  (forall folder w, P w (ensure_folder folder w).2) ->
  (forall file w,
      P w (categorize_file cfg (Py.path_join (DIRECTORY cfg) "Unsorted") file w).2) ->
  (forall text w,
      P w (mkWorld (host w) (log_file w) (trace w ++ [EPrint text]))) ->
  forall files w, P w (categorize_files cfg files w).2.
Proof.
  intros Hrefl Htrans Hensure Hfile Hprint files w.
  rewrite categorize_files_inner. cbv zeta. unfold bind at 1.
  pose proof (for_each_keeps P
    (fun item : string * list string =>
       ensure_folder (Py.path_join (DIRECTORY cfg) item.1))
    (GROUP_EXTENSIONS cfg) Hrefl Htrans (fun x w => Hensure _ w) w) as HA.
  destruct (for_each (GROUP_EXTENSIONS cfg) _ w) as [[[]|e|n] wa]; simpl in *.
  - unfold bind at 1.
    pose proof (Hensure (Py.path_join (DIRECTORY cfg) "Unsorted") wa) as HB.
    destruct (ensure_folder _ wa) as [[[]|e|n] wb]; simpl in *.
    + pose proof (for_each_keeps P
        (categorize_file cfg (Py.path_join (DIRECTORY cfg) "Unsorted"))
        files Hrefl Htrans Hfile wb) as HC.
      destruct (for_each files _ wb) as [[[]|e|n] wc]; simpl in *;
        try by eauto.
      destruct (directory_errors_run (A:=unit) cfg e wc) as [text ->]; simpl.
      eauto.
    + destruct (directory_errors_run (A:=unit) cfg e wb) as [text ->]; simpl.
      eauto.
    + eauto.
  - destruct (directory_errors_run (A:=unit) cfg e wa) as [text ->]; simpl.
    eauto.
  - done.
Qed.

End Categoriser.

(** ** The categoriser *)

Section CategoriserProperties.

Context {H : Type} `{Host H}.

Implicit Types (w : World H) (cfg : Config).














(** C8: in every run of [categorize_files], whether it returns or aborts,
    the log is appended to only right after a call of [shutil.move] on the
    same two paths has returned, and the log afterwards is the log before
    followed by the lines so appended. *)
Theorem log_records_completed_moves cfg files w :
  ledger_step w (categorize_files cfg files w).2.
Proof.
  apply categorize_files_keeps.
  - apply ledger_step_refl.
  - apply ledger_step_trans.
  - apply ensure_folder_ledger.
  - apply categorize_file_ledger.
  - apply printed_ledger.
Qed.

End CategoriserProperties.

(** ** Slices and lines *)

Lemma slice_from_last {A} (n : Z) (l : list A) :
  1 <= n -> Py.slice_from (- n) l = drop (length l - Z.to_nat n) l.
Proof.
  intros Hn. unfold Py.slice_from, Py.slice_index.
  destruct (Z.ltb_spec (- n) 0) as [_|Hge]; [|lia]. f_equal. lia.
Qed.

Lemma slice_to_last {A} (n : Z) (l : list A) :
  1 <= n -> Py.slice_to (- n) l = take (length l - Z.to_nat n) l.
Proof.
  intros Hn. unfold Py.slice_to, Py.slice_index.
  destruct (Z.ltb_spec (- n) 0) as [_|Hge]; [|lia]. f_equal. lia.
Qed.

Lemma rev_drop_last {A} (k : nat) (l : list A) (x : A) :
  last l = Some x -> (k < length l)%nat ->
  exists rest, rev (drop k l) = x :: rest.
Proof.
  intros Hlast Hk. apply last_Some in Hlast as [l' ->].
  rewrite length_app in Hk. simpl in Hk.
  rewrite drop_app_le by lia. rewrite rev_app_distr. simpl. eauto.
Qed.

Lemma startswith_app (p s : string) : Py.startswith p (p +:+ s) = true.
Proof.
  induction p as [|c p IH]; simpl; [by destruct s|].
  destruct (ascii_dec c c); [exact IH | done].
Qed.

Lemma contains_startswith (p s : string) :
  Py.startswith p s = true -> Py.contains p s = true.
Proof. destruct s; simpl; by intros ->. Qed.

Lemma contains_app (c a b : string) : Py.contains c (a +:+ c +:+ b) = true.
Proof.
  induction a as [|x a IH].
  - apply contains_startswith. exact (startswith_app c b).
  - rewrite string_app_cons. simpl. rewrite IH. apply orb_true_r.
Qed.

Lemma writelines_app (l1 l2 : list string) :
  Py.writelines (l1 ++ l2) = Py.writelines l1 +:+ Py.writelines l2.
Proof.
  induction l1 as [|x l1 IH]; simpl; [done|].
  unfold Py.writelines in *. simpl. by rewrite IH, string_app_assoc.
Qed.

(** Writing back the lines that were read gives the text that was cut. *)
Lemma writelines_keepends (s : string) : Py.writelines (Py.keepends s) = s.
Proof.
  induction s as [|c s IH]; [done|]. simpl.
  destruct (Ascii.eqb c Py.LF).
  - unfold Py.writelines in *. simpl. by rewrite IH.
  - destruct (Py.keepends s) as [|l ls]; unfold Py.writelines in *; simpl in *.
    + by rewrite <- IH.
    + by rewrite <- IH.
Qed.

(** ** Reading back a line of the log *)

Lemma has_char_app (m : ascii) (a b : string) :
  Py.has_char m (a +:+ b) = Py.has_char m a || Py.has_char m b.
Proof.
  induction a as [|x a IH]; [done|].
  rewrite string_app_cons. simpl. by rewrite IH, orb_assoc.
Qed.

Lemma lstrip_length (s : string) :
  (String.length (Py.lstrip s) <= String.length s)%nat.
Proof.
  induction s as [|x s IH]; simpl; [lia|].
  destruct (Py.isspace x); simpl; lia.
Qed.

Lemma lstrip_app (a b : string) :
  Py.lstrip a = a -> a <> EmptyString -> Py.lstrip (a +:+ b) = a +:+ b.
Proof.
  destruct a as [|x a]; [done|]. intros Hl _. rewrite string_app_cons.
  simpl in *. destruct (Py.isspace x); [|done].
  pose proof (lstrip_length a) as Hlen. rewrite Hl in Hlen. simpl in Hlen. lia.
Qed.

Lemma rstrip_app_blank (a b : string) :
  Py.rstrip b = EmptyString -> Py.rstrip (a +:+ b) = Py.rstrip a.
Proof.
  intros Hb. induction a as [|x a IH]; [done|].
  rewrite string_app_cons. simpl. by rewrite IH.
Qed.

Lemma rstrip_app_kept (a b : string) :
  Py.rstrip b = b -> b <> EmptyString -> Py.rstrip (a +:+ b) = a +:+ b.
Proof.
  intros Hb Hne. induction a as [|x a IH]; [done|].
  rewrite string_app_cons. simpl. rewrite IH.
  destruct (a +:+ b) eqn:E; [|done].
  destruct a; [by rewrite string_app_nil_l in E | done].
Qed.

Lemma startswith_cons (a b : ascii) (p s : string) :
  Py.startswith (String a p) (String b s)
  = if ascii_dec a b then Py.startswith p s else false.
Proof. reflexivity. Qed.

Lemma startswith_nil_r (a : ascii) (p : string) :
  Py.startswith (String a p) EmptyString = false.
Proof. reflexivity. Qed.

Lemma has_char_cons (m x : ascii) (a : string) :
  Py.has_char m (String x a) = Ascii.eqb m x || Py.has_char m a.
Proof. reflexivity. Qed.

Lemma startswith_bar x a rest :
  Py.has_char "|" (String x a) = false ->
  Py.startswith " | " (String x (a +:+ " | " +:+ rest)) = false.
Proof.
  intros Hno. rewrite startswith_cons.
  destruct (ascii_dec " " x) as [<-|]; [|done].
  destruct a as [|y a]; [done|]. rewrite string_app_cons, startswith_cons.
  destruct (ascii_dec "|" y) as [<-|]; [|done].
  rewrite !has_char_cons in Hno. done.
Qed.

Lemma startswith_bar_end x a :
  Py.has_char "|" (String x a) = false ->
  Py.startswith " | " (String x a) = false.
Proof.
  intros Hno. rewrite startswith_cons.
  destruct (ascii_dec " " x) as [<-|]; [|done].
  destruct a as [|y a]; [done|]. rewrite startswith_cons.
  destruct (ascii_dec "|" y) as [<-|]; [|done].
  rewrite !has_char_cons in Hno. done.
Qed.

Lemma startswith_arrow x a rest :
  Py.has_char ">" (String x a) = false ->
  Py.startswith " -> " (String x (a +:+ " -> " +:+ rest)) = false.
Proof.
  intros Hno. rewrite startswith_cons.
  destruct (ascii_dec " " x) as [<-|]; [|done].
  destruct a as [|y a]; [done|]. rewrite string_app_cons, startswith_cons.
  destruct (ascii_dec "-" y) as [<-|]; [|done].
  destruct a as [|z a]; [done|]. rewrite string_app_cons, startswith_cons.
  destruct (ascii_dec ">" z) as [<-|]; [|done].
  rewrite !has_char_cons in Hno. done.
Qed.

Lemma startswith_arrow_end x a :
  Py.has_char ">" (String x a) = false ->
  Py.startswith " -> " (String x a) = false.
Proof.
  intros Hno. rewrite startswith_cons.
  destruct (ascii_dec " " x) as [<-|]; [|done].
  destruct a as [|y a]; [done|]. rewrite startswith_cons.
  destruct (ascii_dec "-" y) as [<-|]; [|done].
  destruct a as [|z a]; [done|]. rewrite startswith_cons.
  destruct (ascii_dec ">" z) as [<-|]; [|done].
  rewrite !has_char_cons in Hno. done.
Qed.

Lemma has_char_tail m x a :
  Py.has_char m (String x a) = false -> Py.has_char m a = false.
Proof. rewrite has_char_cons. by intros [_ ?]%orb_false_iff. Qed.

Lemma string_app_snoc (cur : string) (x : ascii) (a : string) :
  (cur +:+ String x EmptyString) +:+ a = cur +:+ String x a.
Proof. by rewrite string_app_assoc. Qed.

(** A text without a bar is one field; the text before the first bar
    separator is the first field. *)
Lemma split_bar_none (a cur : string) :
  Py.has_char "|" a = false ->
  Py.split_from " | " 0 cur a = [cur +:+ a].
Proof.
  revert cur. induction a as [|x a IH]; intros cur Hno.
  - by rewrite string_app_nil_r.
  - cbn [Py.split_from]. rewrite (startswith_bar_end _ _ Hno).
    rewrite IH by (by eapply has_char_tail). by rewrite string_app_snoc.
Qed.

Lemma split_bar_first (a cur rest : string) :
  Py.has_char "|" a = false ->
  Py.split_from " | " 0 cur (a +:+ " | " +:+ rest)
  = (cur +:+ a) :: Py.split_from " | " 0 EmptyString rest.
Proof.
  revert cur. induction a as [|x a IH]; intros cur Hno.
  - rewrite string_app_nil_r, string_app_nil_l.
    change (" | " +:+ rest) with (String " " ("| " +:+ rest)) at 1.
    cbn [Py.split_from].
    change (String " " ("| " +:+ rest)) with (" | " +:+ rest).
    rewrite startswith_app. reflexivity.
  - rewrite string_app_cons. cbn [Py.split_from].
    rewrite (startswith_bar _ _ _ Hno).
    rewrite IH by (by eapply has_char_tail). by rewrite string_app_snoc.
Qed.

Lemma split_arrow_none (a cur : string) :
  Py.has_char ">" a = false ->
  Py.split_from " -> " 0 cur a = [cur +:+ a].
Proof.
  revert cur. induction a as [|x a IH]; intros cur Hno.
  - by rewrite string_app_nil_r.
  - cbn [Py.split_from]. rewrite (startswith_arrow_end _ _ Hno).
    rewrite IH by (by eapply has_char_tail). by rewrite string_app_snoc.
Qed.

Lemma split_arrow_first (a cur rest : string) :
  Py.has_char ">" a = false ->
  Py.split_from " -> " 0 cur (a +:+ " -> " +:+ rest)
  = (cur +:+ a) :: Py.split_from " -> " 0 EmptyString rest.
Proof.
  revert cur. induction a as [|x a IH]; intros cur Hno.
  - rewrite string_app_nil_r, string_app_nil_l.
    change (" -> " +:+ rest) with (String " " ("-> " +:+ rest)) at 1.
    cbn [Py.split_from].
    change (String " " ("-> " +:+ rest)) with (" -> " +:+ rest).
    rewrite startswith_app. reflexivity.
  - rewrite string_app_cons. cbn [Py.split_from].
    rewrite (startswith_arrow _ _ _ Hno).
    rewrite IH by (by eapply has_char_tail). by rewrite string_app_snoc.
Qed.

(** The line [log_move] writes reads back as written when no field holds a
    bar, no path holds the head of the arrow, the timestamp does not start
    with white space and the new path does not end with it. *)
Lemma parse_record_log_line (ts c original new : string) :
  Py.has_char "|" ts = false -> Py.has_char "|" c = false ->
  Py.has_char "|" original = false -> Py.has_char "|" new = false ->
  Py.has_char ">" original = false -> Py.has_char ">" new = false ->
  Py.lstrip ts = ts -> ts <> EmptyString ->
  Py.rstrip new = new -> new <> EmptyString ->
  parse_record (log_line ts c original new) = Some (ts, original, new).
Proof.
  intros Hts Hc Ho Hn Ho' Hn' Hl Hlne Hr Hrne.
  unfold parse_record, log_line, Py.strip.
  rewrite (lstrip_app ts _ Hl Hlne).
  replace (ts +:+ " | " +:+ c +:+ " | " +:+ original +:+ " -> " +:+ new +:+ Py.NL)
    with ((ts +:+ " | " +:+ c +:+ " | " +:+ original +:+ " -> " +:+ new) +:+ Py.NL)
    by (by rewrite !string_app_assoc).
  rewrite rstrip_app_blank by done.
  replace (ts +:+ " | " +:+ c +:+ " | " +:+ original +:+ " -> " +:+ new)
    with ((ts +:+ " | " +:+ c +:+ " | " +:+ original +:+ " -> ") +:+ new)
    by (by rewrite !string_app_assoc).
  rewrite (rstrip_app_kept _ new Hr Hrne), !string_app_assoc.
  unfold Py.split. rewrite (split_bar_first ts _ _ Hts).
  rewrite (split_bar_first c _ _ Hc), !string_app_nil_l.
  rewrite split_bar_none, string_app_nil_l.
  2:{ rewrite !has_char_app, Ho, Hn. done. }
  rewrite (split_arrow_first original _ _ Ho'), string_app_nil_l.
  by rewrite (split_arrow_none new _ Hn'), string_app_nil_l.
Qed.

(** ** Undo by commit identifier *)

Section UndoByCommit.

Context {H : Type} `{Host H}.

Implicit Types (w : World H).

Lemma scan_log_skip c lines skipped rest w :
  Forall (fun item : nat * string => Py.contains c item.2 = false) skipped ->
  scan_log c lines (skipped ++ rest) w = scan_log c lines rest w.
Proof.
  induction 1 as [|[i line] skipped Hline _ IH]; simpl; [done|].
  simpl in Hline. by rewrite Hline.
Qed.

Lemma scan_log_exhausted c lines items w :
  Forall (fun item : nat * string => Py.contains c item.2 = false) items ->
  scan_log c lines items w = (Ret Exhausted, w).
Proof.
  intros Hno. rewrite <- (app_nil_r items). by rewrite scan_log_skip.
Qed.

(** The matched line reads: the restore is tried when the new path exists. *)
Lemma scan_log_parsed c lines i line rest w c0 original new :
  Py.contains c line = true ->
  parse_record line = Some (c0, original, new) ->
  scan_log c lines ((i, line) :: rest) w
  = if os_path_exists new (host w) then
      match shutil_move new original (host w) with
      | (inr _, h) =>
          (Ret (Undone (delete (length lines - 1 - i)%nat lines)),
           mkWorld h (log_file w)
             (trace w ++ [EMove new original None;
                          EPrint ("Restored: " +:+ new +:+ " -> " +:+ original)]))
      | (inl e, h) =>
          (Ret Returned,
           mkWorld h (log_file w)
             (trace w ++ [EMove new original (Some e);
                          EPrint ("Error undoing commit " +:+ c +:+ ": "
                                  +:+ message e)]))
      end
    else
      (Ret Returned,
       mkWorld (host w) (log_file w)
         (trace w ++ [EPrint ("Error: " +:+ new +:+ " not found. Cannot restore.")])).
Proof.
  intros Hc Hparse. simpl. rewrite Hc. unfold parse_record in Hparse.
  destruct (Py.split " | " (Py.strip line)) as [|a [|b [|e [|x parts]]]];
    try discriminate.
  destruct (Py.split " -> " e) as [|o [|n [|y fields]]] eqn:E2;
    try discriminate.
  injection Hparse as -> -> ->.
  unfold try_except, unpack3, unpack2, query, move, syscall, print, emit,
    bind, ret; simpl. rewrite E2.
  destruct (os_path_exists new (host w)); simpl; [|done].
  destruct (shutil_move new original (host w)) as [[e'|[]] h]; simpl;
    by rewrite <- !app_assoc.
Qed.

(** The matched line does not read: the error is printed. *)
Lemma scan_log_unreadable c lines i line rest w :
  Py.contains c line = true ->
  parse_record line = None ->
  scan_log c lines ((i, line) :: rest) w
  = (Ret Returned,
     mkWorld (host w) (log_file w)
       (trace w ++ [EPrint ("Error undoing commit " +:+ c +:+ ": "
                            +:+ message (read_error line))])).
Proof.
  intros Hc Hparse. simpl. rewrite Hc.
  unfold parse_record in Hparse. unfold read_error.
  destruct (Py.split " | " (Py.strip line)) as [|a [|b [|e [|x parts]]]];
    try reflexivity.
  unfold try_except, unpack3, unpack2, bind, ret; simpl.
  destruct (Py.split " -> " e) as [|o [|n [|y fields]]];
    try reflexivity; discriminate.
Qed.

(** However the scan ends, it leaves the log file alone and raises nothing,
    and it ends on [Undone] only after a restore that returned. *)
Lemma scan_log_end c lines items w :
  exists r w',
    scan_log c lines items w = (Ret r, w')
    /\ log_file w' = log_file w
    /\ match r with
       | Undone lines' =>
           exists i line c0 original new,
             (i, line) ∈ items
             /\ parse_record line = Some (c0, original, new)
             /\ os_path_exists new (host w) = true
             /\ shutil_move new original (host w) = (inr tt, host w')
             /\ lines' = delete (length lines - 1 - i)%nat lines
             /\ trace w'
                = trace w ++ [EMove new original None;
                              EPrint ("Restored: " +:+ new +:+ " -> " +:+ original)]
       | Returned => host w' = host w \/ exists new original e,
                       shutil_move new original (host w) = (inl e, host w')
       | Exhausted => w' = w
       end.
Proof.
  induction items as [|[i line] rest IH].
  - exists Exhausted, w. done.
  - destruct (Py.contains c line) eqn:Hc.
    + destruct (parse_record line) as [[[c0 original] new]|] eqn:Hparse.
      * rewrite (scan_log_parsed _ _ _ _ _ _ _ _ _ Hc Hparse).
        destruct (os_path_exists new (host w)) eqn:Hex.
        -- destruct (shutil_move new original (host w)) as [[e|[]] h] eqn:Hmv.
           ++ eexists Returned, _. split; [done|]. split; [done|].
              right. by exists new, original, e.
           ++ eexists (Undone _), _. split; [done|]. split; [done|].
              exists i, line, c0, original, new. simpl.
              repeat split; try done. apply list_elem_of_here.
        -- eexists Returned, _. split; [done|]. split; [done|]. by left.
      * rewrite (scan_log_unreadable _ _ _ _ _ _ Hc Hparse).
        eexists Returned, _. split; [done|]. split; [done|]. by left.
    + simpl. rewrite Hc. destruct IH as (r & w' & E & L & R).
      exists r, w'. split; [done|]. split; [done|].
      destruct r; try done.
      destruct R as (i0 & l0 & c0 & o0 & n0 & Hin & R).
      exists i0, l0, c0, o0, n0. split; [by apply list_elem_of_further | done].
Qed.

Lemma undo_by_commit_id_run c w s :
  log_file w = Some s ->
  undo_by_commit_id c w
  = match scan_log c (Py.readlines s) (Py.enumerate (rev (Py.readlines s))) w with
    | (Ret (Undone lines'), w') =>
        (Ret tt, mkWorld (host w') (Some (Py.writelines lines')) (trace w'))
    | (Ret Returned, w') => (Ret tt, w')
    | (Ret Exhausted, w') =>
        (Ret tt, mkWorld (host w') (log_file w')
                   (trace w' ++ [EPrint ("Commit ID " +:+ c
                                         +:+ " not found in the log.")]))
    | (Raise e, w') => (Raise e, w')
    | (Exit n, w') => (Exit n, w')
    end.
Proof.
  intros Hlog.
  unfold undo_by_commit_id, log_exists, read_log, write_log, print, emit,
    bind, ret.
  rewrite Hlog. simpl. rewrite Hlog. simpl.
  destruct (scan_log _ _ _ w) as [[[lines'| |]|e|n] w']; done.
Qed.

Lemma undo_by_commit_id_no_log c w :
  log_file w = None ->
  undo_by_commit_id c w
  = (Ret tt, mkWorld (host w) None
               (trace w ++ [EPrint "No log file found. Nothing to undo."])).
Proof.
  intros Hlog. unfold undo_by_commit_id, log_exists, bind, print, emit.
  rewrite Hlog. simpl. by rewrite Hlog.
Qed.

Lemma Forall_imap_snd {A} (P : A -> Prop) (f : nat -> A -> nat * A) (l : list A) :
  (forall i x, (f i x).2 = x) -> Forall P l ->
  Forall (fun item : nat * A => P item.2) (imap f l).
Proof.
  intros Hf Hl. revert f Hf. induction Hl as [|x l Hx _ IH]; intros f Hf; simpl.
  - constructor.
  - constructor; [by rewrite Hf | apply IH]. intros i y. apply Hf.
Qed.

(** The scan from the end of the log reaches the last line that contains
    the identifier, at the index that line has from the end. *)
Lemma scan_log_reaches c lines pre line post w :
  Forall (fun l => Py.contains c l = false) post ->
  exists rest,
    scan_log c lines (Py.enumerate (rev (pre ++ line :: post))) w
    = scan_log c lines ((length post, line) :: rest) w.
Proof.
  intros Hpost. rewrite rev_app_distr.
  change (rev (line :: post)) with (rev post ++ [line]).
  rewrite <- app_assoc. change ([line] ++ rev pre) with (line :: rev pre).
  unfold Py.enumerate. rewrite imap_app, imap_cons, length_rev, Nat.add_0_r.
  eexists. apply scan_log_skip. apply (Forall_imap_snd (fun l => Py.contains c l = false)); [done|].
  apply Forall_forall. intros l Hl. apply list_elem_of_In in Hl.
  rewrite <- in_rev in Hl. apply list_elem_of_In in Hl.
  by eapply (proj1 (Forall_forall _ _) Hpost).
Qed.

(** C3: [undo_by_commit_id] always returns, and it rewrites the log only
    after a restore has returned.  When no line of the log contains the
    identifier it prints that the identifier was not found, and when the
    new path recorded on the matched line (the last line that contains the
    identifier) does not exist it prints the error; in both cases nothing
    but the printed line changes, so the log file is as it was. *)
Theorem undo_by_commit_id_keeps_log c w :
  (undo_by_commit_id c w).1 = Ret tt
  /\ (log_file (undo_by_commit_id c w).2 = log_file w
      \/ exists new original,
           os_path_exists new (host w) = true
           /\ shutil_move new original (host w)
              = (inr tt, host (undo_by_commit_id c w).2)
           /\ trace (undo_by_commit_id c w).2
              = trace w ++ [EMove new original None;
                            EPrint ("Restored: " +:+ new +:+ " -> " +:+ original)])
  /\ (forall s,
        log_file w = Some s ->
        Forall (fun line => Py.contains c line = false) (Py.readlines s) ->
        (undo_by_commit_id c w).2
        = mkWorld (host w) (log_file w)
            (trace w ++ [EPrint ("Commit ID " +:+ c +:+ " not found in the log.")]))
  /\ (forall s pre line post c0 original new,
        log_file w = Some s ->
        Py.readlines s = pre ++ line :: post ->
        Py.contains c line = true ->
        Forall (fun l => Py.contains c l = false) post ->
        parse_record line = Some (c0, original, new) ->
        os_path_exists new (host w) = false ->
        (undo_by_commit_id c w).2
        = mkWorld (host w) (log_file w)
            (trace w ++ [EPrint ("Error: " +:+ new
                                 +:+ " not found. Cannot restore.")])).
Proof.
  split; [|split; [|split]].
  - destruct (log_file w) as [s|] eqn:Hlog.
    + rewrite (undo_by_commit_id_run _ _ _ Hlog).
      destruct (scan_log_end c (Py.readlines s)
                  (Py.enumerate (rev (Py.readlines s))) w) as (r & w' & -> & _).
      by destruct r.
    + by rewrite (undo_by_commit_id_no_log _ _ Hlog).
  - destruct (log_file w) as [s|] eqn:Hlog.
    + rewrite (undo_by_commit_id_run _ _ _ Hlog).
      destruct (scan_log_end c (Py.readlines s)
                  (Py.enumerate (rev (Py.readlines s))) w)
        as (r & w' & -> & L & R).
      destruct r as [lines'| |]; simpl.
      * right. destruct R as (i & line & c0 & original & new & _ & _ & R).
        exists new, original. simpl. tauto.
      * left. congruence.
      * left. congruence.
    + left. by rewrite (undo_by_commit_id_no_log _ _ Hlog).
  - intros s Hlog Hnone. rewrite (undo_by_commit_id_run _ _ _ Hlog).
    rewrite scan_log_exhausted; [done|].
    apply (Forall_imap_snd (fun l => Py.contains c l = false)); [done|].
    apply Forall_forall. intros l Hl. apply list_elem_of_In in Hl.
    rewrite <- in_rev in Hl. apply list_elem_of_In in Hl.
    by eapply (proj1 (Forall_forall _ _) Hnone).
  - intros s pre line post c0 original new Hlog Hlines Hc Hpost Hparse Hex.
    rewrite (undo_by_commit_id_run _ _ _ Hlog), Hlines.
    destruct (scan_log_reaches c (pre ++ line :: post) pre line post w Hpost)
      as [rest ->].
    rewrite (scan_log_parsed _ _ _ _ _ _ _ _ _ Hc Hparse), Hex. done.
Qed.

(** C2, amended: when the line that [log_move] wrote for a move reads back
    as written, no later line of the log contains its commit identifier,
    the new path still exists and [shutil.move] returns, undoing by that
    identifier moves the new path back to the original path and rewrites
    the log without that line, the other lines as they were read. *)
Theorem undo_by_commit_id_round_trip c w s pre post ts original new h' :
  log_file w = Some s ->
  Py.readlines s = pre ++ log_line ts c original new :: post ->
  Forall (fun line => Py.contains c line = false) post ->
  parse_record (log_line ts c original new) = Some (ts, original, new) ->
  os_path_exists new (host w) = true ->
  shutil_move new original (host w) = (inr tt, h') ->
  undo_by_commit_id c w
  = (Ret tt,
     mkWorld h' (Some (Py.writelines (pre ++ post)))
       (trace w ++ [EMove new original None;
                    EPrint ("Restored: " +:+ new +:+ " -> " +:+ original)])).
Proof.
  intros Hlog Hlines Hpost Hparse Hex Hmv.
  rewrite (undo_by_commit_id_run _ _ _ Hlog), Hlines.
  destruct (scan_log_reaches c (pre ++ log_line ts c original new :: post)
              pre (log_line ts c original new) post w Hpost) as [rest ->].
  assert (Py.contains c (log_line ts c original new) = true) as Hc.
  { unfold log_line. rewrite <- (string_app_assoc ts " | " _).
    apply contains_app. }
  rewrite (scan_log_parsed _ _ _ _ _ _ _ _ _ Hc Hparse), Hex, Hmv.
  do 3 f_equal. f_equal.
  replace (length (pre ++ log_line ts c original new :: post) - 1 - length post)%nat
    with (length pre) by (rewrite length_app; simpl; lia).
  apply delete_middle.
Qed.

End UndoByCommit.

(** ** Undo of the last moves *)

Section UndoLastMoves.

Context {H : Type} `{Host H}.

Implicit Types (w : World H) (st : locals).

Lemma parse_record_three_fields line r :
  parse_record line = Some r -> three_fields line = true.
Proof.
  unfold parse_record, three_fields.
  by destruct (Py.split " | " (Py.strip line)) as [|a [|b [|e [|x parts]]]].
Qed.

(** A line that reads: the restore is tried when the new path exists. *)
Lemma undo_move_parsed line st w c original new :
  parse_record line = Some (c, original, new) ->
  undo_move line st w
  = if os_path_exists new (host w) then
      match shutil_move new original (host w) with
      | (inr _, h) =>
          (Ret (mkLocals (Some c)
                  (successful_undos st
                   ++ success_line (Restored c new original))
                  (failed_undos st)),
           mkWorld h (log_file w) (trace w ++ [EMove new original None]))
      | (inl e, h) =>
          (Ret (mkLocals (Some c) (successful_undos st)
                  (failed_undos st
                   ++ ["Error undoing commit " +:+ c +:+ ": " +:+ message e])),
           mkWorld h (log_file w) (trace w ++ [EMove new original (Some e)]))
      end
    else
      (Ret (mkLocals (Some c) (successful_undos st)
              (failed_undos st
               ++ ["Missing: " +:+ new +:+ " (Cannot restore) (Commit ID: "
                   +:+ c +:+ ")"])),
       w).
Proof.
  intros Hparse. unfold undo_move. unfold parse_record in Hparse.
  destruct (Py.split " | " (Py.strip line)) as [|a [|b [|e [|x parts]]]];
    try discriminate.
  destruct (Py.split " -> " e) as [|o [|n [|y fields]]] eqn:E2;
    try discriminate.
  injection Hparse as -> -> ->.
  unfold try_except, unpack2, query, move, syscall, bind, ret; simpl.
  rewrite ?E2. destruct (os_path_exists new (host w)); simpl; [|done].
  by destruct (shutil_move new original (host w)) as [[e'|[]] h].
Qed.

(** A line that does not read, met when [commit_id] is bound or is bound by
    the line itself: one more failure, nothing else. *)
Lemma undo_move_unreadable line st w :
  parse_record line = None ->
  three_fields line = true \/ commit_id st <> None ->
  exists c text,
    undo_move line st w
    = (Ret (mkLocals (Some c) (successful_undos st) (failed_undos st ++ [text])),
       w).
Proof.
  intros Hparse Hbound. unfold undo_move.
  unfold parse_record in Hparse. unfold three_fields in Hbound.
  destruct (Py.split " | " (Py.strip line)) as [|a [|b [|e [|x parts]]]].
  1-3, 5: destruct Hbound as [?|Hst]; [done|];
    unfold undo_except; destruct (commit_id st) as [c0|]; [|done];
    by eexists _, _.
  unfold try_except, unpack2, bind, ret; simpl.
  destruct (Py.split " -> " e) as [|o [|n [|y fields]]];
    try discriminate; by eexists _, _.
Qed.

(** A line without three fields, met when [commit_id] is still unbound:
    the [except] clause itself raises. *)
Lemma undo_move_unbound line st w :
  three_fields line = false -> commit_id st = None ->
  undo_move line st w = (Raise unbound_commit_id, w).
Proof.
  intros Hthree Hst. unfold undo_move. unfold three_fields in Hthree.
  destruct (Py.split " | " (Py.strip line)) as [|a [|b [|e [|x parts]]]];
    try discriminate; unfold undo_except; by rewrite Hst.
Qed.

(** The loop refines the batch of the specification as long as [commit_id]
    is bound when the [except] clause needs it. *)
Lemma undo_moves_batch moves st w :
  (commit_id st = None ->
   match moves with line :: _ => three_fields line = true | [] => True end) ->
  exists st' w' rs,
    undo_moves moves st w = (Ret st', w')
    /\ batch (host w) moves rs (host w')
    /\ log_file w' = log_file w
    /\ trace w' = trace w ++ flat_map restore_call rs
    /\ successful_undos st' = successful_undos st ++ flat_map success_line rs
    /\ length (failed_undos st')
       = (length (failed_undos st) + length (List.filter is_failure rs))%nat.
Proof.
  revert st w. induction moves as [|line rest IH]; intros st w Hbound.
  - exists st, w, []. simpl. rewrite !app_nil_r.
    repeat split; [constructor | lia].
  - simpl. unfold bind.
    destruct (parse_record line) as [[[c original] new]|] eqn:Hparse.
    + rewrite (undo_move_parsed _ _ _ _ _ _ Hparse).
      destruct (os_path_exists new (host w)) eqn:Hex.
      * destruct (shutil_move new original (host w)) as [[e|[]] h] eqn:Hmv.
        -- edestruct IH as (st' & w' & rs & -> & B & L & T & S & F);
             [|exists st', w', (RestoreFailed new original e :: rs)].
           { done. }
           simpl in *. rewrite T, S, F, length_app, <- app_assoc. simpl.
           repeat split; try done; [by eapply batch_raised | lia].
        -- edestruct IH as (st' & w' & rs & -> & B & L & T & S & F);
             [|exists st', w', (Restored c new original :: rs)].
           { done. }
           simpl in *. rewrite T, S, F, <- !app_assoc. simpl.
           repeat split; try done. by eapply batch_restored.
      * edestruct IH as (st' & w' & rs & -> & B & L & T & S & F);
          [|exists st', w', (Missing c new :: rs)].
        { done. }
        simpl in *. rewrite S, F, length_app. simpl.
        repeat split; try done; [by eapply batch_missing | lia].
    + destruct (undo_move_unreadable line st w Hparse) as (c & text & ->).
      { destruct (commit_id st) eqn:Hst; [by right | left; by apply Hbound]. }
      edestruct IH as (st' & w' & rs & -> & B & L & T & S & F);
        [|exists st', w', (Unreadable line :: rs)].
      { done. }
      simpl in *. rewrite S, F, length_app. simpl.
      repeat split; try done; [by eapply batch_unreadable | lia].
Qed.

Lemma for_each_print (l : list string) w :
  for_each l print w
  = (Ret tt, mkWorld (host w) (log_file w) (trace w ++ List.map EPrint l)).
Proof.
  revert w. induction l as [|x l IH]; intros w; simpl.
  - unfold ret. rewrite app_nil_r. by destruct w.
  - unfold bind, print, emit. rewrite IH. simpl. by rewrite <- app_assoc.
Qed.

Lemma report_run header (l : list string) w :
  report header l w
  = (Ret tt,
     mkWorld (host w) (log_file w)
       (trace w ++ match l with
                   | [] => []
                   | _ => EPrint header :: List.map EPrint l
                   end)).
Proof.
  destruct l as [|x l]; unfold report.
  - unfold ret. rewrite app_nil_r. by destruct w.
  - unfold bind, print at 1, emit. rewrite for_each_print. simpl.
    by rewrite <- app_assoc.
Qed.

Lemma undo_last_moves_run n w s :
  log_file w = Some s -> Py.readlines s <> [] ->
  undo_last_moves n w
  = match undo_moves (rev (Py.slice_from (- n) (Py.readlines s)))
            (mkLocals None [] []) w with
    | (Ret st, w') =>
        (Ret tt,
         mkWorld (host w')
           (Some (Py.writelines (Py.slice_to (- n) (Py.readlines s))))
           (trace w' ++ report_events (successful_undos st) (failed_undos st)))
    | (Raise e, w') => (Raise e, w')
    | (Exit k, w') => (Exit k, w')
    end.
Proof.
  intros Hlog Hlines.
  unfold undo_last_moves, log_exists, read_log, bind at 1 2.
  rewrite Hlog. simpl. rewrite Hlog. simpl.
  destruct (Py.readlines s) as [|l ls] eqn:E; [done|].
  unfold bind at 1. destruct (undo_moves _ _ w) as [[st|e|k] w']; [|done..].
  unfold bind, write_log. rewrite !report_run. simpl.
  unfold report_events. by rewrite <- app_assoc.
Qed.

(** The loop as a refinement of the batch: on a log whose last
    line has three fields, [undo_last_moves] carries out the batch of the
    specification on the last [n] lines, most recent first, and then
    rewrites the log without them. *)
Lemma undo_last_moves_refines n w s last_line :
  1 <= n ->
  log_file w = Some s ->
  last (Py.readlines s) = Some last_line ->
  three_fields last_line = true ->
  exists rs h' failed,
    batch (host w)
      (rev (drop (length (Py.readlines s) - Z.to_nat n) (Py.readlines s))) rs h'
    /\ length failed = length (List.filter is_failure rs)
    /\ undo_last_moves n w
       = (Ret tt,
          mkWorld h'
            (Some (Py.writelines
                     (take (length (Py.readlines s) - Z.to_nat n) (Py.readlines s))))
            (trace w ++ flat_map restore_call rs
             ++ report_events (flat_map success_line rs) failed)).
Proof.
  intros Hn Hlog Hlast Hthree.
  assert (Py.readlines s <> []) as Hne by (by intros E; rewrite E in Hlast).
  rewrite (undo_last_moves_run _ _ _ Hlog Hne).
  rewrite (slice_from_last n _ Hn), (slice_to_last n _ Hn).
  destruct (rev_drop_last (length (Py.readlines s) - Z.to_nat n)
              (Py.readlines s) last_line Hlast) as [rest Hrev].
  { destruct (Py.readlines s); [done | simpl; lia]. }
  destruct (undo_moves_batch
              (rev (drop (length (Py.readlines s) - Z.to_nat n) (Py.readlines s)))
              (mkLocals None [] []) w)
    as (st' & w' & rs & -> & B & L & T & S & F).
  { intros _. by rewrite Hrev. }
  simpl in *. exists rs, (host w'), (failed_undos st').
  split; [done|]. split; [done|]. by rewrite T, S, <- app_assoc.
Qed.

(** C1, amended: for [n >= 1] and a log whose last line has three fields,
    [undo_last_moves] takes the last [n] lines (all of them when there are
    fewer) from the most recent one back.  For each it calls [shutil.move]
    from the new path to the original path when the line reads and the new
    path exists at that moment; the entry is a success when the call
    returns and a failure when the path is missing, when the call raises or
    when the line does not read.  It goes through all of them, prints the
    two lists and returns, and the log is rewritten without those lines
    whatever the results were. *)
Theorem undo_last_moves_batch n w s last_line :
  1 <= n ->
  log_file w = Some s ->
  last (Py.readlines s) = Some last_line ->
  three_fields last_line = true ->
  exists rs h' failed,
    batch (host w)
      (rev (drop (length (Py.readlines s) - Z.to_nat n) (Py.readlines s))) rs h'
    /\ length failed = length (List.filter is_failure rs)
    /\ undo_last_moves n w
       = (Ret tt,
          mkWorld h'
            (Some (Py.writelines
                     (take (length (Py.readlines s) - Z.to_nat n) (Py.readlines s))))
            (trace w ++ flat_map restore_call rs
             ++ report_events (flat_map success_line rs) failed)).
Proof. apply undo_last_moves_refines. Qed.

(** X14: with more moves asked for than the log has lines, and a last line
    with three fields, every line is processed and the log is left empty. *)
Lemma undo_last_moves_clamps n w s last_line :
  Z.of_nat (length (Py.readlines s)) < n ->
  log_file w = Some s ->
  last (Py.readlines s) = Some last_line ->
  three_fields last_line = true ->
  exists rs h' failed,
    batch (host w) (rev (Py.readlines s)) rs h'
    /\ length failed = length (List.filter is_failure rs)
    /\ undo_last_moves n w
       = (Ret tt,
          mkWorld h' (Some EmptyString)
            (trace w ++ flat_map restore_call rs
             ++ report_events (flat_map success_line rs) failed)).
Proof.
  intros Hn Hlog Hlast Hthree.
  destruct (undo_last_moves_refines n w s last_line) as (rs & h' & failed & B & F & E);
    [lia | done..|].
  replace (length (Py.readlines s) - Z.to_nat n)%nat with 0%nat in * by lia.
  rewrite drop_0 in B. rewrite take_0 in E. by exists rs, h', failed.
Qed.

Lemma undo_last_moves_no_log n w :
  log_file w = None ->
  undo_last_moves n w
  = (Ret tt, mkWorld (host w) None
               (trace w ++ [EPrint "No log file found. Nothing to undo."])).
Proof.
  intros Hlog. unfold undo_last_moves, log_exists, bind, print, emit.
  rewrite Hlog. simpl. by rewrite Hlog.
Qed.

Lemma undo_last_moves_empty_log n w s :
  log_file w = Some s -> Py.readlines s = [] ->
  undo_last_moves n w
  = (Ret tt, mkWorld (host w) (Some s)
               (trace w ++ [EPrint "Log file is empty. Nothing to undo."])).
Proof.
  intros Hlog Hlines. unfold undo_last_moves, log_exists, read_log, bind, print, emit.
  rewrite Hlog. simpl. rewrite Hlog. simpl. rewrite Hlines. by rewrite Hlog.
Qed.

(** On a log whose last line does not have three fields, every batch undo
    ends on the [UnboundLocalError] of its first iteration, the world as it
    was. *)
Lemma undo_last_moves_unbound n w s last_line :
  1 <= n ->
  log_file w = Some s ->
  last (Py.readlines s) = Some last_line ->
  three_fields last_line = false ->
  undo_last_moves n w = (Raise unbound_commit_id, w).
Proof.
  intros Hn Hlog Hlast Hthree.
  assert (Py.readlines s <> []) as Hne by (by intros E; rewrite E in Hlast).
  rewrite (undo_last_moves_run _ _ _ Hlog Hne), (slice_from_last n _ Hn).
  destruct (rev_drop_last (length (Py.readlines s) - Z.to_nat n)
              (Py.readlines s) last_line Hlast) as [rest ->].
  { destruct (Py.readlines s); [done | simpl; lia]. }
  simpl. unfold bind. by rewrite undo_move_unbound.
Qed.

(** C9: asked to undo two moves on a log of one line that has no bar,
    [undo_last_moves] ends on an uncaught [UnboundLocalError]: the [except]
    clause of the first iteration formats [commit_id] before any assignment
    to it.  The log is left as it was. *)
Theorem undo_last_moves_beyond_log_raises (h : H) (t : list event) :
  undo_last_moves 2 (mkWorld h (Some ("garbage" +:+ Py.NL)) t)
  = (Raise unbound_commit_id, mkWorld h (Some ("garbage" +:+ Py.NL)) t).
Proof. reflexivity. Qed.

End UndoLastMoves.

(** ** The script *)

Section Script.

Context {H : Type} `{Host H}.

Implicit Types (w : World H) (cfg : Config).

Lemma list_files_and_folders_raises cfg w e h :
  os_listdir (DIRECTORY cfg) (host w) = (inl e, h) ->
  list_files_and_folders cfg w
  = directory_errors cfg e (mkWorld h (log_file w) (trace w)).
Proof.
  intros Hls. unfold list_files_and_folders, try_except, bind, listdir.
  by rewrite Hls.
Qed.

Lemma list_files_and_folders_returns cfg w entries h :
  os_listdir (DIRECTORY cfg) (host w) = (inr entries, h) ->
  list_files_and_folders cfg w
  = (Ret (List.filter
            (fun entry => os_path_isfile (Py.path_join (DIRECTORY cfg) entry) h)
            entries,
          List.filter
            (fun entry => os_path_isdir (Py.path_join (DIRECTORY cfg) entry) h)
            entries),
     mkWorld h (log_file w) (trace w)).
Proof.
  intros Hls. unfold list_files_and_folders, try_except, bind, listdir, query, ret.
  by rewrite Hls.
Qed.

(** C10: the directory is listed before the dispatch on the arguments.
    When the listing raises, the script prints the message of the matching
    [except] clause and exits with status 1, the log untouched and no undo
    attempted, whatever the arguments.  With [--undo N] (N positive) or
    [--undo_commit ID] (ID not empty) and a listing that returns, the undo
    runs on the world the listing left and its result does not depend on
    the entries listed. *)
Theorem listing_runs_before_undo cfg args w :
  (forall e h,
      os_listdir (DIRECTORY cfg) (host w) = (inl e, h) ->
      main cfg args w
      = (Exit 1,
         mkWorld h (log_file w)
           (trace w
            ++ [EPrint
                  match kind e with
                  | FileNotFoundError =>
                      "The directory " +:+ DIRECTORY cfg +:+ " does not exist."
                  | PermissionError =>
                      "Permission denied to access " +:+ DIRECTORY cfg +:+ "."
                  | _ => "An error occurred: " +:+ message e
                  end])))
  /\ (0 < undo args
      \/ (exists id, undo_commit args = Some id /\ id <> EmptyString) ->
      forall entries h,
        os_listdir (DIRECTORY cfg) (host w) = (inr entries, h) ->
        main cfg args w
        = (if 0 <? undo args then undo_last_moves (undo args)
           else undo_by_commit_id (default EmptyString (undo_commit args)))
            (mkWorld h (log_file w) (trace w))).
Proof.
  split.
  - intros e h Hls. unfold main, bind at 1.
    rewrite (list_files_and_folders_raises _ _ _ _ Hls).
    unfold directory_errors. by destruct (kind e).
  - intros Hmode entries h Hls. unfold main, bind at 1.
    rewrite (list_files_and_folders_returns _ _ _ _ Hls).
    destruct (0 <? undo args) eqn:Hpos; [done|].
    destruct Hmode as [Hu|(id & -> & Hid)]; [apply Z.ltb_ge in Hpos; lia|].
    simpl. destruct (String.eqb_spec id EmptyString); done.
Qed.

End Script.

(** ** Moving back on the reference host *)

Lemma ref_move_file (h : RefHost.t) (src dst c : string) :
  RefHost.tree h !! src = Some (RefHost.File c) ->
  RefHost.tree h !! dst = None ->
  RefHost.parent_ok (RefHost.tree h) dst = true ->
  RefHost.locked h src = false -> RefHost.locked h dst = false ->
  RefHost.move src dst h
  = (inr tt,
     RefHost.mk (<[dst := RefHost.File c]> (delete src (RefHost.tree h)))
       (RefHost.readonly h) (RefHost.uuids h) (RefHost.times h)).
Proof.
  intros Hsrc Hdst Hpar Hls Hld.
  unfold RefHost.move, RefHost.is_dir, RefHost.present, RefHost.rename.
  rewrite Hdst, Hsrc. simpl. by rewrite Hpar, Hls, Hld.
Qed.

(** Moving a file to a free path and back leaves the host as it was. *)
Lemma ref_move_back (h : RefHost.t) (src dst c : string) :
  RefHost.tree h !! src = Some (RefHost.File c) ->
  RefHost.tree h !! dst = None ->
  RefHost.parent_ok (RefHost.tree h) src = true ->
  RefHost.parent_ok (RefHost.tree h) dst = true ->
  RefHost.locked h src = false -> RefHost.locked h dst = false ->
  exists h1,
    RefHost.move src dst h = (inr tt, h1)
    /\ os_path_exists dst h1 = true
    /\ RefHost.move dst src h1 = (inr tt, h).
Proof.
  intros Hsrc Hdst Hps Hpd Hls Hld.
  assert (src <> dst) as Hne by congruence.
  eexists. split; [by apply (ref_move_file h src dst c)|].
  split.
  { simpl. unfold RefHost.present. simpl. by rewrite lookup_insert_eq. }
  rewrite (ref_move_file _ dst src c); simpl; try done.
  - destruct h as [tr ro us ts]. simpl in *. f_equal. f_equal.
    apply map_eq. intros k.
    destruct (decide (k = src)) as [->|Hks].
    + by rewrite lookup_insert_eq.
    + rewrite lookup_insert_ne by done.
      destruct (decide (k = dst)) as [->|Hkd].
      * by rewrite lookup_delete_eq.
      * rewrite lookup_delete_ne, lookup_insert_ne, lookup_delete_ne; done.
  - by rewrite lookup_insert_eq.
  - rewrite lookup_insert_ne, lookup_delete_eq; done.
  - unfold RefHost.parent_ok, RefHost.is_dir in *.
    destruct (String.eqb (RefHost.dirname src) EmptyString); [done|].
    simpl in *.
    destruct (RefHost.tree h !! RefHost.dirname src) as [[|]|] eqn:E;
      try discriminate.
    rewrite lookup_insert_ne by congruence.
    rewrite lookup_delete_ne by congruence. by rewrite E.
Qed.

(** ** The properties on the reference host *)

Example scenario_categorize :
  let r := main scenario_config no_args scenario_world in
  r.1 = Ret tt
  /\ RefHost.tree (host r.2) !! "/tmp/t/Images/a.jpg" = Some (RefHost.File "photo")
  /\ RefHost.tree (host r.2) !! "/tmp/t/Unsorted/b.txt" = Some (RefHost.File "text")
  /\ length (Py.readlines (default EmptyString (log_file r.2))) = 2%nat.
Proof. by vm_compute. Qed.

Example demo_sorted_log : log_file demo_sorted = Some demo_log.
Proof. by vm_compute. Qed.

Example scenario_undo_two :
  let r := undo_last_moves 2 demo_sorted in
  r.1 = Ret tt
  /\ List.filter is_move (drop (length (trace demo_sorted)) (trace r.2))
     = [EMove "/d/Docs/b.txt" "/d/b.txt" None;
        EMove "/d/Unsorted/notes" "/d/notes" None]
  /\ RefHost.tree (host r.2) !! "/d/b.txt" = Some (RefHost.File "text")
  /\ RefHost.tree (host r.2) !! "/d/notes" = Some (RefHost.File "memo")
  /\ log_file r.2 = Some demo_line_a.
Proof. by vm_compute. Qed.

Example scenario_unknown_commit :
  let r := undo_by_commit_id "ffffffff" demo_sorted in
  r.1 = Ret tt
  /\ log_file r.2 = log_file demo_sorted
  /\ last (trace r.2) = Some (EPrint "Commit ID ffffffff not found in the log.").
Proof. by vm_compute. Qed.

Example undo_commit_restores_notes :
  let r := undo_by_commit_id "5e6f7a8b" demo_sorted in
  r.1 = Ret tt
  /\ RefHost.tree (host r.2) !! "/d/notes" = Some (RefHost.File "memo")
  /\ RefHost.tree (host r.2) !! "/d/Unsorted/notes" = None
  /\ log_file r.2 = Some (demo_line_a +:+ demo_line_b).
Proof. by vm_compute. Qed.

Lemma undo_last_moves_batch_witness :
  1 <= 2
  /\ log_file demo_sorted = Some demo_log
  /\ last (Py.readlines demo_log) = Some demo_line_b
  /\ three_fields demo_line_b = true
  /\ exists rs h' failed,
       batch (host demo_sorted)
         (rev (drop (length (Py.readlines demo_log) - Z.to_nat 2)
                 (Py.readlines demo_log))) rs h'
       /\ length failed = length (List.filter is_failure rs)
       /\ undo_last_moves 2 demo_sorted
          = (Ret tt,
             mkWorld h'
               (Some (Py.writelines
                        (take (length (Py.readlines demo_log) - Z.to_nat 2)
                           (Py.readlines demo_log))))
               (trace demo_sorted ++ flat_map restore_call rs
                ++ report_events (flat_map success_line rs) failed)).
Proof.
  split; [lia|]. split; [by vm_compute|]. split; [by vm_compute|].
  split; [by vm_compute|].
  apply (undo_last_moves_batch 2 demo_sorted demo_log demo_line_b);
    [lia | by vm_compute..].
Defined.

(** An entry whose new path exists is not restored when [shutil.move]
    raises: the directory of the original path is read-only.  The entry is
    reported as failed and is dropped from the log all the same. *)
Lemma undo_last_moves_restore_raises :
  last (Py.readlines (default EmptyString (log_file demo_locked)))
  = Some demo_line_b
  /\ parse_record demo_line_b
     = Some ("2024-01-01 10:00:02", "/d/b.txt", "/d/Docs/b.txt")
  /\ os_path_exists "/d/Docs/b.txt" (host demo_locked) = true
  /\ (undo_last_moves 1 demo_locked).1 = Ret tt
  /\ RefHost.tree (host (undo_last_moves 1 demo_locked).2) !! "/d/b.txt" = None
  /\ RefHost.tree (host (undo_last_moves 1 demo_locked).2) !! "/d/Docs/b.txt"
     = Some (RefHost.File "text")
  /\ log_file (undo_last_moves 1 demo_locked).2
     = Some (demo_line_a +:+ demo_line_notes).
Proof. by vm_compute. Qed.

Lemma undo_by_commit_id_round_trip_witness :
  log_file demo_sorted = Some demo_log
  /\ Py.readlines demo_log
     = [demo_line_a]
       ++ log_line "2024-01-01 10:00:01" "5e6f7a8b" "/d/notes" "/d/Unsorted/notes"
       :: [demo_line_b]
  /\ Forall (fun line => Py.contains "5e6f7a8b" line = false) [demo_line_b]
  /\ parse_record
       (log_line "2024-01-01 10:00:01" "5e6f7a8b" "/d/notes" "/d/Unsorted/notes")
     = Some ("2024-01-01 10:00:01", "/d/notes", "/d/Unsorted/notes")
  /\ os_path_exists "/d/Unsorted/notes" (host demo_sorted) = true
  /\ undo_by_commit_id "5e6f7a8b" demo_sorted
     = (Ret tt,
        mkWorld (shutil_move "/d/Unsorted/notes" "/d/notes" (host demo_sorted)).2
          (Some (Py.writelines ([demo_line_a] ++ [demo_line_b])))
          (trace demo_sorted
           ++ [EMove "/d/Unsorted/notes" "/d/notes" None;
               EPrint ("Restored: " +:+ "/d/Unsorted/notes" +:+ " -> "
                       +:+ "/d/notes")])).
Proof.
  split; [by vm_compute|]. split; [by vm_compute|].
  split; [by repeat constructor|]. split; [by vm_compute|].
  split; [by vm_compute|].
  apply (undo_by_commit_id_round_trip "5e6f7a8b" demo_sorted demo_log
           [demo_line_a] [demo_line_b] "2024-01-01 10:00:01"
           "/d/notes" "/d/Unsorted/notes");
    [by vm_compute | by vm_compute | by repeat constructor
     | by vm_compute | by vm_compute | by vm_compute].
Defined.

(** A file whose name contains the arrow of the log format is moved and
    logged, but undoing by the identifier of that move neither restores the
    file nor removes the line. *)
Lemma undo_by_commit_id_arrow_in_name :
  log_file (main demo_config no_args arrow_world).2
  = Some ("2024-01-01 10:00:00 | 1a2b3c4d | /d/x -> y.txt -> /d/Docs/x -> y.txt"
          +:+ Py.NL)
  /\ RefHost.tree (host (main demo_config no_args arrow_world).2)
       !! "/d/Docs/x -> y.txt" = Some (RefHost.File "text")
  /\ (undo_by_commit_id "1a2b3c4d" (main demo_config no_args arrow_world).2).1
     = Ret tt
  /\ RefHost.tree
       (host (undo_by_commit_id "1a2b3c4d"
                (main demo_config no_args arrow_world).2).2)
       !! "/d/x -> y.txt" = None
  /\ log_file (undo_by_commit_id "1a2b3c4d"
                 (main demo_config no_args arrow_world).2).2
     = log_file (main demo_config no_args arrow_world).2.
Proof. by vm_compute. Qed.

Lemma undo_by_commit_id_keeps_log_witness :
  (log_file demo_sorted = Some demo_log
   /\ Forall (fun line => Py.contains "ffffffff" line = false)
        (Py.readlines demo_log)
   /\ (undo_by_commit_id "ffffffff" demo_sorted).2
      = mkWorld (host demo_sorted) (log_file demo_sorted)
          (trace demo_sorted
           ++ [EPrint ("Commit ID " +:+ "ffffffff" +:+ " not found in the log.")]))
  /\ (log_file demo_lost = Some demo_log
      /\ Py.readlines demo_log = [demo_line_a; demo_line_notes] ++ demo_line_b :: []
      /\ Py.contains "9c0d1e2f" demo_line_b = true
      /\ parse_record demo_line_b
         = Some ("2024-01-01 10:00:02", "/d/b.txt", "/d/Docs/b.txt")
      /\ os_path_exists "/d/Docs/b.txt" (host demo_lost) = false
      /\ (undo_by_commit_id "9c0d1e2f" demo_lost).2
         = mkWorld (host demo_lost) (log_file demo_lost)
             (trace demo_lost
              ++ [EPrint ("Error: " +:+ "/d/Docs/b.txt"
                          +:+ " not found. Cannot restore.")])).
Proof.
  split.
  - split; [by vm_compute|]. split; [by repeat constructor|].
    apply (proj1 (proj2 (proj2 (undo_by_commit_id_keeps_log "ffffffff" demo_sorted)))
             demo_log); [by vm_compute | by repeat constructor].
  - split; [by vm_compute|]. split; [by vm_compute|]. split; [by vm_compute|].
    split; [by vm_compute|]. split; [by vm_compute|].
    apply (proj2 (proj2 (proj2 (undo_by_commit_id_keeps_log "9c0d1e2f" demo_lost)))
             demo_log [demo_line_a; demo_line_notes] demo_line_b []
             "2024-01-01 10:00:02" "/d/b.txt" "/d/Docs/b.txt");
      [by vm_compute | by vm_compute | by vm_compute | constructor
       | by vm_compute | by vm_compute].
Defined.

(** C4: a file whose name contains the bar of the log format is moved and
    logged by the script; undoing the last move then ends on an uncaught
    [UnboundLocalError], raised by the [except] clause of [undo_last_moves]
    on the line that does not have three fields, and nothing is undone or
    reported. *)
Theorem undo_after_bar_in_name_raises :
  log_file (main demo_config no_args bar_world).2
  = Some ("2024-01-01 10:00:00 | 1a2b3c4d | /d/a | b -> /d/Unsorted/a | b"
          +:+ Py.NL)
  /\ main demo_config {| undo := 1; undo_commit := None |}
       (main demo_config no_args bar_world).2
     = (Raise unbound_commit_id, (main demo_config no_args bar_world).2).
Proof. by vm_compute. Qed.


Example unsorted_folder_is_display_text :
  let r := main demo_config no_args demo_world in
  UNSORTED_FOLDER demo_config = "Misc"
  /\ RefHost.tree (host r.2) !! "/d/Unsorted/notes" = Some (RefHost.File "memo")
  /\ RefHost.tree (host r.2) !! "/d/Misc/notes" = None
  /\ In (EPrint "Moved: notes to Misc") (trace r.2).
Proof. vm_compute. repeat split; try done. tauto. Qed.

Lemma listing_runs_before_undo_witness :
  (os_listdir (DIRECTORY demo_config) (host missing_world)
   = (inl (RefHost.no_such "/d"), host missing_world)
   /\ main demo_config {| undo := 1; undo_commit := None |} missing_world
      = (Exit 1,
         mkWorld (host missing_world) (log_file missing_world)
           (trace missing_world
            ++ [EPrint ("The directory " +:+ DIRECTORY demo_config
                        +:+ " does not exist.")])))
  /\ (0 < undo {| undo := 0; undo_commit := Some "5e6f7a8b" |}
      \/ (exists id,
            undo_commit {| undo := 0; undo_commit := Some "5e6f7a8b" |} = Some id
            /\ id <> EmptyString))
  /\ main demo_config {| undo := 0; undo_commit := Some "5e6f7a8b" |} demo_sorted
     = undo_by_commit_id "5e6f7a8b" demo_sorted.
Proof.
  split; [split; [by vm_compute|]|split].
  - apply (proj1 (listing_runs_before_undo demo_config
                    {| undo := 1; undo_commit := None |} missing_world)
             (RefHost.no_such "/d") (host missing_world)).
    by vm_compute.
  - right. by exists "5e6f7a8b".
  - etransitivity.
    + eapply (proj2 (listing_runs_before_undo demo_config
                       {| undo := 0; undo_commit := Some "5e6f7a8b" |}
                       demo_sorted)).
      * right. by exists "5e6f7a8b".
      * vm_compute. reflexivity.
    + vm_compute. reflexivity.
Defined.

(** ** Runs of the categoriser *)

Section CategoriserRuns.

Context {H : Type} `{Host H}.

Implicit Types (w : World H) (cfg : Config).

Lemma quiet_step_refl w : quiet_step w w.
Proof. exists []. by rewrite app_nil_r. Qed.

Lemma quiet_step_trans w1 w2 w3 :
  quiet_step w1 w2 -> quiet_step w2 w3 -> quiet_step w1 w3.
Proof.
  intros (t1 & E1 & M1 & L1 & F1) (t2 & E2 & M2 & L2 & F2).
  exists (t1 ++ t2). rewrite E2, E1, app_assoc, !omap_app, M1, M2, L1, L2.
  repeat split; congruence.
Qed.

Lemma quiet_step_print text w :
  quiet_step w (mkWorld (host w) (log_file w) (trace w ++ [EPrint text])).
Proof. by exists [EPrint text]. Qed.

Lemma ensure_folder_quiet folder w : quiet_step w (ensure_folder folder w).2.
Proof.
  unfold ensure_folder, bind, query, makedirs, syscall, ret; simpl.
  destruct (os_path_exists folder (host w)); simpl; [apply quiet_step_refl|].
  destruct (os_makedirs folder (host w)) as [[e|[]] h]; simpl;
    by eexists [_].
Qed.

Lemma ensure_folder_no_exit folder w n :
  (ensure_folder folder w).1 <> Exit n.
Proof.
  unfold ensure_folder, bind, query, makedirs, syscall, ret; simpl.
  destruct (os_path_exists folder (host w)); simpl; [done|].
  by destruct (os_makedirs folder (host w)) as [[e|[]] h].
Qed.

Lemma for_each_no_exit {A} (body : A -> M H unit) (l : list A) :
  (forall x w n, (body x w).1 <> Exit n) ->
  forall w n, (for_each l body w).1 <> Exit n.
Proof.
  intros Hbody. induction l as [|x l IH]; intros w n; simpl; [done|].
  unfold bind. specialize (Hbody x w).
  destruct (body x w) as [[[]|e|k] w']; simpl in *;
    [apply IH | done | by destruct (Hbody k)].
Qed.

(** What [relocate] adds: the call, and the log entry when it returned. *)
Lemma relocate_paths src dst text w :
  exists t,
    trace (relocate src dst text w).2 = trace w ++ t
    /\ omap move_paths t = [(src, dst)]
    /\ match (relocate src dst text w).1 with
       | Ret _ => omap log_paths t = [(src, dst)]
       | Raise _ => omap log_paths t = []
       | Exit _ => False
       end.
Proof.
  unfold relocate.
  destruct (shutil_move src dst (host w)) as [[e|[]] h]; simpl.
  - by eexists [_].
  - destruct (uuid4 h) as [u h1], (now h1) as [ts h2]; simpl.
    by eexists [_; _; _].
Qed.

(** The loop over the files: it stops at the first move that raises. *)
Lemma categorize_loop_paths cfg files w :
  exists t,
    trace (for_each files
             (categorize_file cfg (Py.path_join (DIRECTORY cfg) "Unsorted")) w).2
    = trace w ++ t
    /\ match (for_each files
                (categorize_file cfg (Py.path_join (DIRECTORY cfg) "Unsorted"))
                w).1 with
       | Ret _ =>
           omap move_paths t = List.map (planned_move cfg) files
           /\ omap log_paths t = List.map (planned_move cfg) files
       | Raise _ =>
           exists done file rest,
             files = done ++ file :: rest
             /\ omap move_paths t = List.map (planned_move cfg) (done ++ [file])
             /\ omap log_paths t = List.map (planned_move cfg) done
       | Exit _ => False
       end.
Proof.
  revert w. induction files as [|file files IH]; intros w; simpl.
  - exists []. by rewrite app_nil_r.
  - unfold bind. rewrite categorize_file_run.
    destruct (relocate_paths (Py.path_join (DIRECTORY cfg) file)
                (Py.path_join (Py.path_join (DIRECTORY cfg) (route cfg file).1) file)
                ("Moved: " +:+ file +:+ " to " +:+ (route cfg file).2) w)
      as (t1 & E1 & M1 & L1).
    destruct (relocate _ _ _ w) as [[[]|e|n] w1]; simpl in *; [| |done].
    + destruct (IH w1) as (t2 & E2 & R2). exists (t1 ++ t2).
      rewrite E2, E1, app_assoc, !omap_app, M1, L1. split; [done|].
      destruct (for_each files _ w1) as [[[]|e|n] w2]; simpl in *; [| |done].
      * destruct R2 as [-> ->]. done.
      * destruct R2 as (done & f & rest & -> & -> & ->).
        exists (file :: done), f, rest. done.
    + exists t1. split; [done|]. exists [], file, files. by rewrite M1, L1.
Qed.

(** What a run of [categorize_files] moves and logs, by its outcome. *)
Lemma categorize_files_paths cfg files w :
  exists t,
    trace (categorize_files cfg files w).2 = trace w ++ t
    /\ ((categorize_files cfg files w).1 = Ret tt
        /\ omap move_paths t = List.map (planned_move cfg) files
        /\ omap log_paths t = List.map (planned_move cfg) files
        \/ (categorize_files cfg files w).1 = Exit 1
           /\ (omap move_paths t = [] /\ omap log_paths t = []
               \/ exists done file rest,
                    files = done ++ file :: rest
                    /\ omap move_paths t
                       = List.map (planned_move cfg) (done ++ [file])
                    /\ omap log_paths t = List.map (planned_move cfg) done)).
Proof.
  rewrite categorize_files_inner. cbv zeta. unfold bind.
  pose proof (for_each_keeps quiet_step
    (fun item : string * list string =>
       ensure_folder (Py.path_join (DIRECTORY cfg) item.1))
    (GROUP_EXTENSIONS cfg) quiet_step_refl quiet_step_trans
    (fun x w => ensure_folder_quiet _ w) w) as HA.
  destruct (for_each (GROUP_EXTENSIONS cfg) _ w) as [[[]|e|n] wa] eqn:Efor;
    simpl in *.
  - pose proof (ensure_folder_quiet (Py.path_join (DIRECTORY cfg) "Unsorted") wa)
      as HB.
    pose proof (quiet_step_trans _ _ _ HA HB) as (tq & Eq & Mq & Lq & _).
    destruct (ensure_folder _ wa) as [[[]|e|n] wb] eqn:Een; simpl in *.
    + destruct (categorize_loop_paths cfg files wb) as (t & E & R).
      destruct (for_each files _ wb) as [[[]|e|n] wc]; simpl in *; [| |done].
      * exists (tq ++ t). rewrite E, Eq, app_assoc, !omap_app, Mq, Lq.
        split; [done|]. left. by destruct R as [-> ->].
      * destruct (directory_errors_run (A:=unit) cfg e wc) as [text ->]; simpl.
        exists (tq ++ t ++ [EPrint text]).
        rewrite E, Eq, <- !app_assoc, !omap_app, Mq, Lq. simpl.
        rewrite !app_nil_r. split; [done|]. right. split; [done|]. by right.
    + destruct (directory_errors_run (A:=unit) cfg e wb) as [text ->]; simpl.
      exists (tq ++ [EPrint text]).
      rewrite Eq, <- !app_assoc, !omap_app, Mq, Lq. simpl.
      split; [done|]. right. split; [done|]. by left.
    + by destruct (ensure_folder_no_exit
                     (Py.path_join (DIRECTORY cfg) "Unsorted") wa n); rewrite Een.
  - destruct HA as (tq & Eq & Mq & Lq & _).
    destruct (directory_errors_run (A:=unit) cfg e wa) as [text ->]; simpl.
    exists (tq ++ [EPrint text]).
    rewrite Eq, <- !app_assoc, !omap_app, Mq, Lq. simpl.
    split; [done|]. right. split; [done|]. by left.
  - by destruct (for_each_no_exit
                   (fun item : string * list string =>
                      ensure_folder (Py.path_join (DIRECTORY cfg) item.1))
                   (GROUP_EXTENSIONS cfg)
                   (fun x w n => ensure_folder_no_exit _ w n) w n);
      rewrite Efor.
Qed.

(** X1: a run of [categorize_files] either returns or exits with status 1,
    never with an exception.  When it returns, it has called [shutil.move]
    once for every file, in the order of the list and on the paths of
    [planned_move], and it has logged each of these moves.  When it exits,
    either nothing was moved or logged (a folder could not be made), or the
    files before the failing one were moved and logged, the move of the
    failing one was tried and not logged, and the files after it were not
    touched. *)
Theorem categorize_files_moves_in_order cfg files w :
  exists t,
    trace (categorize_files cfg files w).2 = trace w ++ t
    /\ ((categorize_files cfg files w).1 = Ret tt
        /\ omap move_paths t = List.map (planned_move cfg) files
        /\ omap log_paths t = List.map (planned_move cfg) files
        \/ (categorize_files cfg files w).1 = Exit 1
           /\ (omap move_paths t = [] /\ omap log_paths t = []
               \/ exists done file rest,
                    files = done ++ file :: rest
                    /\ omap move_paths t
                       = List.map (planned_move cfg) (done ++ [file])
                    /\ omap log_paths t = List.map (planned_move cfg) done)).
Proof. apply categorize_files_paths. Qed.

Lemma ensure_folder_makedirs folder w :
  exists t,
    trace (ensure_folder folder w).2 = trace w ++ t
    /\ (t = [] \/ exists r, t = [EMakedirs folder r])
    /\ ((ensure_folder folder w).1 = Ret tt \/ t <> []).
Proof.
  unfold ensure_folder, bind, query, makedirs, syscall, ret; simpl.
  destruct (os_path_exists folder (host w)); simpl.
  - exists []. rewrite app_nil_r. split; [done|]. split; by left.
  - destruct (os_makedirs folder (host w)) as [[e|[]] h]; simpl;
      eexists [_]; (split; [done|]); (split; [right; by eexists|]);
      first [by left | by right].
Qed.

Lemma ensure_folders_makedirs (folders : list string) w :
  exists t,
    trace (for_each folders ensure_folder w).2 = trace w ++ t
    /\ sublist (omap makedirs_path t) folders
    /\ omap move_paths t = [] /\ length (omap makedirs_path t) = length t.
Proof.
  revert w. induction folders as [|folder folders IH]; intros w; simpl.
  - exists []. by rewrite app_nil_r.
  - unfold bind.
    destruct (ensure_folder_makedirs folder w) as (t1 & E1 & S1 & _).
    destruct (ensure_folder folder w) as [[[]|e|n] w1]; simpl in *.
    + destruct (IH w1) as (t2 & E2 & S2 & M2 & L2). exists (t1 ++ t2).
      rewrite E2, E1, app_assoc, !omap_app, !length_app, M2, L2.
      split; [done|].
      destruct S1 as [->|[r ->]]; simpl;
        [by split; [apply sublist_cons|] | by split; [apply sublist_skip|]].
    + exists t1. split; [done|].
      destruct S1 as [->|[r ->]]; simpl.
      * split; [apply sublist_nil_l | done].
      * split; [apply sublist_skip, sublist_nil_l | done].
    + exists t1. split; [done|].
      destruct S1 as [->|[r ->]]; simpl.
      * split; [apply sublist_nil_l | done].
      * split; [apply sublist_skip, sublist_nil_l | done].
Qed.

Lemma categorize_loop_no_makedirs cfg files w :
  exists t,
    trace (for_each files
             (categorize_file cfg (Py.path_join (DIRECTORY cfg) "Unsorted")) w).2
    = trace w ++ t
    /\ omap makedirs_path t = [].
Proof.
  revert w. induction files as [|file files IH]; intros w; simpl.
  - exists []. by rewrite app_nil_r.
  - unfold bind. rewrite categorize_file_run.
    assert (exists t1,
      trace (relocate (Py.path_join (DIRECTORY cfg) file)
               (Py.path_join (Py.path_join (DIRECTORY cfg) (route cfg file).1) file)
               ("Moved: " +:+ file +:+ " to " +:+ (route cfg file).2) w).2
      = trace w ++ t1 /\ omap makedirs_path t1 = []) as (t1 & E1 & M1).
    { unfold relocate.
      destruct (shutil_move _ _ (host w)) as [[e|[]] h]; simpl;
        [by eexists [_]|].
      destruct (uuid4 h) as [u h1], (now h1) as [ts h2]; simpl.
      by eexists [_; _; _]. }
    destruct (relocate _ _ _ w) as [[[]|e|n] w1]; simpl in *;
      [|by exists t1..].
    destruct (IH w1) as (t2 & E2 & M2). exists (t1 ++ t2).
    by rewrite E2, E1, app_assoc, omap_app, M1, M2.
Qed.

(** X2: [categorize_files] calls [os.makedirs] only on the folders of the
    categories and on the folder Unsorted under the directory, in that
    order and at most once each, and all of these calls come before the
    first call of [shutil.move]: the events a run adds are calls of
    [os.makedirs] followed by events that are not. *)
Theorem categorize_files_folders_first cfg files w :
  exists tm tf,
    trace (categorize_files cfg files w).2 = trace w ++ tm ++ tf
    /\ sublist (omap makedirs_path tm) (ensured_folders cfg)
    /\ length (omap makedirs_path tm) = length tm
    /\ omap makedirs_path tf = [].
Proof.
  rewrite categorize_files_inner. cbv zeta.
  assert (forall w0,
    bind (for_each (GROUP_EXTENSIONS cfg)
            (fun item : string * list string =>
               ensure_folder (Py.path_join (DIRECTORY cfg) item.1)))
         (fun _ => bind (ensure_folder (Py.path_join (DIRECTORY cfg) "Unsorted"))
                     (fun _ => for_each files
                        (categorize_file cfg
                           (Py.path_join (DIRECTORY cfg) "Unsorted")))) w0
    = bind (for_each (ensured_folders cfg) ensure_folder)
        (fun _ => for_each files
           (categorize_file cfg (Py.path_join (DIRECTORY cfg) "Unsorted"))) w0)
    as ->.
  { intros w0. unfold ensured_folders, bind.
    generalize (GROUP_EXTENSIONS cfg). intros items. revert w0.
    induction items as [|item items IH]; intros w0; simpl.
    - unfold bind. by destruct (ensure_folder _ w0) as [[[]|e|n] w1].
    - unfold bind. destruct (ensure_folder _ w0) as [[[]|e|n] w1]; [|done..].
      apply IH. }
  unfold bind.
  destruct (ensure_folders_makedirs (ensured_folders cfg) w)
    as (tm & Em & Sm & _ & Lm).
  destruct (for_each (ensured_folders cfg) ensure_folder w)
    as [[[]|e|n] wa]; simpl in *.
  - destruct (categorize_loop_no_makedirs cfg files wa) as (tf & Ef & Mf).
    destruct (for_each files _ wa) as [[[]|e|n] wb]; simpl in *.
    + exists tm, tf. by rewrite Ef, Em, app_assoc.
    + destruct (directory_errors_run (A:=unit) cfg e wb) as [text ->]; simpl.
      exists tm, (tf ++ [EPrint text]).
      rewrite Ef, Em, <- !app_assoc, omap_app, Mf. done.
    + exists tm, tf. by rewrite Ef, Em, app_assoc.
  - destruct (directory_errors_run (A:=unit) cfg e wa) as [text ->]; simpl.
    exists tm, [EPrint text]. by rewrite Em, <- app_assoc.
  - exists tm, []. by rewrite Em, app_nil_r.
Qed.

(** *** Calls that raise, and what is printed *)
















(** *** The lower-cased extension *)








(** *** Where a file goes *)




End CategoriserRuns.

(** ** The text of the log *)

Lemma endswith_char_cons (c d : ascii) (s : string) :
  Py.endswith_char c (String d s)
  = match s with
    | EmptyString => Ascii.eqb c d
    | _ => Py.endswith_char c s
    end.
Proof. by destruct s. Qed.

Lemma endswith_char_app (c : ascii) (a b : string) :
  b <> EmptyString -> Py.endswith_char c (a +:+ b) = Py.endswith_char c b.
Proof.
  intros Hb. induction a as [|x a IH]; [done|].
  rewrite string_app_cons, endswith_char_cons.
  destruct (a +:+ b) eqn:E; [|done].
  destruct a; [by rewrite string_app_nil_l in E | done].
Qed.

Lemma string_app_not_empty (a b : string) :
  b <> EmptyString -> a +:+ b <> EmptyString.
Proof. intros Hb. destruct a; [by rewrite string_app_nil_l | done]. Qed.

Lemma log_line_closed (ts c original new : string) :
  Py.endswith_char Py.LF (log_line ts c original new) = true.
Proof.
  unfold log_line.
  repeat (rewrite endswith_char_app;
          [|repeat apply string_app_not_empty; done]).
  reflexivity.
Qed.

Lemma log_closed_append (log : option string) (line : string) :
  Py.endswith_char Py.LF line = true ->
  log_closed (Some (default EmptyString log +:+ line)) = true.
Proof.
  intros Hline. simpl. rewrite endswith_char_app; [|by destruct line].
  rewrite Hline. apply orb_true_r.
Qed.

(** Translating the line ends keeps a final line feed. *)
Lemma universal_newlines_closed_fuel (n : nat) (s : string) :
  (String.length s <= n)%nat ->
  Py.endswith_char Py.LF s = true ->
  Py.endswith_char Py.LF (Py.universal_newlines s) = true.
Proof.
  revert s. induction n as [|n IH]; intros s Hlen Hs.
  - destruct s; [done | simpl in Hlen; lia].
  - destruct s as [|c s]; [done|]. simpl in Hlen.
    cbn [Py.universal_newlines]. destruct (Ascii.eqb c Py.CR) eqn:Hc.
    + destruct s as [|d s]; [done|]. simpl in Hlen.
      rewrite endswith_char_cons in Hs.
      destruct (Ascii.eqb d Py.LF) eqn:Hd.
      * rewrite endswith_char_cons.
        destruct s as [|e s]; [done|].
        rewrite endswith_char_cons in Hs.
        assert (Py.endswith_char Py.LF (Py.universal_newlines (String e s)) = true)
          as Hu by (apply IH; [cbn [String.length] in *; lia | done]).
        by destruct (Py.universal_newlines (String e s)).
      * assert (Py.endswith_char Py.LF (Py.universal_newlines (String d s)) = true)
          as Hu by (apply IH; [cbn [String.length] in *; lia | done]).
        rewrite endswith_char_cons.
        by destruct (Py.universal_newlines (String d s)).
    + rewrite endswith_char_cons in Hs. rewrite endswith_char_cons.
      destruct s as [|d s].
      * done.
      * assert (Py.endswith_char Py.LF (Py.universal_newlines (String d s)) = true)
          as Hu by (apply IH; [cbn [String.length] in *; lia | done]).
        by destruct (Py.universal_newlines (String d s)).
Qed.

Lemma universal_newlines_closed (s : string) :
  Py.endswith_char Py.LF s = true ->
  Py.endswith_char Py.LF (Py.universal_newlines s) = true.
Proof. by apply (universal_newlines_closed_fuel (String.length s)). Qed.

Lemma keepends_closed (t : string) :
  t = EmptyString \/ Py.endswith_char Py.LF t = true ->
  Forall (fun x => Py.endswith_char Py.LF x = true) (Py.keepends t).
Proof.
  induction t as [|c t IH]; intros Ht; [constructor|].
  destruct Ht as [?|Ht]; [done|]. rewrite endswith_char_cons in Ht.
  cbn [Py.keepends]. destruct (Ascii.eqb c Py.LF) eqn:Hc.
  - constructor; [done|]. apply IH. destruct t; [by left | by right].
  - destruct t as [|d t]; [rewrite Ascii.eqb_sym in Ht; congruence|].
    assert (Forall (fun x => Py.endswith_char Py.LF x = true)
              (Py.keepends (String d t))) as Hall by (apply IH; by right).
    destruct (Py.keepends (String d t)) as [|l ls] eqn:E.
    + exfalso. revert E. cbn [Py.keepends].
      destruct (Ascii.eqb d Py.LF); [done|]. by destruct (Py.keepends t).
    + inversion Hall as [|? ? Hl Hls]; subst. constructor; [|done].
      rewrite endswith_char_cons. by destruct l.
Qed.

Lemma readlines_closed (s : string) :
  log_closed (Some s) = true ->
  Forall (fun x => Py.endswith_char Py.LF x = true) (Py.readlines s).
Proof.
  unfold log_closed. intros [Hs|Hs]%orb_true_iff; apply keepends_closed.
  - apply String.eqb_eq in Hs. subst s. by left.
  - right. by apply universal_newlines_closed.
Qed.

Lemma writelines_closed (l : list string) :
  Forall (fun x => Py.endswith_char Py.LF x = true) l ->
  log_closed (Some (Py.writelines l)) = true.
Proof.
  induction 1 as [|x l Hx _ IH]; [done|].
  change (Py.writelines (x :: l)) with (x +:+ Py.writelines l). simpl in *.
  destruct (String.eqb_spec (Py.writelines l) EmptyString) as [->|Hne].
  - rewrite string_app_nil_r, Hx. apply orb_true_r.
  - simpl in IH. rewrite (endswith_char_app _ _ _ Hne), IH. apply orb_true_r.
Qed.

Section LogText.

Context {H : Type} `{Host H}.

Implicit Types (w : World H) (cfg : Config) (st : locals).

Lemma undo_move_log line st w :
  log_file (undo_move line st w).2 = log_file w.
Proof.
  destruct (parse_record line) as [[[c original] new]|] eqn:Hparse.
  - rewrite (undo_move_parsed _ _ _ _ _ _ Hparse).
    destruct (os_path_exists new (host w)); [|done].
    by destruct (shutil_move new original (host w)) as [[e|[]] h].
  - destruct (three_fields line) eqn:Hthree.
    + by destruct (undo_move_unreadable line st w Hparse (or_introl Hthree))
        as (c & text & ->).
    + destruct (commit_id st) as [c0|] eqn:Hst.
      * destruct (undo_move_unreadable line st w Hparse) as (c & text & ->);
          [right; congruence | done].
      * by rewrite undo_move_unbound.
Qed.

Lemma undo_moves_log moves st w :
  log_file (undo_moves moves st w).2 = log_file w.
Proof.
  revert st w. induction moves as [|line rest IH]; intros st w; simpl; [done|].
  unfold bind. pose proof (undo_move_log line st w) as Hl.
  destruct (undo_move line st w) as [[st'|e|n] w']; simpl in *; [|done..].
  by rewrite IH.
Qed.

(** What [undo_last_moves] leaves in the log file, for every [n]: what was
    there, or the text of the lines up to some index. *)
Lemma undo_last_moves_log n w :
  log_file (undo_last_moves n w).2 = log_file w
  \/ exists s k,
       log_file w = Some s
       /\ log_file (undo_last_moves n w).2
          = Some (Py.writelines (take k (Py.readlines s))).
Proof.
  destruct (log_file w) as [s|] eqn:Hlog.
  - destruct (Py.readlines s) as [|l ls] eqn:Hlines.
    + left. by rewrite (undo_last_moves_empty_log _ _ _ Hlog Hlines).
    + rewrite (undo_last_moves_run n w s Hlog) by (by rewrite Hlines).
      rewrite Hlines.
      pose proof (undo_moves_log (rev (Py.slice_from (- n) (l :: ls)))
                    (mkLocals None [] []) w) as Hl.
      destruct (undo_moves _ _ w) as [[st|e|k] w']; simpl in *.
      * right. exists s, (Py.slice_index (- n) (l :: ls)).
        by rewrite Hlines.
      * left. congruence.
      * left. congruence.
  - left. by rewrite (undo_last_moves_no_log _ _ Hlog).
Qed.

Lemma undo_by_commit_id_log c w :
  log_file (undo_by_commit_id c w).2 = log_file w
  \/ exists s k,
       log_file w = Some s
       /\ log_file (undo_by_commit_id c w).2
          = Some (Py.writelines (delete k (Py.readlines s))).
Proof.
  destruct (log_file w) as [s|] eqn:Hlog.
  - rewrite (undo_by_commit_id_run _ _ _ Hlog).
    destruct (scan_log_end c (Py.readlines s)
                (Py.enumerate (rev (Py.readlines s))) w)
      as (r & w' & -> & L & R).
    destruct r as [lines'| |]; simpl.
    + right. destruct R as (i & line & c0 & original & new & _ & _ & _ & _ & -> & _).
      by eexists s, _.
    + left. congruence.
    + left. congruence.
  - left. by rewrite (undo_by_commit_id_no_log _ _ Hlog).
Qed.

Lemma categorize_files_log_closed cfg files w :
  log_closed (log_file w) = true ->
  log_closed (log_file (categorize_files cfg files w).2) = true.
Proof.
  revert files w.
  apply (categorize_files_keeps
           (fun w w' => log_closed (log_file w) = true ->
                        log_closed (log_file w') = true)).
  - done.
  - intros w1 w2 w3 H12 H23 H1. by apply H23, H12.
  - intros folder w.
    destruct (ensure_folder_run folder w) as (t & _ & -> & _). done.
  - intros file w Hw. rewrite categorize_file_run. unfold relocate.
    destruct (shutil_move _ _ (host w)) as [[e|[]] h]; simpl; [done|].
    destruct (uuid4 h) as [u h1], (now h1) as [ts h2].
    apply log_closed_append, log_line_closed.
  - done.
Qed.

(** X3: a log file that is absent, empty or ends with a line feed is so
    after a run of the script, whatever the arguments and however the run
    ends: [log_move] appends whole lines and the undo operations write back
    lines that were read. *)
Theorem main_keeps_log_closed cfg args w :
  log_closed (log_file w) = true ->
  log_closed (log_file (main cfg args w).2) = true.
Proof.
  intros Hw. unfold main, bind at 1.
  destruct (os_listdir (DIRECTORY cfg) (host w)) as [[e|entries] h] eqn:Hls.
  - rewrite (list_files_and_folders_raises _ _ _ _ Hls).
    by destruct (directory_errors_run (A:=list string * list string) cfg e
                   (mkWorld h (log_file w) (trace w))) as [text ->].
  - rewrite (list_files_and_folders_returns _ _ _ _ Hls).
    set (w1 := mkWorld h (log_file w) (trace w)).
    assert (log_closed (log_file w1) = true) as Hw1 by done.
    assert (log_closed (log_file (undo_by_commit_id
                                    (default EmptyString (undo_commit args)) w1).2)
            = true) as Hid.
    { destruct (undo_by_commit_id_log (default EmptyString (undo_commit args)) w1)
        as [->|(s & k & Hs & ->)]; [done|].
      apply writelines_closed, Forall_delete, readlines_closed.
      by rewrite <- Hs. }
    destruct (0 <? undo args).
    + destruct (undo_last_moves_log (undo args) w1) as [->|(s & k & Hs & ->)];
        [done|].
      apply writelines_closed, Forall_take, readlines_closed.
      by rewrite <- Hs.
    + destruct (undo_commit args) as [id|];
        [|by apply categorize_files_log_closed].
      destruct (negb (String.eqb id EmptyString));
        [exact Hid | by apply categorize_files_log_closed].
Qed.

End LogText.

(** ** Reading back what was written *)

Lemma one_line_cons (c : ascii) (x : string) :
  one_line (String c x)
  = match x with
    | EmptyString => negb (Ascii.eqb c Py.CR)
    | _ => negb (Ascii.eqb c Py.CR) && negb (Ascii.eqb c Py.LF) && one_line x
    end.
Proof. by destruct x. Qed.

Lemma universal_newlines_no_cr_fuel (n : nat) (s : string) :
  (String.length s <= n)%nat ->
  Py.has_char Py.CR (Py.universal_newlines s) = false.
Proof.
  revert s. induction n as [|n IH]; intros s Hlen.
  - destruct s; [done | simpl in Hlen; lia].
  - destruct s as [|c s]; [done|]. cbn [String.length] in Hlen.
    cbn [Py.universal_newlines]. destruct (Ascii.eqb c Py.CR) eqn:Hc.
    + rewrite has_char_cons. simpl.
      destruct s as [|d s]; [done|]. cbn [String.length] in Hlen.
      destruct (Ascii.eqb d Py.LF); apply IH; cbn [String.length]; lia.
    + rewrite has_char_cons, Ascii.eqb_sym, Hc. simpl. apply IH. lia.
Qed.

Lemma universal_newlines_no_cr (s : string) :
  Py.has_char Py.CR (Py.universal_newlines s) = false.
Proof. by apply (universal_newlines_no_cr_fuel (String.length s)). Qed.

Lemma universal_newlines_id (t : string) :
  Py.has_char Py.CR t = false -> Py.universal_newlines t = t.
Proof.
  induction t as [|c t IH]; [done|]. rewrite has_char_cons.
  intros [Hc Ht]%orb_false_iff. cbn [Py.universal_newlines].
  rewrite Ascii.eqb_sym, Hc. by rewrite IH.
Qed.

Lemma one_line_not_empty (x : string) : one_line x = true -> x <> EmptyString.
Proof. by destruct x. Qed.

Lemma keepends_lines_ok (t : string) :
  Py.has_char Py.CR t = false -> lines_ok (Py.keepends t) = true.
Proof.
  induction t as [|c t IH]; [done|]. rewrite has_char_cons.
  intros [Hc Ht]%orb_false_iff. rewrite Ascii.eqb_sym in Hc.
  specialize (IH Ht). cbn [Py.keepends].
  destruct (Ascii.eqb c Py.LF) eqn:Hlf.
  - cbn [lines_ok]. rewrite IH, one_line_cons, Hc, endswith_char_cons.
    rewrite Ascii.eqb_sym, Hlf. by destruct (Py.keepends t).
  - destruct (Py.keepends t) as [|l ls] eqn:E.
    + simpl. by rewrite Hc.
    + cbn [lines_ok] in *. apply andb_true_iff in IH as [[Hl Hend]%andb_true_iff Hls].
      rewrite Hls, one_line_cons, Hc, Hlf, Hl, endswith_char_cons.
      pose proof (one_line_not_empty l Hl). destruct l; [done|].
      by rewrite Hend.
Qed.

Lemma one_line_no_cr (x : string) :
  one_line x = true -> Py.has_char Py.CR x = false.
Proof.
  induction x as [|c x IH]; [done|]. rewrite one_line_cons, has_char_cons.
  destruct x as [|d x].
  - intros Hc%negb_true_iff. by rewrite Ascii.eqb_sym, Hc.
  - intros [[Hc%negb_true_iff _]%andb_true_iff Hx]%andb_true_iff.
    rewrite Ascii.eqb_sym, Hc. by apply IH.
Qed.

Lemma lines_ok_no_cr (l : list string) :
  lines_ok l = true -> Py.has_char Py.CR (Py.writelines l) = false.
Proof.
  induction l as [|x l IH]; [done|]. cbn [lines_ok].
  intros [[Hx _]%andb_true_iff Hl]%andb_true_iff.
  change (Py.writelines (x :: l)) with (x +:+ Py.writelines l).
  by rewrite has_char_app, (one_line_no_cr _ Hx), IH.
Qed.

Lemma keepends_one_line (x : string) :
  one_line x = true -> Py.keepends x = [x].
Proof.
  induction x as [|c x IH]; [done|]. rewrite one_line_cons.
  destruct x as [|d x].
  - intros _. cbn [Py.keepends]. by destruct (Ascii.eqb c Py.LF).
  - intros [[_ Hlf%negb_true_iff]%andb_true_iff Hx]%andb_true_iff.
    cbn [Py.keepends] in *. rewrite Hlf. by rewrite (IH Hx).
Qed.

Lemma keepends_closed_line (x t : string) :
  one_line x = true -> Py.endswith_char Py.LF x = true ->
  Py.keepends (x +:+ t) = x :: Py.keepends t.
Proof.
  induction x as [|c x IH]; [done|].
  rewrite one_line_cons, endswith_char_cons, string_app_cons.
  destruct x as [|d x].
  - intros _ Hc. rewrite Ascii.eqb_sym in Hc. cbn [Py.keepends].
    by rewrite Hc, string_app_nil_l.
  - intros [[_ Hlf%negb_true_iff]%andb_true_iff Hx]%andb_true_iff Hend.
    cbn [Py.keepends]. rewrite Hlf.
    change (Py.keepends (String d x +:+ t))
      with (Py.keepends (String d (x +:+ t))) in IH.
    rewrite string_app_cons. by rewrite (IH Hx Hend).
Qed.

Lemma keepends_writelines (l : list string) :
  lines_ok l = true -> Py.keepends (Py.writelines l) = l.
Proof.
  induction l as [|x l IH]; [done|]. cbn [lines_ok].
  intros [[Hx Hend]%andb_true_iff Hl]%andb_true_iff.
  change (Py.writelines (x :: l)) with (x +:+ Py.writelines l).
  destruct l as [|y l].
  - change (Py.writelines []) with EmptyString.
    rewrite string_app_nil_r. by apply keepends_one_line.
  - rewrite (keepends_closed_line _ _ Hx Hend). by rewrite IH.
Qed.

Lemma lines_ok_sublist (l1 l2 : list string) :
  sublist l1 l2 -> lines_ok l2 = true -> lines_ok l1 = true.
Proof.
  induction 1 as [|x l1 l2 Hsub IH|x l1 l2 Hsub IH]; [done| |].
  - cbn [lines_ok].
    intros [[Hx Hend]%andb_true_iff Hl]%andb_true_iff.
    rewrite Hx, (IH Hl). destruct l1 as [|y l1]; [done|].
    destruct l2 as [|z l2]; [by apply sublist_nil_r in Hsub|].
    by rewrite Hend.
  - cbn [lines_ok]. intros [_ Hl]%andb_true_iff. by apply IH.
Qed.

Lemma readlines_lines_ok (s : string) : lines_ok (Py.readlines s) = true.
Proof. apply keepends_lines_ok, universal_newlines_no_cr. Qed.

(** Lines that were read, some of them left out, read back as they are
    after being written. *)
Lemma readlines_writelines (s : string) (l : list string) :
  sublist l (Py.readlines s) -> Py.readlines (Py.writelines l) = l.
Proof.
  intros Hsub.
  pose proof (lines_ok_sublist _ _ Hsub (readlines_lines_ok s)) as Hok.
  unfold Py.readlines at 1.
  rewrite (universal_newlines_id _ (lines_ok_no_cr _ Hok)).
  by apply keepends_writelines.
Qed.

(** ** Batches of undos, one after the other *)

Section UndoCompose.

Context {H : Type} `{Host H}.

Implicit Types (w : World H) (st : locals).

Lemma undo_moves_app l1 l2 st w :
  undo_moves (l1 ++ l2) st w
  = match undo_moves l1 st w with
    | (Ret st', w') => undo_moves l2 st' w'
    | (Raise e, w') => (Raise e, w')
    | (Exit n, w') => (Exit n, w')
    end.
Proof.
  revert st w. induction l1 as [|line l1 IH]; intros st w; simpl; [done|].
  unfold bind. destruct (undo_move line st w) as [[st'|e|n] w']; [apply IH|done..].
Qed.

(** An iteration that returns leaves [commit_id] bound; on a line that does
    not read it changes nothing in the world. *)
Lemma undo_move_returns line st w st' w' :
  undo_move line st w = (Ret st', w') ->
  commit_id st' <> None /\ (parse_record line = None -> w' = w).
Proof.
  destruct (parse_record line) as [[[c original] new]|] eqn:Hparse.
  - rewrite (undo_move_parsed _ _ _ _ _ _ Hparse).
    destruct (os_path_exists new (host w)).
    + destruct (shutil_move new original (host w)) as [[e|[]] h];
        intros [= <- <-]; done.
    + intros [= <- <-]; done.
  - destruct (three_fields line) eqn:Hthree.
    + destruct (undo_move_unreadable line st w Hparse (or_introl Hthree))
        as (c & text & ->). intros [= <- <-]. done.
    + destruct (commit_id st) as [c0|] eqn:Hst.
      * destruct (undo_move_unreadable line st w Hparse) as (c & text & ->);
          [right; congruence|]. intros [= <- <-]. done.
      * by rewrite undo_move_unbound.
Qed.

Lemma undo_moves_binds moves st w st' w' :
  undo_moves moves st w = (Ret st', w') ->
  moves <> [] \/ commit_id st <> None -> commit_id st' <> None.
Proof.
  revert st w. induction moves as [|line rest IH]; intros st w; simpl.
  - intros [= <- <-] [?|?]; done.
  - unfold bind. destruct (undo_move line st w) as [[st1|e|n] w1] eqn:E;
      [|done..].
    intros Hrest _. apply (IH _ _ Hrest). right.
    by apply (undo_move_returns _ _ _ _ _ E).
Qed.

(** What a batch that returns does to the host depends on the host alone. *)
Lemma undo_moves_host moves st1 st2 w1 w2 st1' st2' w1' w2' :
  host w1 = host w2 ->
  undo_moves moves st1 w1 = (Ret st1', w1') ->
  undo_moves moves st2 w2 = (Ret st2', w2') ->
  host w1' = host w2'.
Proof.
  revert st1 st2 w1 w2.
  induction moves as [|line rest IH]; intros st1 st2 w1 w2 Hh; simpl.
  - by intros [= <- <-] [= <- <-].
  - unfold bind.
    destruct (undo_move line st1 w1) as [[s1|e|n] v1] eqn:E1; [|done..].
    destruct (undo_move line st2 w2) as [[s2|e|n] v2] eqn:E2; [|done..].
    apply IH.
    destruct (parse_record line) as [[[c original] new]|] eqn:Hparse.
    + rewrite (undo_move_parsed _ _ _ _ _ _ Hparse) in E1.
      rewrite (undo_move_parsed _ _ _ _ _ _ Hparse), <- Hh in E2.
      destruct (os_path_exists new (host w1)).
      * destruct (shutil_move new original (host w1)) as [[e|[]] h];
          injection E1 as <- <-; injection E2 as <- <-; done.
      * injection E1 as <- <-; injection E2 as <- <-; done.
    + rewrite (proj2 (undo_move_returns _ _ _ _ _ E1) Hparse).
      by rewrite (proj2 (undo_move_returns _ _ _ _ _ E2) Hparse).
Qed.

Lemma undo_last_moves_returns n w s st' w' :
  log_file w = Some s -> Py.readlines s <> [] ->
  undo_moves (rev (Py.slice_from (- n) (Py.readlines s)))
    (mkLocals None [] []) w = (Ret st', w') ->
  undo_last_moves n w
  = (Ret tt,
     mkWorld (host w')
       (Some (Py.writelines (Py.slice_to (- n) (Py.readlines s))))
       (trace w' ++ report_events (successful_undos st') (failed_undos st'))).
Proof.
  intros Hlog Hne E. by rewrite (undo_last_moves_run _ _ _ Hlog Hne), E.
Qed.

Lemma undo_last_moves_returned n w s :
  log_file w = Some s -> Py.readlines s <> [] ->
  (undo_last_moves n w).1 = Ret tt ->
  exists st' w',
    undo_moves (rev (Py.slice_from (- n) (Py.readlines s)))
      (mkLocals None [] []) w = (Ret st', w').
Proof.
  intros Hlog Hne. rewrite (undo_last_moves_run _ _ _ Hlog Hne).
  destruct (undo_moves _ _ w) as [[st'|e|k] w']; [by eexists _, _ | done..].
Qed.

(** X5: undoing the last [a] moves and then the last [b] moves, both calls
    returning, leaves the host and the log file as one call for the last
    [a + b] moves does, and that call returns as well. *)
Theorem undo_last_moves_twice a b w :
  1 <= a -> 1 <= b ->
  (undo_last_moves a w).1 = Ret tt ->
  (undo_last_moves b (undo_last_moves a w).2).1 = Ret tt ->
  (undo_last_moves (a + b) w).1 = Ret tt
  /\ host (undo_last_moves (a + b) w).2
     = host (undo_last_moves b (undo_last_moves a w).2).2
  /\ log_file (undo_last_moves (a + b) w).2
     = log_file (undo_last_moves b (undo_last_moves a w).2).2.
Proof.
  intros Ha Hb R1 R2.
  destruct (log_file w) as [s|] eqn:Hlog.
  2:{ rewrite !(undo_last_moves_no_log _ w Hlog).
      by rewrite (undo_last_moves_no_log b). }
  destruct (decide (Py.readlines s = [])) as [Hlines|Hne].
  { rewrite !(undo_last_moves_empty_log _ w s Hlog Hlines).
    by rewrite (undo_last_moves_empty_log b _ s). }
  set (lines := Py.readlines s) in *.
  set (len := length lines).
  assert (0 < len)%nat as Hlen by (subst len; destruct lines; [done | simpl; lia]).
  destruct (undo_last_moves_returned a w s Hlog Hne R1) as (st1 & w1 & E1).
  fold lines in E1.
  rewrite (undo_last_moves_returns a w s st1 w1 Hlog Hne E1) in R2 |- *.
  fold lines in R2 |- *.
  rewrite (slice_from_last a _ Ha) in E1.
  rewrite (slice_to_last a _ Ha) in R2 |- *. fold len in E1, R2 |- *.
  set (W1 := mkWorld (host w1)
               (Some (Py.writelines (take (len - Z.to_nat a) lines)))
               (trace w1 ++ report_events (successful_undos st1) (failed_undos st1)))
    in *.
  assert (Py.readlines (Py.writelines (take (len - Z.to_nat a) lines))
          = take (len - Z.to_nat a) lines) as Hback
    by (apply (readlines_writelines s), sublist_take).
  assert (Z.to_nat (a + b) = Z.to_nat a + Z.to_nat b)%nat as Hab by lia.
  destruct (decide (len - Z.to_nat a = 0)%nat) as [Hz|Hnz].
  - (* the first call consumed the whole log *)
    assert (take (len - Z.to_nat a) lines = []) as Hkept by (by rewrite Hz).
    rewrite Hz, drop_0 in E1.
    assert (undo_moves (rev (Py.slice_from (- (a + b)) lines))
              (mkLocals None [] []) w = (Ret st1, w1)) as E.
    { rewrite slice_from_last by lia. fold len.
      replace (len - Z.to_nat (a + b))%nat with 0%nat by lia.
      by rewrite drop_0. }
    rewrite (undo_last_moves_returns (a + b) w s st1 w1 Hlog Hne E).
    fold lines. rewrite slice_to_last by lia. fold len.
    replace (len - Z.to_nat (a + b))%nat with 0%nat by lia. rewrite take_0.
    cbn [fst snd] in *.
    rewrite (undo_last_moves_empty_log b W1 _ eq_refl)
      by (by rewrite Hback, Hkept).
    subst W1. simpl. by rewrite Hkept.
  - (* the second call works on the lines the first one kept *)
    set (kept := take (len - Z.to_nat a) lines) in *.
    assert (length kept = len - Z.to_nat a)%nat as Hk
      by (subst kept; rewrite length_take; fold len; lia).
    assert (Py.readlines (Py.writelines kept) <> []) as Hne2.
    { rewrite Hback. intros Hnil. rewrite Hnil in Hk. simpl in Hk. lia. }
    cbn [fst snd] in *.
    destruct (undo_last_moves_returned b W1 (Py.writelines kept) eq_refl Hne2 R2)
      as (st2 & w2 & E2).
    rewrite (undo_last_moves_returns b W1 _ st2 w2 eq_refl Hne2 E2).
    rewrite Hback in E2 |- *.
    rewrite (slice_from_last b _ Hb) in E2. rewrite (slice_to_last b _ Hb).
    rewrite Hk in E2 |- *.
    assert (rev (Py.slice_from (- (a + b)) lines)
            = rev (drop (len - Z.to_nat a) lines)
              ++ rev (drop (len - Z.to_nat a - Z.to_nat b) kept)) as Hsplit.
    { rewrite slice_from_last by lia. fold len. rewrite <- rev_app_distr. f_equal.
      rewrite <- (take_drop (len - Z.to_nat a) lines) at 1. fold kept.
      rewrite drop_app_le by lia. do 2 f_equal. lia. }
    destruct (undo_moves (rev (drop (len - Z.to_nat a - Z.to_nat b) kept)) st1 w1)
      as [[st3|e|n] w3] eqn:E3.
    + assert (undo_moves (rev (Py.slice_from (- (a + b)) lines))
                (mkLocals None [] []) w = (Ret st3, w3)) as E
        by (by rewrite Hsplit, undo_moves_app, E1).
      rewrite (undo_last_moves_returns (a + b) w s st3 w3 Hlog Hne E).
      fold lines. rewrite slice_to_last by lia. fold len. simpl.
      split; [done|]. split.
      * by apply (undo_moves_host _ st1 (mkLocals None [] []) w1 W1 _ _ _ _
                    eq_refl E3 E2).
      * do 2 f_equal. subst kept. rewrite take_take. f_equal. lia.
    + exfalso.
      destruct (undo_moves_batch
                  (rev (drop (len - Z.to_nat a - Z.to_nat b) kept)) st1 w1)
        as (st' & w' & rs & E & _); [|congruence].
      intros Hnone. exfalso.
      apply (undo_moves_binds _ _ _ _ _ E1); [|done]. left.
      intros Hnil%(f_equal (@length string)).
      rewrite length_rev, length_drop in Hnil. fold len in Hnil. simpl in Hnil.
      lia.
    + exfalso.
      destruct (undo_moves_batch
                  (rev (drop (len - Z.to_nat a - Z.to_nat b) kept)) st1 w1)
        as (st' & w' & rs & E & _); [|congruence].
      intros Hnone. exfalso.
      apply (undo_moves_binds _ _ _ _ _ E1); [|done]. left.
      intros Hnil%(f_equal (@length string)).
      rewrite length_rev, length_drop in Hnil. fold len in Hnil. simpl in Hnil.
      lia.
Qed.

End UndoCompose.

(** ** Further properties of the undo operations *)

Lemma slice_from_nonneg {A} (i : Z) (l : list A) :
  0 <= i -> Py.slice_from i l = drop (Z.to_nat i) l.
Proof.
  intros Hi. unfold Py.slice_from, Py.slice_index.
  destruct (Z.ltb_spec i 0) as [?|_]; [lia|].
  destruct (Z.le_gt_cases i (Z.of_nat (length l))) as [Hle|Hgt].
  - by rewrite Z.min_l.
  - rewrite Z.min_r, Nat2Z.id by lia. by rewrite !drop_ge by lia.
Qed.

Lemma slice_to_nonneg {A} (i : Z) (l : list A) :
  0 <= i -> Py.slice_to i l = take (Z.to_nat i) l.
Proof.
  intros Hi. unfold Py.slice_to, Py.slice_index.
  destruct (Z.ltb_spec i 0) as [?|_]; [lia|].
  destruct (Z.le_gt_cases i (Z.of_nat (length l))) as [Hle|Hgt].
  - by rewrite Z.min_l.
  - rewrite Z.min_r, Nat2Z.id by lia. by rewrite !take_ge by lia.
Qed.

Section UndoEdges.

Context {H : Type} `{Host H}.

Implicit Types (w : World H) (st : locals).

(** X4: after a batch undo that returns, the log file reads as the lines
    that were there before the last [n]: what [writelines] wrote is read
    back line for line. *)
Theorem undo_last_moves_log_reads_back n w s last_line :
  1 <= n ->
  log_file w = Some s ->
  last (Py.readlines s) = Some last_line ->
  three_fields last_line = true ->
  Py.readlines (default EmptyString (log_file (undo_last_moves n w).2))
  = take (length (Py.readlines s) - Z.to_nat n) (Py.readlines s).
Proof.
  intros Hn Hlog Hlast Hthree.
  destruct (undo_last_moves_refines n w s last_line Hn Hlog Hlast Hthree)
    as (rs & h' & failed & _ & _ & ->).
  simpl. apply (readlines_writelines s), sublist_take.
Qed.

(** X6: [undo_by_commit_id] matches the identifier as a piece of text
    anywhere in a line and takes the last line of the log that contains it,
    whatever the fields of that line are.  When that line reads, its new
    path exists and [shutil.move] returns, the new path is moved back and
    the log is rewritten without that line; read again, the log gives the
    other lines as they were. *)
Theorem undo_by_commit_id_last_match c w s pre line post c0 original new h' :
  log_file w = Some s ->
  Py.readlines s = pre ++ line :: post ->
  Py.contains c line = true ->
  Forall (fun l => Py.contains c l = false) post ->
  parse_record line = Some (c0, original, new) ->
  os_path_exists new (host w) = true ->
  shutil_move new original (host w) = (inr tt, h') ->
  undo_by_commit_id c w
  = (Ret tt,
     mkWorld h' (Some (Py.writelines (pre ++ post)))
       (trace w ++ [EMove new original None;
                    EPrint ("Restored: " +:+ new +:+ " -> " +:+ original)]))
  /\ Py.readlines (Py.writelines (pre ++ post)) = pre ++ post.
Proof.
  intros Hlog Hlines Hc Hpost Hparse Hex Hmv. split.
  - rewrite (undo_by_commit_id_run _ _ _ Hlog), Hlines.
    destruct (scan_log_reaches c (pre ++ line :: post) pre line post w Hpost)
      as [rest ->].
    rewrite (scan_log_parsed _ _ _ _ _ _ _ _ _ Hc Hparse), Hex, Hmv.
    do 3 f_equal. f_equal.
    replace (length (pre ++ line :: post) - 1 - length post)%nat
      with (length pre) by (rewrite length_app; simpl; lia).
    apply delete_middle.
  - apply (readlines_writelines s). rewrite Hlines.
    apply sublist_app; [done | by apply sublist_cons].
Qed.

(** X7: the scan of [undo_by_commit_id] ends at the last line that contains
    the identifier.  When that line does not read, or when [shutil.move]
    raises on it, the error is printed and the function returns with the
    log file as it was, without looking at the earlier lines. *)
Theorem undo_by_commit_id_stops_at_last_match c w s pre line post :
  log_file w = Some s ->
  Py.readlines s = pre ++ line :: post ->
  Py.contains c line = true ->
  Forall (fun l => Py.contains c l = false) post ->
  (parse_record line = None ->
   undo_by_commit_id c w
   = (Ret tt,
      mkWorld (host w) (log_file w)
        (trace w ++ [EPrint ("Error undoing commit " +:+ c +:+ ": "
                             +:+ message (read_error line))])))
  /\ (forall c0 original new e h',
        parse_record line = Some (c0, original, new) ->
        os_path_exists new (host w) = true ->
        shutil_move new original (host w) = (inl e, h') ->
        undo_by_commit_id c w
        = (Ret tt,
           mkWorld h' (log_file w)
             (trace w ++ [EMove new original (Some e);
                          EPrint ("Error undoing commit " +:+ c +:+ ": "
                                  +:+ message e)]))).
Proof.
  intros Hlog Hlines Hc Hpost. split.
  - intros Hparse. rewrite (undo_by_commit_id_run _ _ _ Hlog), Hlines.
    destruct (scan_log_reaches c (pre ++ line :: post) pre line post w Hpost)
      as [rest ->].
    by rewrite (scan_log_unreadable _ _ _ _ _ _ Hc Hparse).
  - intros c0 original new e h' Hparse Hex Hmv.
    rewrite (undo_by_commit_id_run _ _ _ Hlog), Hlines.
    destruct (scan_log_reaches c (pre ++ line :: post) pre line post w Hpost)
      as [rest ->].
    by rewrite (scan_log_parsed _ _ _ _ _ _ _ _ _ Hc Hparse), Hex, Hmv.
Qed.

(** X8: called with [n <= 0], [undo_last_moves] does not leave the log
    alone: the slices [lines[-n:]] and [lines[:-n]] then count from the
    start, so it processes every line but the first [-n], most recent
    first, and keeps those first [-n] lines.  With [n = 0] it undoes the
    whole log and leaves it empty. *)
Theorem undo_last_moves_nonpositive n w s last_line :
  n <= 0 ->
  log_file w = Some s ->
  last (Py.readlines s) = Some last_line ->
  three_fields last_line = true ->
  exists rs h' failed,
    batch (host w) (rev (drop (Z.to_nat (- n)) (Py.readlines s))) rs h'
    /\ length failed = length (List.filter is_failure rs)
    /\ undo_last_moves n w
       = (Ret tt,
          mkWorld h'
            (Some (Py.writelines (take (Z.to_nat (- n)) (Py.readlines s))))
            (trace w ++ flat_map restore_call rs
             ++ report_events (flat_map success_line rs) failed)).
Proof.
  intros Hn Hlog Hlast Hthree.
  assert (Py.readlines s <> []) as Hne by (by intros E; rewrite E in Hlast).
  rewrite (undo_last_moves_run _ _ _ Hlog Hne).
  rewrite slice_from_nonneg, slice_to_nonneg by lia.
  destruct (undo_moves_batch (rev (drop (Z.to_nat (- n)) (Py.readlines s)))
              (mkLocals None [] []) w)
    as (st' & w' & rs & -> & B & L & T & S & F).
  { intros _.
    destruct (decide (Z.to_nat (- n) < length (Py.readlines s))%nat) as [Hlt|Hge].
    - destruct (rev_drop_last _ _ _ Hlast Hlt) as [rest ->]. done.
    - by rewrite drop_ge by lia. }
  simpl in *. exists rs, (host w'), (failed_undos st').
  split; [done|]. split; [done|]. by rewrite T, S, <- app_assoc.
Qed.

(** X9: on a log that is not empty and for [n >= 1], [undo_last_moves]
    returns exactly when the last line of the log has three fields;
    otherwise it ends on the [UnboundLocalError]. *)
Theorem undo_last_moves_returns_iff n w s last_line :
  1 <= n ->
  log_file w = Some s ->
  last (Py.readlines s) = Some last_line ->
  ((undo_last_moves n w).1 = Ret tt <-> three_fields last_line = true)
  /\ ((undo_last_moves n w).1 = Raise unbound_commit_id
      <-> three_fields last_line = false).
Proof.
  intros Hn Hlog Hlast. destruct (three_fields last_line) eqn:Hthree.
  - destruct (undo_last_moves_refines n w s last_line Hn Hlog Hlast Hthree)
      as (rs & h' & failed & _ & _ & ->). simpl. by split; split.
  - rewrite (undo_last_moves_unbound n w s last_line Hn Hlog Hlast Hthree).
    simpl. by split; split.
Qed.

(** A line without three fields met when [commit_id] is bound: one more
    failure under that identifier, nothing else. *)
Lemma undo_move_stale line st w c0 :
  commit_id st = Some c0 ->
  three_fields line = false ->
  undo_move line st w
  = (Ret (mkLocals (Some c0) (successful_undos st)
            (failed_undos st
             ++ ["Error undoing commit " +:+ c0 +:+ ": "
                 +:+ message (read_error line)])),
     w).
Proof.
  intros Hst Hthree. unfold undo_move, read_error.
  unfold three_fields in Hthree.
  destruct (Py.split " | " (Py.strip line)) as [|a [|b [|e [|x parts]]]];
    try discriminate; unfold undo_except, ret; by rewrite Hst.
Qed.

(** A line with three fields binds [commit_id] to its first field, whatever
    becomes of the restore. *)
Lemma undo_move_first_field line st w c :
  first_field line = Some c ->
  exists st' w' extra t,
    undo_move line st w = (Ret st', w')
    /\ commit_id st' = Some c
    /\ failed_undos st' = failed_undos st ++ extra
    /\ trace w' = trace w ++ t.
Proof.
  unfold first_field, undo_move. intros Hf.
  destruct (Py.split " | " (Py.strip line)) as [|a [|b [|e [|x parts]]]];
    try discriminate.
  injection Hf as ->.
  unfold try_except, unpack2, undo_except, query, move, syscall, bind, ret,
    raise; simpl.
  destruct (Py.split " -> " e) as [|o [|n [|y fields]]]; simpl;
    try (eexists _, _, [_], []; by rewrite app_nil_r).
  destruct (os_path_exists n (host w)); simpl.
  - destruct (shutil_move n o (host w)) as [[e'|[]] h]; simpl.
    + by eexists _, _, [_], [_].
    + eexists _, _, [], [_]. by rewrite app_nil_r.
  - eexists _, _, [_], []. by rewrite app_nil_r.
Qed.

Lemma three_fields_first_field line :
  three_fields line = true -> exists c, first_field line = Some c.
Proof.
  unfold three_fields, first_field.
  destruct (Py.split " | " (Py.strip line)) as [|a [|b [|e [|x parts]]]];
    try discriminate. by exists a.
Qed.

(** Once [commit_id] is bound the loop returns, and the failures and the
    trace only grow. *)
Lemma undo_moves_bound moves st w c0 :
  commit_id st = Some c0 ->
  exists st' w' extra t,
    undo_moves moves st w = (Ret st', w')
    /\ failed_undos st' = failed_undos st ++ extra
    /\ trace w' = trace w ++ t.
Proof.
  revert st w c0. induction moves as [|line rest IH]; intros st w c0 Hst; simpl.
  - exists st, w, [], []. by rewrite !app_nil_r.
  - unfold bind. destruct (three_fields line) eqn:Hthree.
    + destruct (three_fields_first_field line Hthree) as [c Hc].
      destruct (undo_move_first_field line st w c Hc)
        as (st1 & w1 & x1 & t1 & -> & C1 & F1 & T1).
      destruct (IH st1 w1 c C1) as (st2 & w2 & x2 & t2 & -> & F2 & T2).
      exists st2, w2, (x1 ++ x2), (t1 ++ t2).
      by rewrite F2, F1, T2, T1, !app_assoc.
    + rewrite (undo_move_stale line st w c0 Hst Hthree).
      destruct (IH (mkLocals (Some c0) (successful_undos st)
                      (failed_undos st
                       ++ ["Error undoing commit " +:+ c0 +:+ ": "
                           +:+ message (read_error line)])) w c0 eq_refl)
        as (st2 & w2 & x2 & t2 & -> & F2 & T2).
      simpl in F2. eexists st2, w2, (_ :: x2), t2.
      split; [done|]. split; [|done]. by rewrite F2, <- app_assoc.
Qed.

Lemma report_events_failed (successful failed : list string) (x : string) :
  x ∈ failed -> EPrint x ∈ report_events successful failed.
Proof.
  intros Hx. unfold report_events. apply elem_of_app. right.
  destruct failed as [|y failed]; [by apply elem_of_nil in Hx|].
  apply list_elem_of_further, list_elem_of_In, in_map.
  by apply list_elem_of_In.
Qed.

(** X10: in [undo_last_moves], a line without three fields is reported
    under the first field of the line processed just before it, that is,
    of the next line of the log, when that one has three fields: for a log
    that ends with such a line [bad] followed by a line [good] whose first
    field is [c0], undoing two moves or more returns and prints, among the
    failures, the error of [bad] as an error undoing commit [c0]. *)
Theorem undo_last_moves_reports_stale_id n w s pre bad good c0 :
  2 <= n ->
  log_file w = Some s ->
  Py.readlines s = pre ++ [bad; good] ->
  first_field good = Some c0 ->
  three_fields bad = false ->
  exists t,
    (undo_last_moves n w).1 = Ret tt
    /\ trace (undo_last_moves n w).2 = trace w ++ t
    /\ EPrint ("Error undoing commit " +:+ c0 +:+ ": "
               +:+ message (read_error bad)) ∈ t.
Proof.
  intros Hn Hlog Hlines Hgood Hbad.
  rewrite (undo_last_moves_run n w s Hlog)
    by (rewrite Hlines; by destruct pre).
  rewrite (slice_from_last n _ ltac:(lia)), Hlines.
  rewrite drop_app_le by (rewrite length_app; simpl; lia).
  rewrite rev_app_distr. simpl. unfold bind.
  destruct (undo_move_first_field good (mkLocals None [] []) w c0 Hgood)
    as (st1 & w1 & x1 & t1 & -> & C1 & F1 & T1).
  rewrite (undo_move_stale bad st1 w1 c0 C1 Hbad).
  destruct (undo_moves_bound
              (rev (drop (length (pre ++ [bad; good]) - Z.to_nat n) pre))
              (mkLocals (Some c0) (successful_undos st1)
                 (failed_undos st1
                  ++ ["Error undoing commit " +:+ c0 +:+ ": "
                      +:+ message (read_error bad)])) w1 c0 eq_refl)
    as (st2 & w2 & x2 & t2 & -> & F2 & T2).
  simpl in *. eexists. split; [done|].
  split; [by rewrite T2, T1, <- !app_assoc|].
  apply elem_of_app. right. apply elem_of_app. right.
  apply report_events_failed. rewrite F2.
  apply elem_of_app. left. apply elem_of_app. right. by left.
Qed.

(** X11: with no log file, or with an empty one, [undo_last_moves] prints
    that there is nothing to undo and returns, for every [n]; it touches
    neither the host nor the log file, and does not create the file. *)
Theorem undo_last_moves_nothing_to_undo n w :
  log_file w = None \/ log_file w = Some EmptyString ->
  undo_last_moves n w
  = (Ret tt,
     mkWorld (host w) (log_file w)
       (trace w ++ [EPrint match log_file w with
                           | None => "No log file found. Nothing to undo."
                           | Some _ => "Log file is empty. Nothing to undo."
                           end])).
Proof.
  intros [Hlog|Hlog]; rewrite Hlog.
  - by apply undo_last_moves_no_log.
  - by apply undo_last_moves_empty_log.
Qed.

(** X12: without [--undo N] for a positive N and without a non-empty
    [--undo_commit], so also with [--undo 0], a negative N or an empty
    identifier, the script categorises: it runs [categorize_files] on the
    entries of the directory that are regular files, in the order they
    were listed.  Folders and other entries are never handed to it. *)
Theorem main_categorize_mode cfg args w entries h :
  undo args <= 0 ->
  undo_commit args = None \/ undo_commit args = Some EmptyString ->
  os_listdir (DIRECTORY cfg) (host w) = (inr entries, h) ->
  main cfg args w
  = categorize_files cfg
      (List.filter
         (fun entry => os_path_isfile (Py.path_join (DIRECTORY cfg) entry) h)
         entries)
      (mkWorld h (log_file w) (trace w)).
Proof.
  intros Hu Hc Hls. unfold main, bind at 1.
  rewrite (list_files_and_folders_returns _ _ _ _ Hls).
  destruct (Z.ltb_spec 0 (undo args)) as [?|_]; [lia|].
  by destruct Hc as [->| ->].
Qed.

End UndoEdges.

(** ** Appending to the log *)

Lemma universal_newlines_app_fuel (n : nat) (a b : string) :
  (String.length a <= n)%nat ->
  a = EmptyString \/ Py.endswith_char Py.LF a = true ->
  Py.universal_newlines (a +:+ b)
  = Py.universal_newlines a +:+ Py.universal_newlines b.
Proof.
  revert a. induction n as [|n IH]; intros a Hlen Ha.
  - destruct a; [done | simpl in Hlen; lia].
  - destruct a as [|c a]; [done|]. cbn [String.length] in Hlen.
    destruct Ha as [?|Ha]; [done|]. rewrite endswith_char_cons in Ha.
    rewrite string_app_cons. cbn [Py.universal_newlines].
    destruct (Ascii.eqb c Py.CR) eqn:Hc.
    + destruct a as [|d a].
      { apply Ascii.eqb_eq in Hc. subst c. done. }
      cbn [String.length] in Hlen. rewrite string_app_cons.
      destruct (Ascii.eqb d Py.LF) eqn:Hd.
      * rewrite string_app_cons. f_equal. apply IH; [lia|].
        rewrite endswith_char_cons in Ha. destruct a; [by left | by right].
      * rewrite string_app_cons. f_equal.
        rewrite <- string_app_cons. apply IH; [cbn [String.length]; lia|].
        by right.
    + rewrite string_app_cons. f_equal. apply IH; [lia|].
      destruct a; [by left | by right].
Qed.

Lemma universal_newlines_app (a b : string) :
  a = EmptyString \/ Py.endswith_char Py.LF a = true ->
  Py.universal_newlines (a +:+ b)
  = Py.universal_newlines a +:+ Py.universal_newlines b.
Proof. by apply (universal_newlines_app_fuel (String.length a)). Qed.

Lemma keepends_not_empty (c : ascii) (t : string) :
  Py.keepends (String c t) <> [].
Proof.
  cbn [Py.keepends]. destruct (Ascii.eqb c Py.LF); [done|].
  by destruct (Py.keepends t).
Qed.

Lemma keepends_app (a b : string) :
  a = EmptyString \/ Py.endswith_char Py.LF a = true ->
  Py.keepends (a +:+ b) = Py.keepends a ++ Py.keepends b.
Proof.
  induction a as [|c a IH]; intros Ha; [done|].
  destruct Ha as [?|Ha]; [done|]. rewrite endswith_char_cons in Ha.
  rewrite string_app_cons. cbn [Py.keepends].
  destruct (Ascii.eqb c Py.LF) eqn:Hc.
  - simpl. f_equal. apply IH. destruct a; [by left | by right].
  - destruct a as [|d a]; [rewrite Ascii.eqb_sym in Ha; congruence|].
    rewrite IH by (by right).
    pose proof (keepends_not_empty d a) as Hne.
    by destruct (Py.keepends (String d a)).
Qed.

Lemma plain_one_line (x : string) :
  plain x = true -> one_line (x +:+ Py.NL) = true.
Proof.
  unfold plain. induction x as [|c x IH]; [done|].
  rewrite !has_char_cons, string_app_cons, one_line_cons.
  intros [[Hcr Hx1]%negb_true_iff%orb_false_iff
          [Hlf Hx2]%negb_true_iff%orb_false_iff]%andb_true_iff.
  rewrite Ascii.eqb_sym in Hcr. rewrite Ascii.eqb_sym in Hlf.
  rewrite Hcr, Hlf. simpl.
  rewrite IH by (by rewrite Hx1, Hx2).
  by destruct (x +:+ Py.NL) eqn:E; [destruct x|].
Qed.

Lemma plain_app (a b : string) :
  plain a = true -> plain b = true -> plain (a +:+ b) = true.
Proof.
  unfold plain. rewrite !has_char_app.
  intros [Ha1%negb_true_iff Ha2%negb_true_iff]%andb_true_iff
         [Hb1%negb_true_iff Hb2%negb_true_iff]%andb_true_iff.
  by rewrite Ha1, Ha2, Hb1, Hb2.
Qed.

Lemma log_line_one_line (ts c original new : string) :
  plain ts = true -> plain c = true ->
  plain original = true -> plain new = true ->
  one_line (log_line ts c original new) = true.
Proof.
  intros Hts Hc Ho Hn. unfold log_line.
  replace (ts +:+ " | " +:+ c +:+ " | " +:+ original +:+ " -> " +:+ new +:+ Py.NL)
    with ((ts +:+ " | " +:+ c +:+ " | " +:+ original +:+ " -> " +:+ new) +:+ Py.NL)
    by (by rewrite !string_app_assoc).
  apply plain_one_line.
  repeat apply plain_app; done.
Qed.

Section LogAppend.

Context {H : Type} `{Host H}.

Implicit Types (w : World H).

(** The lines of the log after [log_move]. *)
Lemma log_move_readlines original new w u h1 ts h2 :
  log_closed (log_file w) = true ->
  uuid4 (host w) = (u, h1) ->
  now h1 = (ts, h2) ->
  plain ts = true -> plain (String.substring 0 8 u) = true ->
  plain original = true -> plain new = true ->
  Py.readlines (default EmptyString (log_file (log_move original new w).2))
  = Py.readlines (default EmptyString (log_file w))
    ++ [log_line ts (String.substring 0 8 u) original new].
Proof.
  intros Hw Hu Hnow Hts Hc Ho Hn.
  rewrite log_move_run, Hu, Hnow. simpl.
  pose proof (log_line_one_line _ _ _ _ Hts Hc Ho Hn) as Hline.
  assert (default EmptyString (log_file w) = EmptyString
          \/ Py.endswith_char Py.LF (default EmptyString (log_file w)) = true)
    as Hclosed.
  { destruct (log_file w) as [s|]; [|by left]. simpl in *.
    apply orb_true_iff in Hw as [Hs%String.eqb_eq|Hs]; [by left | by right]. }
  unfold Py.readlines.
  rewrite (universal_newlines_app _ _ Hclosed).
  rewrite (universal_newlines_id (log_line _ _ _ _)) by (by apply one_line_no_cr).
  rewrite keepends_app.
  - by rewrite (keepends_one_line _ Hline).
  - destruct Hclosed as [->|Hs]; [by left|].
    right. by apply universal_newlines_closed.
Qed.

(** X13: on a log file that is absent, empty or ends with a line feed,
    [log_move] adds exactly one line at the end and leaves the lines before
    it as they read, provided the two paths, the timestamp and the
    identifier hold no carriage return and no line feed. *)
Theorem log_move_appends_one_line original new w u h1 ts h2 :
  log_closed (log_file w) = true ->
  uuid4 (host w) = (u, h1) ->
  now h1 = (ts, h2) ->
  plain ts = true -> plain (String.substring 0 8 u) = true ->
  plain original = true -> plain new = true ->
  Py.readlines (default EmptyString (log_file (log_move original new w).2))
  = Py.readlines (default EmptyString (log_file w))
    ++ [log_line ts (String.substring 0 8 u) original new].
Proof. apply log_move_readlines. Qed.

(** X15: what [log_move] writes is what the undo functions read: on a log
    that is absent, empty or ends with a line feed, the last line of the
    log after [log_move original new] parses to the timestamp and the two
    paths, for a timestamp, an identifier and paths without bar, angle
    bracket, carriage return or line feed, the timestamp not starting and
    the new path not ending with white space. *)
Theorem log_move_reads_back original new w u h1 ts h2 :
  log_closed (log_file w) = true ->
  uuid4 (host w) = (u, h1) ->
  now h1 = (ts, h2) ->
  stamp_ok ts (String.substring 0 8 u) = true ->
  paths_ok original new = true ->
  last (Py.readlines (default EmptyString (log_file (log_move original new w).2)))
    ≫= parse_record
  = Some (ts, original, new).
Proof.
  intros Hw Hu Hnow Hs Hp.
  unfold stamp_ok in Hs. unfold paths_ok in Hp.
  repeat match goal with
         | Hx : _ && _ = true |- _ => apply andb_true_iff in Hx as [? ?]
         | Hx : negb _ = true |- _ => apply negb_true_iff in Hx
         | Hx : String.eqb _ _ = true |- _ => apply String.eqb_eq in Hx
         | Hx : String.eqb _ _ = false |- _ => apply String.eqb_neq in Hx
         end.
  rewrite (log_move_readlines original new w u h1 ts h2) by done.
  rewrite last_snoc. simpl.
  by apply parse_record_log_line.
Qed.

End LogAppend.

(** ** The properties of the categoriser on the reference host *)


(** Without its string in capitals, [capitals_config] lists no extension:
    every run under it is the run under that configuration. *)
Example capitals_config_lists_nothing :
  GROUP_EXTENSIONS (lower_case_only capitals_config) = [("Images", [])].
Proof. reflexivity. Qed.


(** That run on the reference host: it returns, with one move for each of
    the three files, and [a.JPG], whose extension both categories list, is
    in Images and not in Docs. *)
Example first_declared_category_run :
  let r := categorize_files demo_config ["a.JPG"; "notes"; "b.txt"] demo_world in
  r.1 = Ret tt
  /\ omap move_paths (trace r.2)
     = [("/d/a.JPG", "/d/Images/a.JPG"); ("/d/notes", "/d/Unsorted/notes");
        ("/d/b.txt", "/d/Docs/b.txt")]
  /\ RefHost.tree (host r.2) !! "/d/Images/a.JPG" = Some (RefHost.File "photo")
  /\ RefHost.tree (host r.2) !! "/d/Docs/a.JPG" = None.
Proof. by vm_compute. Qed.


(** ** The further properties on the reference host *)

Example categorize_demo_paths :
  omap move_paths (trace demo_sorted)
  = List.map (planned_move demo_config) ["a.JPG"; "notes"; "b.txt"]
  /\ omap log_paths (trace demo_sorted)
     = List.map (planned_move demo_config) ["a.JPG"; "notes"; "b.txt"]
  /\ omap makedirs_path (trace demo_sorted) = ensured_folders demo_config.
Proof. by vm_compute. Qed.

Lemma main_keeps_log_closed_witness :
  log_closed (log_file demo_sorted) = true
  /\ log_closed
       (log_file (main demo_config {| undo := 1; undo_commit := None |}
                    demo_sorted).2) = true.
Proof.
  split; [by vm_compute|].
  apply (main_keeps_log_closed demo_config {| undo := 1; undo_commit := None |}
           demo_sorted).
  by vm_compute.
Defined.

Lemma undo_last_moves_log_reads_back_witness :
  1 <= 1
  /\ log_file demo_sorted = Some demo_log
  /\ last (Py.readlines demo_log) = Some demo_line_b
  /\ three_fields demo_line_b = true
  /\ Py.readlines
       (default EmptyString (log_file (undo_last_moves 1 demo_sorted).2))
     = take (length (Py.readlines demo_log) - Z.to_nat 1) (Py.readlines demo_log).
Proof.
  split; [lia|]. split; [by vm_compute|]. split; [by vm_compute|].
  split; [by vm_compute|].
  apply (undo_last_moves_log_reads_back 1 demo_sorted demo_log demo_line_b);
    [lia | by vm_compute..].
Defined.

Lemma undo_last_moves_twice_witness :
  (undo_last_moves 1 demo_sorted).1 = Ret tt
  /\ (undo_last_moves 1 (undo_last_moves 1 demo_sorted).2).1 = Ret tt
  /\ (undo_last_moves (1 + 1) demo_sorted).1 = Ret tt
  /\ host (undo_last_moves (1 + 1) demo_sorted).2
     = host (undo_last_moves 1 (undo_last_moves 1 demo_sorted).2).2
  /\ log_file (undo_last_moves (1 + 1) demo_sorted).2
     = log_file (undo_last_moves 1 (undo_last_moves 1 demo_sorted).2).2.
Proof.
  split; [by vm_compute|]. split; [by vm_compute|].
  apply (undo_last_moves_twice 1 1 demo_sorted); [lia | lia | by vm_compute..].
Defined.

(** The text of a date is enough to undo the most recent move of that day. *)
Lemma undo_by_commit_id_last_match_witness :
  log_file demo_sorted = Some demo_log
  /\ Py.readlines demo_log = [demo_line_a; demo_line_notes] ++ demo_line_b :: []
  /\ Py.contains "2024-01-01" demo_line_b = true
  /\ parse_record demo_line_b
     = Some ("2024-01-01 10:00:02", "/d/b.txt", "/d/Docs/b.txt")
  /\ undo_by_commit_id "2024-01-01" demo_sorted
     = (Ret tt,
        mkWorld (shutil_move "/d/Docs/b.txt" "/d/b.txt" (host demo_sorted)).2
          (Some (Py.writelines ([demo_line_a; demo_line_notes] ++ [])))
          (trace demo_sorted
           ++ [EMove "/d/Docs/b.txt" "/d/b.txt" None;
               EPrint ("Restored: " +:+ "/d/Docs/b.txt" +:+ " -> "
                       +:+ "/d/b.txt")]))
  /\ Py.readlines (Py.writelines ([demo_line_a; demo_line_notes] ++ []))
     = [demo_line_a; demo_line_notes] ++ [].
Proof.
  split; [by vm_compute|]. split; [by vm_compute|]. split; [by vm_compute|].
  split; [by vm_compute|].
  apply (undo_by_commit_id_last_match "2024-01-01" demo_sorted demo_log
           [demo_line_a; demo_line_notes] demo_line_b []
           "2024-01-01 10:00:02" "/d/b.txt" "/d/Docs/b.txt");
    [by vm_compute | by vm_compute | by vm_compute | constructor
     | by vm_compute | by vm_compute | by vm_compute].
Defined.

Lemma undo_by_commit_id_stops_at_last_match_witness :
  (log_file arrow_sorted = Some arrow_line
   /\ Py.readlines arrow_line = [] ++ arrow_line :: []
   /\ Py.contains "1a2b3c4d" arrow_line = true
   /\ parse_record arrow_line = None
   /\ undo_by_commit_id "1a2b3c4d" arrow_sorted
      = (Ret tt,
         mkWorld (host arrow_sorted) (log_file arrow_sorted)
           (trace arrow_sorted
            ++ [EPrint ("Error undoing commit " +:+ "1a2b3c4d" +:+ ": "
                        +:+ message (read_error arrow_line))])))
  /\ (log_file demo_locked = Some demo_log
      /\ os_path_exists "/d/Docs/b.txt" (host demo_locked) = true
      /\ shutil_move "/d/Docs/b.txt" "/d/b.txt" (host demo_locked)
         = (inl (RefHost.denied "/d/b.txt"), host demo_locked)
      /\ undo_by_commit_id "9c0d1e2f" demo_locked
         = (Ret tt,
            mkWorld (host demo_locked) (log_file demo_locked)
              (trace demo_locked
               ++ [EMove "/d/Docs/b.txt" "/d/b.txt"
                     (Some (RefHost.denied "/d/b.txt"));
                   EPrint ("Error undoing commit " +:+ "9c0d1e2f" +:+ ": "
                           +:+ message (RefHost.denied "/d/b.txt"))]))).
Proof.
  split.
  - split; [by vm_compute|]. split; [by vm_compute|]. split; [by vm_compute|].
    split; [by vm_compute|].
    apply (proj1 (undo_by_commit_id_stops_at_last_match "1a2b3c4d" arrow_sorted
                    arrow_line [] arrow_line []
                    ltac:(by vm_compute) ltac:(by vm_compute)
                    ltac:(by vm_compute) ltac:(constructor))).
    by vm_compute.
  - split; [by vm_compute|]. split; [by vm_compute|]. split; [by vm_compute|].
    apply (proj2 (undo_by_commit_id_stops_at_last_match "9c0d1e2f" demo_locked
                    demo_log [demo_line_a; demo_line_notes] demo_line_b []
                    ltac:(by vm_compute) ltac:(by vm_compute)
                    ltac:(by vm_compute) ltac:(constructor))
             "2024-01-01 10:00:02" "/d/b.txt" "/d/Docs/b.txt");
      by vm_compute.
Defined.

(** Asked to undo zero moves, [undo_last_moves] undoes all three. *)
Lemma undo_last_moves_nonpositive_witness :
  0 <= 0
  /\ log_file demo_sorted = Some demo_log
  /\ last (Py.readlines demo_log) = Some demo_line_b
  /\ three_fields demo_line_b = true
  /\ exists rs h' failed,
       batch (host demo_sorted)
         (rev (drop (Z.to_nat (- 0)) (Py.readlines demo_log))) rs h'
       /\ length failed = length (List.filter is_failure rs)
       /\ undo_last_moves 0 demo_sorted
          = (Ret tt,
             mkWorld h'
               (Some (Py.writelines
                        (take (Z.to_nat (- 0)) (Py.readlines demo_log))))
               (trace demo_sorted ++ flat_map restore_call rs
                ++ report_events (flat_map success_line rs) failed)).
Proof.
  split; [lia|]. split; [by vm_compute|]. split; [by vm_compute|].
  split; [by vm_compute|].
  apply (undo_last_moves_nonpositive 0 demo_sorted demo_log demo_line_b);
    [lia | by vm_compute..].
Defined.

Example undo_zero_undoes_all :
  let r := undo_last_moves 0 demo_sorted in
  r.1 = Ret tt
  /\ omap move_paths (drop (length (trace demo_sorted)) (trace r.2))
     = [("/d/Docs/b.txt", "/d/b.txt"); ("/d/Unsorted/notes", "/d/notes");
        ("/d/Images/a.JPG", "/d/a.JPG")]
  /\ log_file r.2 = Some EmptyString.
Proof. by vm_compute. Qed.

Lemma undo_last_moves_returns_iff_witness :
  1 <= 1
  /\ log_file demo_sorted = Some demo_log
  /\ last (Py.readlines demo_log) = Some demo_line_b
  /\ ((undo_last_moves 1 demo_sorted).1 = Ret tt
      <-> three_fields demo_line_b = true)
  /\ ((undo_last_moves 1 demo_sorted).1 = Raise unbound_commit_id
      <-> three_fields demo_line_b = false).
Proof.
  split; [lia|]. split; [by vm_compute|]. split; [by vm_compute|].
  apply (undo_last_moves_returns_iff 1 demo_sorted demo_log demo_line_b);
    [lia | by vm_compute..].
Defined.

Lemma undo_last_moves_reports_stale_id_witness :
  2 <= 2
  /\ log_file stale_world = Some stale_log
  /\ Py.readlines stale_log = [demo_line_a] ++ ["garbage" +:+ Py.NL; demo_line_b]
  /\ first_field demo_line_b = Some "2024-01-01 10:00:02"
  /\ three_fields ("garbage" +:+ Py.NL) = false
  /\ exists t,
       (undo_last_moves 2 stale_world).1 = Ret tt
       /\ trace (undo_last_moves 2 stale_world).2 = trace stale_world ++ t
       /\ EPrint ("Error undoing commit " +:+ "2024-01-01 10:00:02" +:+ ": "
                  +:+ message (read_error ("garbage" +:+ Py.NL))) ∈ t.
Proof.
  split; [lia|]. split; [reflexivity|]. split; [by vm_compute|].
  split; [by vm_compute|]. split; [by vm_compute|].
  apply (undo_last_moves_reports_stale_id 2 stale_world stale_log
           [demo_line_a] ("garbage" +:+ Py.NL) demo_line_b
           "2024-01-01 10:00:02");
    [lia | reflexivity | by vm_compute..].
Defined.

(** The lines that run prints: the restore of [b.txt], then the error of
    the line that is not a record under the timestamp of the line of
    [b.txt]. *)
Example stale_id_is_printed :
  omap print_text (trace (undo_last_moves 2 stale_world).2)
  = [Py.NL +:+ "Undo Successful:";
     "Restored: /d/Docs/b.txt -> /d/b.txt (Commit ID: 2024-01-01 10:00:02)";
     Py.NL +:+ "Undo Failed:";
     "Error undoing commit 2024-01-01 10:00:02: "
     +:+ "not enough values to unpack (expected 3, got 1)"].
Proof. by vm_compute. Qed.

Lemma undo_last_moves_nothing_to_undo_witness :
  log_file demo_world = None
  /\ undo_last_moves 3 demo_world
     = (Ret tt,
        mkWorld (host demo_world) (log_file demo_world)
          (trace demo_world
           ++ [EPrint match log_file demo_world with
                      | None => "No log file found. Nothing to undo."
                      | Some _ => "Log file is empty. Nothing to undo."
                      end])).
Proof.
  split; [reflexivity|].
  apply (undo_last_moves_nothing_to_undo 3 demo_world). by left.
Defined.

(** With [--undo -1 --undo_commit] and an empty identifier the script
    categorises the three files of [/d]. *)
Lemma main_categorize_mode_witness :
  undo {| undo := -1; undo_commit := Some EmptyString |} <= 0
  /\ os_listdir (DIRECTORY demo_config) (host demo_world)
     = (inr ["a.JPG"; "notes"; "b.txt"], host demo_world)
  /\ main demo_config {| undo := -1; undo_commit := Some EmptyString |} demo_world
     = categorize_files demo_config
         (List.filter
            (fun entry =>
               os_path_isfile (Py.path_join (DIRECTORY demo_config) entry)
                 (host demo_world))
            ["a.JPG"; "notes"; "b.txt"])
         (mkWorld (host demo_world) (log_file demo_world) (trace demo_world)).
Proof.
  split; [by vm_compute|]. split; [by vm_compute|].
  apply (main_categorize_mode demo_config
           {| undo := -1; undo_commit := Some EmptyString |} demo_world
           ["a.JPG"; "notes"; "b.txt"] (host demo_world));
    [by vm_compute | by right | by vm_compute].
Defined.

Lemma log_move_appends_one_line_witness :
  log_closed (log_file demo_sorted) = true
  /\ Py.readlines
       (default EmptyString
          (log_file (log_move "/d/c.txt" "/d/Docs/c.txt" demo_sorted).2))
     = Py.readlines (default EmptyString (log_file demo_sorted))
       ++ [log_line "1970-01-01 00:00:00"
             (String.substring 0 8 "00000000-0000-4000-8000-000000000000")
             "/d/c.txt" "/d/Docs/c.txt"].
Proof.
  split; [by vm_compute|].
  apply (log_move_appends_one_line "/d/c.txt" "/d/Docs/c.txt" demo_sorted
           "00000000-0000-4000-8000-000000000000" (host demo_sorted)
           "1970-01-01 00:00:00" (host demo_sorted));
    by vm_compute.
Defined.

Lemma undo_last_moves_clamps_witness :
  Z.of_nat (length (Py.readlines demo_log)) < 5
  /\ exists rs h' failed,
       batch (host demo_sorted) (rev (Py.readlines demo_log)) rs h'
       /\ length failed = length (List.filter is_failure rs)
       /\ undo_last_moves 5 demo_sorted
          = (Ret tt,
             mkWorld h' (Some EmptyString)
               (trace demo_sorted ++ flat_map restore_call rs
                ++ report_events (flat_map success_line rs) failed)).
Proof.
  split; [by vm_compute|].
  apply (undo_last_moves_clamps 5 demo_sorted demo_log demo_line_b);
    by vm_compute.
Defined.

Example log_line_notes_reads_back :
  parse_record
    (log_line "2024-01-01 10:00:01" "5e6f7a8b" "/d/notes" "/d/Unsorted/notes")
  = Some ("2024-01-01 10:00:01", "/d/notes", "/d/Unsorted/notes").
Proof. apply parse_record_log_line; done. Qed.

(** ** The extension of a file name, and what the script moves *)





Section LastDot.

Context {H : Type} `{Host H}.

Implicit Types (w : World H) (cfg : Config).


(** X17: when the script categorises, every call of [shutil.move] it makes
    is the planned move of an entry of the directory that was a regular
    file when the directory was listed: folders and other entries are
    never moved, and nothing outside the entries listed is. *)
Theorem main_moves_only_files cfg args w entries h :
  undo args <= 0 ->
  undo_commit args = None \/ undo_commit args = Some EmptyString ->
  os_listdir (DIRECTORY cfg) (host w) = (inr entries, h) ->
  exists t,
    trace (main cfg args w).2 = trace w ++ t
    /\ Forall (fun p : string * string =>
                 exists file,
                   file ∈ entries
                   /\ os_path_isfile (Py.path_join (DIRECTORY cfg) file) h = true
                   /\ p = planned_move cfg file)
         (omap move_paths t).
Proof.
  intros Hu Hc Hls.
  assert (main cfg args w
          = categorize_files cfg
              (List.filter
                 (fun entry =>
                    os_path_isfile (Py.path_join (DIRECTORY cfg) entry) h)
                 entries)
              (mkWorld h (log_file w) (trace w))) as ->.
  { unfold main, bind at 1.
    rewrite (list_files_and_folders_returns _ _ _ _ Hls).
    destruct (Z.ltb_spec 0 (undo args)) as [?|_]; [lia|].
    by destruct Hc as [->| ->]. }
  set (files := List.filter _ entries).
  assert (forall l, l ⊆ files ->
            Forall (fun p : string * string =>
                      exists file,
                        file ∈ entries
                        /\ os_path_isfile (Py.path_join (DIRECTORY cfg) file) h
                           = true
                        /\ p = planned_move cfg file)
              (List.map (planned_move cfg) l)) as Hsub.
  { intros l Hl. apply Forall_forall. intros p Hp.
    apply list_elem_of_In, in_map_iff in Hp as [file [<- Hin]].
    exists file. apply list_elem_of_In, Hl in Hin. subst files.
    apply list_elem_of_In, filter_In in Hin as [Hin Hfile].
    by apply list_elem_of_In in Hin. }
  destruct (categorize_files_paths cfg files (mkWorld h (log_file w) (trace w)))
    as (t & Et & Hcases).
  exists t. split; [exact Et|].
  destruct Hcases
    as [(_ & -> & _)|(_ & [[-> _]|(done & file & rest & Ef & -> & _)])].
  - by apply Hsub.
  - constructor.
  - apply Hsub. rewrite Ef. intros x Hx.
    apply elem_of_app in Hx as [Hx|Hx%list_elem_of_singleton].
    + apply elem_of_app. by left.
    + subst x. apply elem_of_app. right. by left.
Qed.

End LastDot.


(** That run on the reference host: both files were there, the run
    returns, and each is in the folder of its last extension. *)
Example last_dot_run :
  let r := categorize_files demo_config [".txt"; "holiday.2024.PNG"] dots_world in
  r.1 = Ret tt
  /\ omap move_paths (trace r.2)
     = [("/d/.txt", "/d/Docs/.txt");
        ("/d/holiday.2024.PNG", "/d/Images/holiday.2024.PNG")]
  /\ RefHost.tree (host r.2) !! "/d/Images/holiday.2024.PNG"
     = Some (RefHost.File "photo")
  /\ RefHost.tree (host r.2) !! "/d/Docs/.txt" = Some (RefHost.File "hidden")
  /\ RefHost.tree (host r.2) !! "/d/holiday.2024.PNG" = None.
Proof. by vm_compute. Qed.

(** A name that starts with its only dot is categorised by the rest of it. *)
Example dotfile_is_categorised_by_its_name :
  route demo_config ".txt" = ("Docs", "Docs")
  /\ route demo_config "archive.tar.gz" = ("Unsorted", "Misc")
  /\ route demo_config "txt" = ("Unsorted", "Misc").
Proof. by vm_compute. Qed.

Lemma main_moves_only_files_witness :
  undo no_args <= 0
  /\ os_listdir (DIRECTORY demo_config) (host demo_world)
     = (inr ["a.JPG"; "notes"; "b.txt"], host demo_world)
  /\ exists t,
       trace (main demo_config no_args demo_world).2 = trace demo_world ++ t
       /\ Forall (fun p : string * string =>
                    exists file,
                      file ∈ ["a.JPG"; "notes"; "b.txt"]
                      /\ os_path_isfile
                           (Py.path_join (DIRECTORY demo_config) file)
                           (host demo_world) = true
                      /\ p = planned_move demo_config file)
            (omap move_paths t).
Proof.
  split; [by vm_compute|]. split; [by vm_compute|].
  apply (main_moves_only_files demo_config no_args demo_world
           ["a.JPG"; "notes"; "b.txt"] (host demo_world));
    [by vm_compute | by left | by vm_compute].
Defined.

Lemma log_move_reads_back_witness :
  log_closed (log_file demo_sorted) = true
  /\ paths_ok "/d/c.txt" "/d/Docs/c.txt" = true
  /\ last (Py.readlines
             (default EmptyString
                (log_file (log_move "/d/c.txt" "/d/Docs/c.txt" demo_sorted).2)))
       ≫= parse_record
     = Some ("1970-01-01 00:00:00", "/d/c.txt", "/d/Docs/c.txt").
Proof.
  split; [by vm_compute|]. split; [by vm_compute|].
  apply (log_move_reads_back "/d/c.txt" "/d/Docs/c.txt" demo_sorted
           "00000000-0000-4000-8000-000000000000" (host demo_sorted)
           "1970-01-01 00:00:00" (host demo_sorted));
    by vm_compute.
Defined.
